(** * ALwrity backend: task polling, progress rescaling and TTL caching

    A shallow embedding of the parts of the backend that the specification
    talks about:

    - [backend/api/subscription/cache.py]: the dashboard cache;
    - [backend/api/blog_writer/router.py]: the status polling endpoints;
    - [backend/api/story_writer/routes/video_generation.py]: the background
      video tasks and their progress callbacks;
    - [backend/api/images.py]: image generation and image serving.

    The last chapter covers more of the same files (the synchronous and
    complete video endpoints, image editing and prompt guidance, the start
    endpoints of the blog writer) and their neighbours:

    - [backend/services/blog_writer/seo/blog_seo_recommendation_applier.py];
    - [backend/api/podcast/handlers/script.py];
    - [backend/alwrity_utils/frontend_serving.py]: the cache headers;
    - [backend/services/integrations/wix/ricos_converter.py]: the HTML
      payload and its length limit.

    Python dictionaries keyed by user or task identifiers are [gmap string _];
    JSON-like payloads ([Dict[str, Any]]) are association lists, which keep
    the insertion order of Python dictionaries.  Floating point seconds and
    percentages are rationals: rounding of IEEE doubles is not modelled. *)

From Stdlib Require Import ZArith QArith Lqa Bool List Ascii String.
From stdpp Require Import base decidable option list gmap strings pretty.
Import ListNotations.

#[local] Set Warnings "-register-all".

Local Open Scope string_scope.

(** ** Python values *)

(** The dynamically typed payloads that travel through the handlers.
    Dictionary keys are always strings in the code modelled here. *)
Inductive pyval : Type :=
| PNone
| PBool (b : bool)
| PInt (z : Z)
| PFloat (q : Q)
| PStr (s : string)
| PList (l : list pyval)
| PDict (d : list (string * pyval)).

(** [bool(x)]: Python truthiness. *)
Definition truthy (x : pyval) : bool :=
  match x with
  | PNone => false
  | PBool b => b
  | PInt z => negb (z =? 0)%Z
  | PFloat q => negb (Qeq_bool q 0%Q)
  | PStr s => negb (String.eqb s "")
  | PList l => match l with [] => false | _ => true end
  | PDict d => match d with [] => false | _ => true end
  end.

(** [a or b]. *)
Definition py_or (a b : pyval) : pyval := if truthy a then a else b.

(** [d.get(k)] on the entries of a dictionary; [None] when [k not in d]. *)
Fixpoint dict_lookup (k : string) (d : list (string * pyval)) : option pyval :=
  match d with
  | [] => None
  | (k', v) :: d' => if String.eqb k k' then Some v else dict_lookup k d'
  end.

(** [d.get(k, dflt)]. *)
Definition dict_get (k : string) (dflt : pyval) (d : list (string * pyval)) : pyval :=
  match dict_lookup k d with Some v => v | None => dflt end.

(** [d[k] = v]: overwrite in place when the key exists, append otherwise. *)
Fixpoint dict_set (k : string) (v : pyval) (d : list (string * pyval)) : list (string * pyval) :=
  match d with
  | [] => [(k, v)]
  | (k', v') :: d' =>
      if String.eqb k k' then (k, v) :: d' else (k', v') :: dict_set k v d'
  end.

(** [x < y] on the rationals, as a boolean. *)
Definition Qltb (x y : Q) : bool := negb (Qle_bool y x).

(** [str.lower()] on the ASCII range; the bytes of other code points are
    kept, and no such code point lowers to an ASCII letter used below. *)
Definition ascii_lower (c : ascii) : ascii :=
  let n := nat_of_ascii c in
  if (65 <=? n)%nat && (n <=? 90)%nat then ascii_of_nat (n + 32) else c.

Fixpoint lower (s : string) : string :=
  match s with
  | EmptyString => EmptyString
  | String c s' => String (ascii_lower c) (lower s')
  end.

(** [os.getenv(name, dflt)]. *)
Definition getenv (environ : gmap string string) (name dflt : string) : string :=
  default dflt (environ !! name).

(** ** The dashboard cache ([api/subscription/cache.py]) *)

Module Cache.

(** The two module-level dictionaries. *)
Record store : Type := mk_store {
  _dashboard_cache : gmap string pyval;
  _dashboard_cache_ts : gmap string Q
}.

Definition empty_store : store := mk_store ∅ ∅.

Definition _DASHBOARD_CACHE_TTL_SEC : Q := 600%Q.

(** The bypass test at the top of [get_cached_dashboard]. *)
Definition nocache (environ : gmap string string) : bool :=
  bool_decide
    (lower (getenv environ "SUBSCRIPTION_DASHBOARD_NOCACHE" "false")
       ∈ ["1"; "true"; "yes"; "on"]).

(** [get_cached_dashboard(user_id)] called when [time.time()] reads [now].
    [None] is Python's [None]; the second component is the store after
    the call. *)
Definition get_cached_dashboard (environ : gmap string string) (now : Q)
    (user_id : string) (s : store) : option pyval * store :=
  if nocache environ then (None, s)
  else
    match _dashboard_cache s !! user_id with
    | Some data =>
        if Qltb (now - default 0%Q (_dashboard_cache_ts s !! user_id))%Q
                _DASHBOARD_CACHE_TTL_SEC
        then (Some data, s)
        else (None, s)
    | None => (None, s)
    end.

(** [set_cached_dashboard(user_id, data)] called when [time.time()] reads
    [now]. *)
Definition set_cached_dashboard (now : Q) (user_id : string) (data : pyval)
    (s : store) : store :=
  mk_store (<[user_id := data]> (_dashboard_cache s))
           (<[user_id := now]> (_dashboard_cache_ts s)).

(** [clear_dashboard_cache(user_id)]: [None] and the empty string are
    both falsy and clear every entry. *)
Definition clear_dashboard_cache (user_id : option string) (s : store) : store :=
  match user_id with
  | Some u =>
      if negb (String.eqb u "")
      then mk_store (delete u (_dashboard_cache s)) (delete u (_dashboard_cache_ts s))
      else empty_store
  | None => empty_store
  end.

(** Calls made by the rest of the process between two observations. *)
Inductive call : Type :=
| CGet (environ : gmap string string) (now : Q) (user_id : string)
| CSet (now : Q) (user_id : string) (data : pyval)
| CClear (user_id : option string).

Definition step (c : call) (s : store) : store :=
  match c with
  | CGet environ now u => snd (get_cached_dashboard environ now u s)
  | CSet now u data => set_cached_dashboard now u data s
  | CClear u => clear_dashboard_cache u s
  end.

Definition run (cs : list call) (s : store) : store :=
  fold_left (fun s c => step c s) cs s.

(** A set for [u], or a clear that removes the entry of [u]. *)
Definition touches (u : string) (c : call) : bool :=
  match c with
  | CGet _ _ _ => false
  | CSet _ u' _ => String.eqb u' u
  | CClear None => true
  | CClear (Some u') => String.eqb u' "" || String.eqb u' u
  end.

End Cache.

(** ** Exceptions and results *)

(** Instances of [Exception].  [HTTPException] is FastAPI's; every other
    class is kept by name together with its [str()]. *)
Inductive exn : Type :=
| HTTPException (status_code : Z) (detail : string)
| PyError (cls : string) (msg : string).

(** [str(e)]; Starlette renders an [HTTPException] as its code, a colon and
    its detail. *)
Definition str_exn (e : exn) : string :=
  match e with
  | HTTPException c d => pretty c ++ ": " ++ d
  | PyError _ msg => msg
  end.

(** What a call does: it returns a value or raises. *)
Inductive outcome (A : Type) : Type :=
| Return (a : A)
| Raise (e : exn).
Arguments Return {A} a.
Arguments Raise {A} e.

(** What a handler hands back to FastAPI when it returns. *)
Inductive response : Type :=
| Plain (body : pyval)
| JSONResponse (status_code : pyval) (content : pyval)
| FileResponse (path : string) (media_type : string) (filename : string).

(** The two [except] clauses that close most handlers:
    [except HTTPException: raise] and
    [except Exception as e: raise HTTPException(500, str(e))]. *)
Definition reraise {A} (o : outcome A) : outcome A :=
  match o with
  | Return a => Return a
  | Raise (HTTPException c d) => Raise (HTTPException c d)
  | Raise e => Raise (HTTPException 500 (str_exn e))
  end.

(** [type(v).__name__]. *)
Definition type_name (v : pyval) : string :=
  match v with
  | PNone => "NoneType"
  | PBool _ => "bool"
  | PInt _ => "int"
  | PFloat _ => "float"
  | PStr _ => "str"
  | PList _ => "list"
  | PDict _ => "dict"
  end.

(** [v.get]: only dictionaries have the method. *)
Definition as_dict (v : pyval) : outcome (list (string * pyval)) :=
  match v with
  | PDict d => Return d
  | _ => Raise (PyError "AttributeError"
                  ("'" ++ type_name v ++ "' object has no attribute 'get'"))
  end.

(** [d[k]]. *)
Definition dict_index (k : string) (d : list (string * pyval)) : outcome pyval :=
  match dict_lookup k d with
  | Some v => Return v
  | None => Raise (PyError "KeyError" ("'" ++ k ++ "'"))
  end.

(** ** The status endpoints ([api/blog_writer/router.py]) *)

Module BlogRouter.

(** Modelled from the spec: the task manager of the blog writer
    ([api/blog_writer/task_manager.py]) is not part of the sources.  Its
    read operation returns the snapshot dictionary of a known task and
    signals an unknown identifier by [None]. *)
Definition get_task_status (tasks : gmap string (list (string * pyval)))
    (task_id : string) : option (list (string * pyval)) :=
  tasks !! task_id.

(** [v == 'failed']-style comparisons with a string literal. *)
Definition eq_str (v : pyval) (s : string) : bool :=
  match v with PStr s' => String.eqb s' s | _ => false end.

(** [v == n] for an integer literal [n]. *)
Definition eq_int (v : pyval) (n : Z) : bool :=
  match v with
  | PInt z => (z =? n)%Z
  | PFloat q => Qeq_bool q (inject_Z n)
  | PBool b => ((if b then 1 else 0) =? n)%Z
  | _ => false
  end.

(** [v in [429, 402]]. *)
Definition is_limit_status (v : pyval) : bool := eq_int v 429 || eq_int v 402.

(** [len(v)], or the [TypeError] of a value without a length. *)
Definition py_len (v : pyval) : outcome nat :=
  match v with
  | PStr s => Return (String.length s)
  | PList l => Return (List.length l)
  | PDict d => Return (List.length d)
  | PNone => Raise (PyError "TypeError" "object of type 'NoneType' has no len()")
  | PBool _ => Raise (PyError "TypeError" "object of type 'bool' has no len()")
  | PInt _ => Raise (PyError "TypeError" "object of type 'int' has no len()")
  | PFloat _ => Raise (PyError "TypeError" "object of type 'float' has no len()")
  end.

(** The counters copied into [usage_info] when they are present. *)
Definition usage_keys : list string :=
  ["current_tokens"; "requested_tokens"; "limit"; "current_calls"].

Section Handlers.
(** Python's [str()] on payload values. *)
Variable py_str : pyval -> string.
(** The asset database and the guarded block that records a finished
    blog in it; the block swallows its own exceptions. *)
Variable DB : Type.
Variable track_blog : string -> list (string * pyval) -> pyval -> DB -> DB.

(** The branch taken for a failed task whose [error_status] is 429 or
    402.  The three handlers that have it differ in log text only. *)
Definition subscription_error (status : list (string * pyval)) : response :=
  let error_data := py_or (dict_get "error_data" (PDict []) status) (PDict []) in
  let error_status := dict_get "error_status" (PInt 429) status in
  let error_data :=
    match error_data with
    | PDict d => d
    | other => [("error", PStr (py_str other))]
    end in
  let stored_error_message :=
    dict_get "error" (dict_get "error" PNone error_data) status in
  let provider := dict_get "provider" (PStr "unknown") error_data in
  let usage_info := dict_get "usage_info" PNone error_data in
  let usage_info :=
    if negb (truthy usage_info) then
      PDict
        (fold_left
           (fun ui key =>
              match dict_lookup key error_data with
              | Some v => dict_set key v ui
              | None => ui
              end)
           usage_keys
           [("provider", provider);
            ("message", stored_error_message);
            ("error_type", dict_get "error_type" (PStr "unknown") error_data)])
    else usage_info in
  let fallback := py_or stored_error_message (PStr "Subscription limit exceeded") in
  let error_msg := dict_get "message" fallback error_data in
  JSONResponse error_status
    (PDict [("error", dict_get "error" fallback error_data);
            ("message", error_msg);
            ("provider", provider);
            ("usage_info", usage_info)]).

Definition is_subscription_failure (status : list (string * pyval)) : bool :=
  eq_str (dict_get "status" PNone status) "failed"
  && is_limit_status (dict_get "error_status" PNone status).

(** [GET /research/status/{task_id}].  The log line before the final
    [return] indexes [status['status']] and takes a [len]. *)
Definition get_research_status (tasks : gmap string (list (string * pyval)))
    (task_id : string) : outcome response :=
  reraise
    match get_task_status tasks task_id with
    | None => Raise (HTTPException 404 "Task not found")
    | Some status =>
        if is_subscription_failure status then Return (subscription_error status)
        else
          match dict_lookup "status" status with
          | None => Raise (PyError "KeyError" "'status'")
          | Some _ =>
              match py_len (dict_get "progress_messages" (PList []) status) with
              | Raise e => Raise e
              | Return _ => Return (Plain (PDict status))
              end
          end
    end.

(** [GET /outline/status/{task_id}]. *)
Definition get_outline_status (tasks : gmap string (list (string * pyval)))
    (task_id : string) : outcome response :=
  reraise
    match get_task_status tasks task_id with
    | None => Raise (HTTPException 404 "Task not found")
    | Some status => Return (Plain (PDict status))
    end.

(** The shared body of the content and medium status handlers; [kind]
    selects the title prefix and tags used when tracking. *)
Definition tracked_status (kind : string)
    (tasks : gmap string (list (string * pyval))) (task_id : string)
    (current_user : pyval) (db : DB) : DB * outcome response :=
  match get_task_status tasks task_id with
  | None => (db, reraise (Raise (HTTPException 404 "Task not found")))
  | Some status =>
      let db' :=
        if eq_str (dict_get "status" PNone status) "completed"
           && truthy (dict_get "result" PNone status)
        then track_blog kind status current_user db
        else db in
      (db',
       reraise
         (if is_subscription_failure status
          then Return (subscription_error status)
          else Return (Plain (PDict status))))
  end.

(** [GET /content/status/{task_id}]. *)
Definition content_generation_status := tracked_status "Blog".

(** [GET /generate/medium/status/{task_id}]. *)
Definition medium_generation_status := tracked_status "Medium Blog".

(** [GET /rewrite/status/{task_id}], reading the service's own task
    manager. *)
Definition rewrite_status (service_tasks : gmap string (list (string * pyval)))
    (task_id : string) : outcome response :=
  reraise
    match get_task_status service_tasks task_id with
    | None => Raise (HTTPException 404 "Task not found")
    | Some status => Return (Plain (PDict status))
    end.
End Handlers.

End BlogRouter.

(** Raising calls are chained with stdpp's [x ← m; k]. *)
#[global] Instance outcome_ret : MRet outcome := fun A a => Return a.
#[global] Instance outcome_bind : MBind outcome := fun A B f o =>
  match o with
  | Return a => f a
  | Raise e => Raise e
  end.

(** Iterating over a value: a list yields its items, a dictionary its keys,
    a string its characters; anything else is not iterable. *)
Definition py_iter (v : pyval) : outcome (list pyval) :=
  match v with
  | PList l => Return l
  | PDict d => Return (map (fun kv => PStr (fst kv)) d)
  | PStr s => Return (map (fun c => PStr (String c EmptyString)) (list_ascii_of_string s))
  | _ => Raise (PyError "TypeError" ("'" ++ type_name v ++ "' object is not iterable"))
  end.

(** [v[:n]]. *)
Definition py_prefix (n : nat) (v : pyval) : outcome pyval :=
  match v with
  | PStr s => Return (PStr (substring 0 n s))
  | PList l => Return (PList (firstn n l))
  | _ => Raise (PyError "TypeError" ("'" ++ type_name v ++ "' object is not subscriptable"))
  end.

(** [min(a, b)] and [max(a, b)] on floats: the first argument wins ties. *)
Definition py_min (a b : Q) : Q := if Qltb b a then b else a.
Definition py_max (a b : Q) : Q := if Qltb a b then b else a.

(** [s.split(sep)] for a one-character separator. *)
Fixpoint split_on (sep : ascii) (s : string) : list string :=
  match s with
  | EmptyString => [EmptyString]
  | String c s' =>
      if Ascii.eqb c sep then EmptyString :: split_on sep s'
      else match split_on sep s' with
           | h :: t => String c h :: t
           | [] => [String c EmptyString]
           end
  end.

(** ** Background video tasks ([api/story_writer/routes/video_generation.py]) *)

Module StoryVideo.

(** Modelled from the spec: the task manager of the story writer
    ([api/story_writer/task_manager.py]) is not part of the sources.  This
    is the Task of the data model with the [create] and [update] contract
    of the Task Registry: a task starts [pending]; an update overwrites
    the fields it is given and appends its message to
    [progress_messages]; a task that reached [completed] or [failed] is
    left as it is, and so is the registry when the identifier is unknown.
    Timestamps and the [error_status]/[error_data] pair, which this
    router never passes, are left out. *)
Record task : Type := mk_task {
  task_type : string;
  status : string;
  progress : Q;
  message : option string;
  progress_messages : list string;
  result : option pyval;
  error : option string
}.

(** Modelled from the spec: the two terminal states of the task state
    machine. *)
Definition is_terminal (st : string) : bool :=
  String.eqb st "completed" || String.eqb st "failed".

(** Modelled from the spec: a task as [create] allocates it. *)
Definition pending_task (type : string) : task :=
  mk_task type "pending" 0%Q None [] None None.

(** Modelled from the spec: the partial [update] of the Task Registry,
    called as [update_task_status(task_id, status, progress=, message=,
    result=, error=)]. *)
Definition update_task_status (task_id st : string) (new_progress : option Q)
    (new_message : option string) (new_result : option pyval)
    (new_error : option string) (reg : gmap string task) : gmap string task :=
  match reg !! task_id with
  | None => reg
  | Some t =>
      if is_terminal (status t) then reg
      else
        <[task_id :=
            mk_task (task_type t) st
              (default (progress t) new_progress)
              (from_option Some (message t) new_message)
              (progress_messages t ++ option_list new_message)%list
              (from_option Some (result t) new_result)
              (from_option Some (error t) new_error)]> reg
  end.


(** Code that runs against the registry and may raise. *)
Definition M (A : Type) : Type := gmap string task -> gmap string task * outcome A.

#[global] Instance M_ret : MRet M := fun A a reg => (reg, Return a).
#[global] Instance M_bind : MBind M := fun A B f m reg =>
  match m reg with
  | (reg', Return a) => f a reg'
  | (reg', Raise e) => (reg', Raise e)
  end.

(** A call that does not touch the registry. *)
Definition lift {A} (o : outcome A) : M A := fun reg => (reg, o).

(** [task_manager.update_task_status(...)]. *)
Definition update (task_id st : string) (new_progress : option Q)
    (new_message : option string) (new_result : option pyval)
    (new_error : option string) : M unit :=
  fun reg =>
    (update_task_status task_id st new_progress new_message new_result new_error reg,
     Return tt).

(** A service call given a progress callback: the service reports the
    sub-progress events in order, then returns or raises. *)
Definition with_progress (callback : Q -> string -> gmap string task -> gmap string task)
    (run : list (Q * string) * outcome pyval) : M pyval :=
  fun reg => (fold_left (fun r ev => callback (fst ev) (snd ev) r) (fst run) reg, snd run).

(** [try: body except Exception as exc: handler(exc)]. *)
Definition try_except (body : M unit) (handler : exn -> M unit) : M unit :=
  fun reg =>
    match body reg with
    | (reg', Return tt) => (reg', Return tt)
    | (reg', Raise exc) => handler exc reg'
    end.

(** The fields of [StoryVideoGenerationRequest] read by the asynchronous
    path; a scene is kept as its dictionary. *)
Record StoryVideoGenerationRequest : Type := mk_request {
  scenes : list pyval;
  image_urls : list string;
  audio_urls : list string;
  story_title : option string;
  fps : option Z;
  transition_duration : option Q
}.

(** [url.split("/")[-1].split("?")[0]]. *)
Definition url_filename (url : string) : string :=
  hd EmptyString (split_on "?" (List.last (split_on "/" url) EmptyString)).

(** [zip(a, b, c)]. *)
Fixpoint zip3 {A B C} (a : list A) (b : list B) (c : list C) : list (A * B * C) :=
  match a, b, c with
  | x :: a', y :: b', z :: c' => (x, y, z) :: zip3 a' b' c'
  | _, _, _ => []
  end.

(** Sub-progress rescaled into the range of the stage. *)
Definition async_overall (sub_progress : Q) : Q :=
  (5.0 + py_max 0.0 (py_min 100.0 sub_progress) * 0.9)%Q.
Definition image_overall (sub_progress : Q) : Q := (30.0 + sub_progress * 0.2)%Q.
Definition audio_overall (sub_progress : Q) : Q := (50.0 + sub_progress * 0.2)%Q.
Definition video_overall (sub_progress : Q) : Q := (75.0 + sub_progress * 0.2)%Q.

(** The four closures handed to the services. *)
Definition progress_callback (task_id : string) (sub_progress : Q) (msg : string)
    (reg : gmap string task) : gmap string task :=
  update_task_status task_id "processing" (Some (async_overall sub_progress))
    (Some msg) None None reg.

Definition image_progress_callback (task_id : string) (sub_progress : Q)
    (msg : string) (reg : gmap string task) : gmap string task :=
  update_task_status task_id "processing" (Some (image_overall sub_progress))
    (Some msg) None None reg.

Definition audio_progress_callback (task_id : string) (sub_progress : Q)
    (msg : string) (reg : gmap string task) : gmap string task :=
  update_task_status task_id "processing" (Some (audio_overall sub_progress))
    (Some msg) None None reg.

Definition video_progress_callback (task_id : string) (sub_progress : Q)
    (msg : string) (reg : gmap string task) : gmap string task :=
  update_task_status task_id "processing" (Some (video_overall sub_progress))
    (Some msg) None None reg.


Definition premise_keys : list string :=
  ["persona"; "story_setting"; "character_input"; "plot_elements";
   "writing_style"; "story_tone"; "narrative_pov"; "audience_age_group";
   "content_rating"; "ending_preference"].

(** [key=request_data[key]] for each key in turn. *)
Fixpoint index_all (keys : list string) (d : list (string * pyval))
    : outcome (list (string * pyval)) :=
  match keys with
  | [] => Return []
  | k :: ks => v ← dict_index k d; kvs ← index_all ks d; mret ((k, v) :: kvs)
  end.

Section Services.
(** Python's [str()] and [str.strip()], and [==] on payload values. *)
Variable py_str : pyval -> string.
Variable py_strip : string -> string.
Variable py_eq : pyval -> pyval -> bool.
(** [uuid]-style identifier chosen by [create_task]. *)
Variable new_task_id : gmap string task -> string.
(** The output directories of the image and audio services, [dir / name]
    rendered by [str()], and [Path.exists()], which may raise. *)
Variable image_output_dir audio_output_dir : string.
Variable joinpath : string -> string -> string.
Variable path_exists : string -> outcome bool.
(** The services, by the keyword arguments they are called with.  Those
    taking a progress callback report a list of sub-progress events
    before they return or raise. *)
Variable generate_premise : list (string * pyval) -> outcome pyval.
Variable generate_outline : list (string * pyval) -> outcome pyval.
Variable generate_scene_images :
  list (string * pyval) -> list (Q * string) * outcome pyval.
Variable generate_scene_audio_list :
  list (string * pyval) -> list (Q * string) * outcome pyval.
Variable generate_story_video :
  list (string * pyval) -> list (Q * string) * outcome pyval.

(** Modelled from the spec: [create_task(task_type)] allocates a pending
    task under a new identifier and returns the identifier. *)
Definition create_task (type : string) (reg : gmap string task)
    : string * gmap string task :=
  let task_id := new_task_id reg in
  (task_id, <[task_id := pending_task type]> reg).

(** [utils/auth.py]. *)
Definition require_authenticated_user (current_user : pyval) : outcome string :=
  if negb (truthy current_user)
  then Raise (HTTPException 401 "Authentication required")
  else
    d ← as_dict current_user;
    let user_id := py_strip (py_str (dict_get "id" (PStr "") d)) in
    if String.eqb user_id ""
    then Raise (HTTPException 401 "Invalid user ID in authentication token")
    else Return user_id.

(** The work queued by [background_tasks.add_task]. *)
Definition queued : Type := string * StoryVideoGenerationRequest * string.

(** [POST /generate-video-async]. *)
Definition generate_story_video_async (request : StoryVideoGenerationRequest)
    (current_user : pyval) (reg : gmap string task) (background_tasks : list queued)
    : gmap string task * list queued * outcome response :=
  match require_authenticated_user current_user with
  | Raise e => (reg, background_tasks, reraise (Raise e))
  | Return user_id =>
      if (List.length (scenes request) =? 0)%nat
      then (reg, background_tasks,
            reraise (Raise (HTTPException 400 "At least one scene is required")))
      else if negb (List.length (scenes request) =? List.length (image_urls request))%nat
              || negb (List.length (scenes request) =? List.length (audio_urls request))%nat
      then (reg, background_tasks,
            reraise (Raise (HTTPException 400
              "Number of scenes, image URLs, and audio URLs must match")))
      else
        let '(task_id, reg') := create_task "story_video_generation" reg in
        (reg', (background_tasks ++ [(task_id, request, user_id)])%list,
         reraise (Return (Plain (PDict [("task_id", PStr task_id);
                                        ("status", PStr "pending");
                                        ("message", PStr "Video generation started")]))))
  end.

(** The loop that keeps the scenes whose image and audio files exist. *)
Fixpoint resolve_assets (items : list (pyval * string * string))
    (image_paths audio_paths : list string) (valid_scenes : list pyval)
    : outcome (list string * list string * list pyval) :=
  match items with
  | [] => Return (image_paths, audio_paths, valid_scenes)
  | (scene, image_url, audio_url) :: rest =>
      let image_path := joinpath image_output_dir (url_filename image_url) in
      let audio_path := joinpath audio_output_dir (url_filename audio_url) in
      image_there ← path_exists image_path;
      if negb image_there then resolve_assets rest image_paths audio_paths valid_scenes
      else
        audio_there ← path_exists audio_path;
        if negb audio_there then resolve_assets rest image_paths audio_paths valid_scenes
        else resolve_assets rest (image_paths ++ [image_path])%list
               (audio_paths ++ [audio_path])%list (valid_scenes ++ [scene])%list
  end.

Definition title_or_default (t : option string) : string :=
  match t with
  | Some s => if String.eqb s "" then "Story" else s
  | None => "Story"
  end.

Definition fps_or_default (f : option Z) : Z :=
  match f with
  | Some z => if (z =? 0)%Z then 24%Z else z
  | None => 24%Z
  end.

Definition transition_or_default (d : option Q) : Q :=
  match d with
  | Some q => if Qeq_bool q 0 then 0.5%Q else q
  | None => 0.5%Q
  end.

(** The [try] block of [_execute_video_generation_task]. *)
Definition video_task_body (task_id : string) (request : StoryVideoGenerationRequest)
    (user_id : string) : M unit :=
  update task_id "processing" (Some 2.0%Q)
    (Some "Initializing video generation...") None None;;
  '(image_paths, audio_paths, valid_scenes) ←
    lift (resolve_assets
            (zip3 (scenes request) (image_urls request) (audio_urls request))
            [] [] []);
  (if (List.length image_paths =? 0)%nat || (List.length audio_paths =? 0)%nat
      || negb (List.length image_paths =? List.length audio_paths)%nat
   then lift (Raise (PyError "RuntimeError"
          "No valid or mismatched image/audio assets for video generation."))
   else mret tt);;
  video ← with_progress (progress_callback task_id)
    (generate_story_video
       [("scenes", PList valid_scenes);
        ("image_paths", PList (map PStr image_paths));
        ("audio_paths", PList (map PStr audio_paths));
        ("user_id", PStr user_id);
        ("story_title", PStr (title_or_default (story_title request)));
        ("fps", PInt (fps_or_default (fps request)));
        ("transition_duration",
         PFloat (transition_or_default (transition_duration request)))]);
  update task_id "completed" (Some 100.0%Q) (Some "Video generation complete!")
    (Some (PDict [("video", video); ("success", PBool true)])) None.

(** The background task behind [/generate-video-async]. *)
Definition _execute_video_generation_task (task_id : string)
    (request : StoryVideoGenerationRequest) (user_id : string) : M unit :=
  try_except (video_task_body task_id request user_id)
    (fun exc =>
       update task_id "failed" None
         (Some ("Video generation failed: " ++ str_exn exc)) None
         (Some (str_exn exc))).

(** [next((r for r in results if r.get("scene_number") == n), None)]. *)
Fixpoint find_scene (results : list pyval) (scene_number : pyval) : outcome pyval :=
  match results with
  | [] => Return PNone
  | r :: rest =>
      d ← as_dict r;
      if py_eq (dict_get "scene_number" PNone d) scene_number
      then Return r
      else find_scene rest scene_number
  end.

(** One round of the loop that pairs each scene with its image and its
    audio file. *)
Definition collate_scene (image_results audio_results : pyval)
    (acc : list pyval * list pyval * list pyval) (scene : pyval)
    : outcome (list pyval * list pyval * list pyval) :=
  let '(image_paths, audio_paths, valid_scenes) := acc in
  d ← as_dict scene;
  let scene_number := dict_get "scene_number" (PInt 0) d in
  images ← py_iter image_results;
  image_result ← find_scene images scene_number;
  audios ← py_iter audio_results;
  audio_result ← find_scene audios scene_number;
  if truthy image_result && truthy audio_result then
    image_d ← as_dict image_result;
    if truthy (dict_get "error" PNone image_d) then Return acc
    else
      audio_d ← as_dict audio_result;
      if truthy (dict_get "error" PNone audio_d) then Return acc
      else
        let image_path := dict_get "image_path" PNone image_d in
        let audio_path := dict_get "audio_path" PNone audio_d in
        if truthy image_path && truthy audio_path
        then Return ((image_paths ++ [image_path])%list,
                     (audio_paths ++ [audio_path])%list,
                     (valid_scenes ++ [scene])%list)
        else Return acc
  else Return acc.

Fixpoint collate (image_results audio_results : pyval)
    (acc : list pyval * list pyval * list pyval) (outline_scenes : list pyval)
    : outcome (list pyval * list pyval * list pyval) :=
  match outline_scenes with
  | [] => Return acc
  | scene :: rest =>
      acc' ← collate_scene image_results audio_results acc scene;
      collate image_results audio_results acc' rest
  end.

(** The [try] block of [execute_complete_video_generation]. *)
Definition complete_video_body (task_id : string)
    (request_data : list (string * pyval)) (user_id : string) : M unit :=
  update task_id "processing" (Some 5.0%Q)
    (Some "Starting complete video generation...") None None;;
  update task_id "processing" (Some 10.0%Q)
    (Some "Generating story premise...") None None;;
  premise ← lift (kw ← index_all premise_keys request_data;
                   generate_premise (kw ++ [("user_id", PStr user_id)])%list);
  update task_id "processing" (Some 20.0%Q)
    (Some "Generating structured outline with scenes...") None None;;
  outline ← lift (kw ← index_all premise_keys request_data;
                   generate_outline
                     (("premise", premise) :: kw
                        ++ [("user_id", PStr user_id);
                            ("use_structured_output", PBool true)])%list);
  outline_scenes ← lift (match outline with
                         | PList l => Return l
                         | _ => Raise (PyError "RuntimeError"
                                         "Failed to generate structured outline")
                         end);
  update task_id "processing" (Some 30.0%Q)
    (Some "Generating images for scenes...") None None;;
  image_results ← with_progress (image_progress_callback task_id)
    (generate_scene_images
       [("scenes", outline);
        ("user_id", PStr user_id);
        ("provider", dict_get "image_provider" PNone request_data);
        ("width", dict_get "image_width" (PInt 1024) request_data);
        ("height", dict_get "image_height" (PInt 1024) request_data);
        ("model", dict_get "image_model" PNone request_data)]);
  update task_id "processing" (Some 50.0%Q)
    (Some "Generating audio narration for scenes...") None None;;
  audio_results ← with_progress (audio_progress_callback task_id)
    (generate_scene_audio_list
       [("scenes", outline);
        ("user_id", PStr user_id);
        ("provider", dict_get "audio_provider" (PStr "gtts") request_data);
        ("lang", dict_get "audio_lang" (PStr "en") request_data);
        ("slow", dict_get "audio_slow" (PBool false) request_data);
        ("rate", dict_get "audio_rate" (PInt 150) request_data)]);
  update task_id "processing" (Some 70.0%Q)
    (Some "Preparing video assets...") None None;;
  '(image_paths, audio_paths, valid_scenes) ←
    lift (collate image_results audio_results ([], [], []) outline_scenes);
  (if (List.length image_paths =? 0)%nat || (List.length audio_paths =? 0)%nat
   then lift (Raise (PyError "RuntimeError"
          ("No valid images or audio files were generated. Images: "
             ++ pretty (List.length image_paths) ++ ", Audio: "
             ++ pretty (List.length audio_paths))))
   else if negb (List.length image_paths =? List.length audio_paths)%nat
   then lift (Raise (PyError "RuntimeError"
          ("Mismatch between image and audio counts. Images: "
             ++ pretty (List.length image_paths) ++ ", Audio: "
             ++ pretty (List.length audio_paths))))
   else mret tt);;
  update task_id "processing" (Some 75.0%Q)
    (Some "Composing video from scenes...") None None;;
  title ← lift (py_prefix 50 (dict_get "story_setting" (PStr "Story") request_data));
  video_result ← with_progress (video_progress_callback task_id)
    (generate_story_video
       [("scenes", PList valid_scenes);
        ("image_paths", PList image_paths);
        ("audio_paths", PList audio_paths);
        ("user_id", PStr user_id);
        ("story_title", title);
        ("fps", dict_get "video_fps" (PInt 24) request_data);
        ("transition_duration",
         dict_get "video_transition_duration" (PFloat 0.5) request_data)]);
  update task_id "completed" (Some 100.0%Q)
    (Some "Complete video generation finished!")
    (Some (PDict [("premise", premise);
                  ("outline_scenes", outline);
                  ("images", image_results);
                  ("audio_files", audio_results);
                  ("video", video_result);
                  ("success", PBool true)])) None.

(** The background task behind [/generate-complete-video]. *)
Definition execute_complete_video_generation (task_id : string)
    (request_data : list (string * pyval)) (user_id : string) : M unit :=
  try_except (complete_video_body task_id request_data user_id)
    (fun exc =>
       update task_id "failed" None
         (Some ("Complete video generation failed: " ++ str_exn exc)) None
         (Some (str_exn exc))).

End Services.


(** *** Properties of registry code used below *)




End StoryVideo.

(** ** Image generation and serving ([api/images.py]) *)

Module Images.

Record ImageGenerateRequest : Type := mk_image_request {
  prompt : string;
  negative_prompt : option string;
  req_provider : option string;
  req_model : option string;
  req_width : option Z;
  req_height : option Z;
  guidance_scale : option Q;
  steps : option Z;
  req_seed : option Z
}.

(** What [generate_image] returns.  The handler itself tests
    [result.provider] before using it, so the field may be empty. *)
Record ImageGenerationResult : Type := mk_image_result {
  image_bytes : string;
  res_width : Z;
  res_height : Z;
  res_provider : option string;
  res_model : option string;
  res_seed : option Z
}.

Record ImageGenerateResponse : Type := mk_image_response {
  success : bool;
  image_base64 : string;
  image_url : option string;
  width : Z;
  height : Z;
  provider : string;
  model : option string;
  seed : option Z
}.

(** A file written by [save_file_safely]: [str(path)] and [path.name]. *)
Record saved_file : Type := mk_saved { saved_path : string; saved_name : string }.

(** [req.provider = None]. *)
Definition clear_provider (req : ImageGenerateRequest) : ImageGenerateRequest :=
  mk_image_request (prompt req) (negative_prompt req) None (req_model req)
    (req_width req) (req_height req) (guidance_scale req) (steps req) (req_seed req).

Definition unavailable : string :=
  "Image generation service is temporarily unavailable or the connection was reset. Please try again.".

Section Generate.
(** Python's [str()] and [base64.b64encode(...).decode("utf-8")]. *)
Variable py_str : pyval -> string.
Variable b64encode : string -> string.
(** The disk and the databases behind the helpers. *)
Variable World : Type.
(** [generate_image(prompt, options, user_id)] of the provider facade. *)
Variable generate_image :
  ImageGenerateRequest -> string -> World -> World * outcome ImageGenerationResult.
(** [utils/file_storage.py] and [utils/asset_tracker.py]. *)
Variable sanitize_filename : string -> outcome string.
Variable generate_unique_filename : string -> outcome string.
Variable save_file_safely :
  string -> string -> World -> World * outcome (option saved_file * option string).
Variable save_asset_to_library :
  ImageGenerateRequest -> ImageGenerationResult -> string -> saved_file -> string ->
  World -> World * outcome pyval.
(** The usage tracking block, which catches whatever it raises. *)
Variable track_usage : string -> ImageGenerationResult -> World -> World.

(** [if save_error] on an optional message. *)
Definition has_error (save_error : option string) : bool :=
  match save_error with
  | Some msg => negb (String.eqb msg "")
  | None => false
  end.

(** The guarded block that writes the image to disk and records it in
    the asset library; it yields [image_url]. *)
Definition save_and_track (req : ImageGenerateRequest)
    (result : ImageGenerationResult) (user_id : string) (w : World)
    : World * option string :=
  match sanitize_filename (substring 0 50 (prompt req)) with
  | Raise _ => (w, None)
  | Return clean_prompt =>
      match generate_unique_filename ("img_" ++ clean_prompt) with
      | Raise _ => (w, None)
      | Return image_filename =>
          match save_file_safely (image_bytes result) image_filename w with
          | (w1, Raise _) => (w1, None)
          | (w1, Return (Some image_path, save_error)) =>
              if has_error save_error then (w1, None)
              else
                let url := "/api/images/image-studio/images/" ++ saved_name image_path in
                (fst (save_asset_to_library req result user_id image_path url w1),
                 Some url)
          | (w1, Return (None, _)) => (w1, None)
          end
      end
  end.

(** The body of one attempt of the retry loop.  [ImageGenerateResponse]
    declares [provider: str], so building the response from a result
    without a provider raises a validation error. *)
Definition attempt (req : ImageGenerateRequest) (user_id : string) (w : World)
    : World * outcome ImageGenerateResponse :=
  match generate_image req user_id w with
  | (w1, Raise e) => (w1, Raise e)
  | (w1, Return result) =>
      let image_b64 := b64encode (image_bytes result) in
      let '(w2, url) := save_and_track req result user_id w1 in
      let w3 := track_usage user_id result w2 in
      match res_provider result with
      | Some p =>
          (w3, Return (mk_image_response true image_b64 url (res_width result)
                         (res_height result) p (res_model result) (res_seed result)))
      | None =>
          (w3, Raise (PyError "ValidationError"
                        "1 validation error for ImageGenerateResponse"))
      end
  end.

Definition provider_given (req : ImageGenerateRequest) : bool :=
  match req_provider req with
  | Some p => negb (String.eqb p "")
  | None => false
  end.

(** [POST /api/images/generate].  The closing [except Exception] also
    catches the two 401 errors raised at the top. *)
Definition generate (req : ImageGenerateRequest) (current_user : pyval) (w : World)
    : World * outcome ImageGenerateResponse :=
  let fail := Raise (HTTPException 500 unavailable) in
  if negb (truthy current_user) then (w, fail)
  else
    match as_dict current_user with
    | Raise _ => (w, fail)
    | Return d =>
        let user_id := py_str (dict_get "id" (PStr "") d) in
        if String.eqb user_id "" then (w, fail)
        else
          match attempt req user_id w with
          | (w1, Return response) => (w1, Return response)
          | (w1, Raise _) =>
              if provider_given req then
                match attempt (clear_provider req) user_id w1 with
                | (w2, Return response) => (w2, Return response)
                | (w2, Raise _) => (w2, fail)
                end
              else (w1, fail)
          end
    end.
End Generate.

(** *** Serving *)

(** Paths are absolute and resolved: the list of their components below
    the root.  The file system is taken to have no symbolic links, so
    [Path.resolve()] only works off the [.] and [..] components. *)
Definition step_component (p : list string) (seg : string) : list string :=
  if String.eqb seg "" || String.eqb seg "." then p
  else if String.eqb seg ".." then removelast p
  else (p ++ [seg])%list.

(** [name] has an embedded NUL byte. *)
Definition has_nul (name : string) : bool :=
  existsb (Ascii.eqb Ascii.zero) (list_ascii_of_string name).

(** What the operating system's calls raise on a path with a NUL byte. *)
Definition null_byte_error : exn := PyError "ValueError" "embedded null byte".

(** [(base / name).resolve()]; an absolute [name] replaces [base].
    Resolving visits the components of the path through the operating
    system, which refuses a component with a NUL byte; the directories
    of the backend have none. *)
Definition join_resolve (base : list string) (name : string)
    : outcome (list string) :=
  if has_nul name then Raise null_byte_error
  else Return (fold_left step_component (split_on "/" name)
                 (if String.prefix "/" name then [] else base)).

(** [str(path)] and [path.name]. *)
Definition path_str (p : list string) : string :=
  match p with
  | [] => "/"
  | _ => String.concat "" (map (fun seg => "/" ++ seg) p)
  end.

Definition path_name (p : list string) : string := List.last p "".

(** [image_filename.replace("edited/", "", 1)] when the name starts with
    that prefix. *)
Definition strip_edited (image_filename : string) : string :=
  substring 7 (String.length image_filename - 7) image_filename.

(** The path looked up and the directory it must stay in. *)
Definition image_path (image_studio_dir : list string) (image_filename : string)
    : outcome (list string) :=
  if String.prefix "edited/" image_filename
  then join_resolve (image_studio_dir ++ ["edited"])%list (strip_edited image_filename)
  else join_resolve image_studio_dir image_filename.

Definition base_subdir (image_studio_dir : list string) (image_filename : string)
    : list string :=
  if String.prefix "edited/" image_filename
  then (image_studio_dir ++ ["edited"])%list
  else image_studio_dir.

(** [path.relative_to(base)] succeeds. *)
Definition is_relative_to (path base : list string) : bool :=
  bool_decide (base `prefix_of` path).

(** [GET /api/images/image-studio/images/{image_filename:path}]. *)
Definition serve_image_studio_image (image_studio_dir : list string)
    (path_exists : list string -> outcome bool)
    (image_filename : string) (current_user : pyval) : outcome response :=
  reraise
    (if negb (truthy current_user)
     then Raise (HTTPException 401 "Authentication required")
     else
       path ← image_path image_studio_dir image_filename;
       if negb (is_relative_to path (base_subdir image_studio_dir image_filename))
       then Raise (HTTPException 403 "Access denied: Invalid image path")
       else
         there ← path_exists path;
         if negb there then Raise (HTTPException 404 "Image not found")
         else Return (FileResponse (path_str path) "image/png" (path_name path))).

End Images.

(** ** The synchronous video endpoint and the complete-video endpoint
    ([api/story_writer/routes/video_generation.py]) *)

Module StoryVideoMore.
Import StoryVideo.

(** [urls[idx] if idx < len(urls) else None], read as the handler tests it:
    a missing, [None] or empty URL counts as absent. *)
Definition url_at (urls : list (option string)) (idx : nat) : option string :=
  match urls !! idx with
  | Some (Some u) => if String.eqb u "" then None else Some u
  | _ => None
  end.

(** [request.video_urls or [None] * len(request.scenes)]. *)
Definition urls_or_none (urls : option (list (option string))) (n : nat)
    : list (option string) :=
  match urls with
  | Some (u :: us) => u :: us
  | _ => replicate n None
  end.

(** The four lists the loop of [generate_story_video] fills. *)
Record collected : Type := mk_collected {
  video_paths : list (option string);
  image_paths : list (option string);
  audio_paths : list string;
  valid_scenes : list pyval
}.

(** [None] entries are passed on as Python's [None]. *)
Definition opt_str (p : option string) : pyval :=
  match p with Some s => PStr s | None => PNone end.

Section Sync.
Variable py_str : pyval -> string.
Variable py_strip : string -> string.
Variable new_task_id : gmap string task -> string.
(** The directory of the animated videos and the output directories of the
    image and audio services. *)
Variable ai_video_dir image_output_dir audio_output_dir : string.
Variable joinpath : string -> string -> string.
Variable path_exists : string -> outcome bool.
(** [video_service.generate_story_video(...)] without a callback, and the
    validating constructor of [StoryVideoResult]. *)
Variable generate_story_video : list (string * pyval) -> outcome pyval.
Variable StoryVideoResult : list (string * pyval) -> outcome pyval.

(** The part of one round that picks the animated video or the image: the
    lists after the appends of the round, and whether the round goes on
    ([false] stands for [continue]). *)
Definition pick_visual (video_url : option string) (image_url : string)
    (c : collected) : outcome (collected * bool) :=
  after_video ←
    match video_url with
    | Some url =>
        let video_path := joinpath ai_video_dir (url_filename url) in
        there ← path_exists video_path;
        if there : bool
        then Return (mk_collected (video_paths c ++ [Some video_path])%list
                       (image_paths c ++ [None])%list (audio_paths c) (valid_scenes c),
                     true)
        else Return (mk_collected (video_paths c ++ [None])%list (image_paths c)
                       (audio_paths c) (valid_scenes c),
                     false)
    | None => Return (c, false)
    end;
  let c1 := fst after_video in
  if snd after_video : bool then Return (c1, true)
  else
    let image_path := joinpath image_output_dir (url_filename image_url) in
    there ← path_exists image_path;
    if there : bool
    then Return (mk_collected (video_paths c1 ++ [None])%list
                   (image_paths c1 ++ [Some image_path])%list
                   (audio_paths c1) (valid_scenes c1),
                 true)
    else Return (c1, false).

(** The part of one round that picks the AI audio or the free audio;
    [None] stands for [continue]. *)
Definition pick_audio (ai_audio_url : option string) (audio_url : string)
    : outcome (option string) :=
  ai_path ←
    match ai_audio_url with
    | Some url =>
        let audio_path := joinpath audio_output_dir (url_filename url) in
        there ← path_exists audio_path;
        Return (if there : bool then Some audio_path else None)
    | None => Return None
    end;
  match ai_path with
  | Some p => Return (Some p)
  | None =>
      let audio_path := joinpath audio_output_dir (url_filename audio_url) in
      there ← path_exists audio_path;
      Return (if there : bool then Some audio_path else None)
  end.

(** The loop over [enumerate(zip(scenes_data, image_urls, audio_urls))].
    A round that ends in [continue] keeps what it appended before. *)
Fixpoint collect (video_urls ai_audio_urls : list (option string)) (idx : nat)
    (items : list (pyval * string * string)) (c : collected) : outcome collected :=
  match items with
  | [] => Return c
  | (scene, image_url, audio_url) :: rest =>
      visual ← pick_visual (url_at video_urls idx) image_url c;
      let c1 := fst visual in
      if snd visual : bool then
        audio ← pick_audio (url_at ai_audio_urls idx) audio_url;
        match audio with
        | None => collect video_urls ai_audio_urls (S idx) rest c1
        | Some audio_path =>
            collect video_urls ai_audio_urls (S idx) rest
              (mk_collected (video_paths c1) (image_paths c1)
                 (audio_paths c1 ++ [audio_path])%list
                 (valid_scenes c1 ++ [scene])%list)
        end
      else collect video_urls ai_audio_urls (S idx) rest c1
  end.

(** [POST /generate-video]; [video_urls] and [ai_audio_urls] are the two
    optional lists of the request that only this handler reads. *)
Definition generate_story_video_sync (request : StoryVideoGenerationRequest)
    (video_urls ai_audio_urls : option (list (option string)))
    (current_user : pyval) : outcome response :=
  reraise
    (user_id ← require_authenticated_user py_str py_strip current_user;
     if (List.length (scenes request) =? 0)%nat
     then Raise (HTTPException 400 "At least one scene is required")
     else if negb (List.length (scenes request) =? List.length (image_urls request))%nat
             || negb (List.length (scenes request) =? List.length (audio_urls request))%nat
     then Raise (HTTPException 400
                   "Number of scenes, image URLs, and audio URLs must match")
     else
       c ← collect (urls_or_none video_urls (List.length (scenes request)))
             (urls_or_none ai_audio_urls (List.length (scenes request))) 0
             (zip3 (scenes request) (image_urls request) (audio_urls request))
             (mk_collected [] [] [] []);
       if (List.length (valid_scenes c) =? 0)%nat || (List.length (audio_paths c) =? 0)%nat
       then Raise (HTTPException 400 "No valid video/image or audio files were found")
       else if negb (List.length (valid_scenes c) =? List.length (audio_paths c))%nat
       then Raise (HTTPException 400
                     "Number of valid scenes and audio files must match")
       else
         video_result ←
           generate_story_video
             [("scenes", PList (valid_scenes c));
              ("image_paths", PList (map opt_str (image_paths c)));
              ("video_paths", PList (map opt_str (video_paths c)));
              ("audio_paths", PList (map PStr (audio_paths c)));
              ("user_id", PStr user_id);
              ("story_title", PStr (title_or_default (story_title request)));
              ("fps", PInt (fps_or_default (fps request)));
              ("transition_duration",
               PFloat (transition_or_default (transition_duration request)))];
         d ← as_dict video_result;
         video_model ←
           StoryVideoResult
             [("video_filename", dict_get "video_filename" (PStr "") d);
              ("video_url", dict_get "video_url" (PStr "") d);
              ("duration", dict_get "duration" (PFloat 0.0) d);
              ("fps", dict_get "fps" (PInt 24) d);
              ("file_size", dict_get "file_size" (PInt 0) d);
              ("num_scenes", dict_get "num_scenes" (PInt 0) d);
              ("error", dict_get "error" PNone d)];
         Return (Plain (PDict [("video", video_model); ("success", PBool true)]))).


End Sync.


(** [m] changes no task other than [task_id]. *)
Definition touches_only {A} (task_id : string) (m : M A) : Prop :=
  forall reg other, other <> task_id -> fst (m reg) !! other = reg !! other.

End StoryVideoMore.

(** ** Image editing and prompt guidance ([api/images.py]) *)

Module ImagesMore.
Import Images.

Record ImageEditRequest : Type := mk_edit_request {
  edit_image_base64 : string;
  edit_prompt : string;
  edit_provider : option string;
  edit_model : option string;
  edit_guidance_scale : option Q;
  edit_steps : option Z;
  edit_seed : option Z
}.

Record ImageEditResponse : Type := mk_edit_response {
  edit_success : bool;
  edited_image_base64 : string;
  edited_image_url : option string;
  edited_width : Z;
  edited_height : Z;
  edited_provider : string;
  edited_model : option string;
  edited_result_seed : option Z
}.

Definition edit_unavailable : string :=
  "Image editing service is temporarily unavailable or the connection was reset. Please try again.".

Section Edit.
(** Python's [str()], [base64.b64decode] and
    [base64.b64encode(...).decode("utf-8")].  The decoder is called
    without [validate=True]: it skips the characters outside the
    alphabet and raises when what is left cannot be decoded. *)
Variable py_str : pyval -> string.
Variable b64decode : string -> outcome string.
Variable b64encode : string -> string.
Variable World : Type.
(** [edit_image(input_image_bytes, prompt, options, user_id)] of the
    provider facade. *)
Variable edit_image :
  string -> ImageEditRequest -> string -> World -> World * outcome ImageGenerationResult.
Variable sanitize_filename : string -> outcome string.
Variable generate_unique_filename : string -> outcome string.
Variable save_file_safely :
  string -> string -> World -> World * outcome (option saved_file * option string).
Variable save_asset_to_library :
  ImageEditRequest -> ImageGenerationResult -> string -> saved_file -> string ->
  World -> World * outcome pyval.
(** The usage tracking block, which catches whatever it raises. *)
Variable track_usage : string -> ImageGenerationResult -> World -> World.

(** The guarded block that writes the edited image below [edited/] and
    records it in the asset library; it yields [image_url]. *)
Definition save_and_track_edit (req : ImageEditRequest)
    (result : ImageGenerationResult) (user_id : string) (w : World)
    : World * option string :=
  match sanitize_filename (substring 0 50 (edit_prompt req)) with
  | Raise _ => (w, None)
  | Return clean_prompt =>
      match generate_unique_filename ("edited_" ++ clean_prompt) with
      | Raise _ => (w, None)
      | Return image_filename =>
          match save_file_safely (image_bytes result) image_filename w with
          | (w1, Raise _) => (w1, None)
          | (w1, Return (Some image_path, save_error)) =>
              if has_error save_error then (w1, None)
              else
                let url :=
                  "/api/images/image-studio/images/edited/" ++ saved_name image_path in
                (fst (save_asset_to_library req result user_id image_path url w1),
                 Some url)
          | (w1, Return (None, _)) => (w1, None)
          end
      end
  end.

(** [POST /api/images/edit].  Unlike [generate], the handler re-raises an
    [HTTPException] before its catch-all clause. *)
Definition edit (req : ImageEditRequest) (current_user : pyval) (w : World)
    : World * outcome ImageEditResponse :=
  let fail := Raise (HTTPException 500 edit_unavailable) in
  if negb (truthy current_user)
  then (w, Raise (HTTPException 401 "Authentication required"))
  else
    match as_dict current_user with
    | Raise _ => (w, fail)
    | Return d =>
        let user_id := py_str (dict_get "id" (PStr "") d) in
        if String.eqb user_id ""
        then (w, Raise (HTTPException 401 "Invalid user ID in authentication token"))
        else
          match b64decode (edit_image_base64 req) with
          | Raise e =>
              (w, Raise (HTTPException 400 ("Invalid image_base64: " ++ str_exn e)))
          | Return input_image_bytes =>
              match edit_image input_image_bytes req user_id w with
              | (w1, Raise (HTTPException c detail)) => (w1, Raise (HTTPException c detail))
              | (w1, Raise _) => (w1, fail)
              | (w1, Return result) =>
                  let edited_image_b64 := b64encode (image_bytes result) in
                  let '(w2, url) := save_and_track_edit req result user_id w1 in
                  let w3 := track_usage user_id result w2 in
                  match res_provider result with
                  | Some p =>
                      (w3, Return (mk_edit_response true edited_image_b64 url
                                     (res_width result) (res_height result) p
                                     (res_model result) (res_seed result)))
                  | None => (w3, fail)
                  end
              end
          end
    end.
End Edit.

(** *** Model guidance *)

Definition MODEL_SPECIFIC_GUIDANCE : list (string * pyval) :=
 [
  ("ideogram-v3-turbo",
   PDict
    [
     ("text_overlay",
      PDict
        [
         ("guidance",
          PStr "Ideogram V3 excels at rendering readable text. Use simple, bold text (max 3-5 words). Avoid complex infographics - instead create clean backgrounds with designated text areas.");
         ("best_practices",
          PList
            [
             PStr "Use high contrast areas (top 20% or bottom 20%) for text placement";
             PStr "Keep text simple: headlines, statistics, or short phrases only";
             PStr "Avoid rendering text as part of complex graphics";
             PStr "Design with 'text overlay zones' in mind, not embedded text"]);
         ("negative_prompt_additions",
          PStr "complex infographics, detailed charts with text, busy data visualizations")]);
     ("realistic",
      PDict
        [
         ("guidance",
          PStr "Photorealistic generation with professional quality. Include camera settings and lighting cues.");
         ("best_practices",
          PList
            [
             PStr "Include camera settings: '50mm lens, f/2.8, professional photography'";
             PStr "Specify lighting: 'natural lighting, soft shadows, rim light'";
             PStr "Add quality descriptors: 'high quality, detailed, sharp focus'"])]);
     ("chart",
      PDict
        [
         ("guidance",
          PStr "Simple bar charts or pie charts with minimal text. Use high contrast areas for labels.");
         ("best_practices",
          PList
            [
             PStr "Avoid complex infographics - use simple visual representations";
             PStr "Design with text overlay zones, not embedded text";
             PStr "Use abstract data visualization elements"]);
         ("warnings",
          PList
            [
             PStr "Complex infographics are too difficult - use simple charts or conceptual representations"])]);
     ("conceptual",
      PDict
        [
         ("guidance",
          PStr "Conceptual imagery with photorealistic elements. Clean compositions with text overlay areas.");
         ("best_practices",
          PList
            [
             PStr "Focus on visual metaphors and abstract concepts";
             PStr "Design with text overlay zones in mind (top/bottom 30%)";
             PStr "Use simple, clear compositions"])])]);
  ("flux-kontext-pro",
   PDict
    [
     ("text_overlay",
      PDict
        [
         ("guidance",
          PStr "FLUX Kontext Pro excels at typography and text rendering with improved prompt adherence. Best for professional designs with text elements.");
         ("best_practices",
          PList
            [
             PStr "Excellent for images requiring clear, readable text";
             PStr "Superior typography rendering compared to other models";
             PStr "Improved prompt adherence for consistent results";
             PStr "Can handle text in various styles and sizes";
             PStr "Best for professional blog images with embedded text or typography"]);
         ("negative_prompt_additions",
          PStr "")]);
     ("realistic",
      PDict
        [
         ("guidance",
          PStr "Photorealistic generation with professional typography support. Include text elements naturally in the composition.");
         ("best_practices",
          PList
            [
             PStr "Can render text elements within realistic scenes";
             PStr "Include typography naturally in the design";
             PStr "Specify text style, size, and placement in prompts";
             PStr "Use for professional designs requiring text integration"])]);
     ("chart",
      PDict
        [
         ("guidance",
          PStr "Excellent for data visualizations with text labels. Can render simple charts with clear typography.");
         ("best_practices",
          PList
            [
             PStr "Can render charts with text labels effectively";
             PStr "Use for data visualizations requiring clear typography";
             PStr "Specify chart type and label requirements clearly";
             PStr "Design with text integration in mind"]);
         ("warnings",
          PList
            [
             PStr "Complex infographics may still be challenging - start with simple charts"])]);
     ("diagram",
      PDict
        [
         ("guidance",
          PStr "Technical diagrams with clear text labels. Excellent typography for professional diagrams.");
         ("best_practices",
          PList
            [
             PStr "Can render diagrams with embedded text labels";
             PStr "Specify text requirements clearly in prompts";
             PStr "Use for technical illustrations requiring typography";
             PStr "Design with text integration as a core element"])]);
     ("illustration",
      PDict
        [
         ("guidance",
          PStr "Stylized illustrations with typography support. Professional designs with text elements.");
         ("best_practices",
          PList
            [
             PStr "Can integrate text naturally into illustrations";
             PStr "Specify typography style and placement";
             PStr "Use for professional blog illustrations with text";
             PStr "Design with text as a design element"])]);
     ("conceptual",
      PDict
        [
         ("guidance",
          PStr "Conceptual imagery with typography capabilities. Can include text elements naturally.");
         ("best_practices",
          PList
            [
             PStr "Can integrate text into conceptual designs";
             PStr "Use for abstract concepts with text support";
             PStr "Specify text requirements in prompts";
             PStr "Design with typography as a visual element"])])]);
  ("qwen-image",
   PDict
    [
     ("text_overlay",
      PDict
        [
         ("guidance",
          PStr "Qwen Image does NOT render readable text well. Design for text overlay areas only - never ask for text in the image itself.");
         ("best_practices",
          PList
            [
             PStr "Create clean backgrounds with high-contrast safe zones";
             PStr "Design simple compositions with space for text (top/bottom 30%)";
             PStr "Use abstract or conceptual imagery that supports text";
             PStr "NEVER request text, words, or labels in the image"]);
         ("negative_prompt_additions",
          PStr "text, words, letters, numbers, labels, captions, infographics with text")]);
     ("conceptual",
      PDict
        [
         ("guidance",
          PStr "Best for abstract concepts, simple diagrams, and background imagery.");
         ("best_practices",
          PList
            [
             PStr "Focus on visual metaphors and abstract representations";
             PStr "Use simple compositions with clear focal points";
             PStr "Avoid complex details or fine textures"])]);
     ("chart",
      PDict
        [
         ("guidance",
          PStr "Abstract representation of data - avoid actual charts. Use shapes, colors, and patterns to represent data concepts.");
         ("best_practices",
          PList
            [
             PStr "Create visual metaphors for data, not actual charts";
             PStr "Use abstract patterns and shapes";
             PStr "Design with text overlay zones for data labels"]);
         ("warnings",
          PList
            [
             PStr "Do not request actual charts with text - use abstract representations instead"])]);
     ("background",
      PDict
        [
         ("guidance",
          PStr "Perfect for background images with text overlay areas. Clean, simple compositions.");
         ("best_practices",
          PList
            [
             PStr "Focus on clean backgrounds with designated text zones";
             PStr "Use simple, uncluttered compositions";
             PStr "High contrast areas for text placement"])])])].

Section Guidance.
(** Python's [str.lower()]. *)
Variable py_lower : string -> string.

(** [x or dflt] on an optional string. *)
Definition str_or (x : option string) (dflt : string) : string :=
  match x with
  | Some s => if String.eqb s "" then dflt else s
  | None => dflt
  end.

(** [get_model_specific_guidance(model, image_type)]. *)
Definition get_model_specific_guidance (model image_type : option string)
    : list (string * pyval) :=
  match model with
  | None => []
  | Some m =>
      if String.eqb m "" then []
      else
        let model_lower := py_lower m in
        let image_type_lower := py_lower (str_or image_type "conceptual") in
        match dict_get model_lower (PDict []) MODEL_SPECIFIC_GUIDANCE with
        | PDict model_guidance =>
            match dict_get image_type_lower
                    (dict_get "text_overlay" (PDict []) model_guidance)
                    model_guidance with
            | PDict type_guidance => type_guidance
            | _ => []
            end
        | _ => []
        end
  end.
End Guidance.

End ImagesMore.

(** ** The start endpoints ([api/blog_writer/router.py]) *)

Module BlogRouterMore.

(** The single clause [except Exception as e: raise HTTPException(500,
    str(e))] of the handlers that do not re-raise an [HTTPException]
    first. *)
Definition wrap_500 {A} (o : outcome A) : outcome A :=
  match o with
  | Return a => Return a
  | Raise e => Raise (HTTPException 500 (str_exn e))
  end.

(** [v > n] for a payload value and an integer. *)
Definition py_gt_int (v : pyval) (n : Z) : outcome bool :=
  match v with
  | PInt z => Return (n <? z)%Z
  | PBool b => Return (n <? (if b then 1 else 0))%Z
  | PFloat q => Return (Qltb (inject_Z n) q)
  | _ => Raise (PyError "TypeError"
                  ("'>' not supported between instances of '" ++ type_name v
                   ++ "' and 'int'"))
  end.

(** The body returned once a task has been started. *)
Definition started (task_id : string) : response :=
  Plain (PDict [("task_id", PStr task_id); ("status", PStr "started")]).

Section Start.
Variable py_str : pyval -> string.
(** The validated request body, the field the medium handler reads from
    it, and the task manager with its registry. *)
Variable Request : Type.
Variable globalTargetWords : Request -> pyval.
Variable Tasks : Type.
Variable start_research_task : Request -> string -> Tasks -> Tasks * outcome string.
Variable start_outline_task : Request -> string -> Tasks -> Tasks * outcome string.
Variable start_medium_generation_task :
  Request -> string -> Tasks -> Tasks * outcome string.

(** The guard that opens each handler: [dflt] is the default handed to
    [current_user.get('id', ...)], [detail] the text of the second 401. *)
Definition user_id_or_401 (dflt : pyval) (detail : string) (current_user : pyval)
    : outcome string :=
  if negb (truthy current_user)
  then Raise (HTTPException 401 "Authentication required")
  else
    d ← as_dict current_user;
    let user_id := py_str (dict_get "id" dflt d) in
    if String.eqb user_id "" then Raise (HTTPException 401 detail)
    else Return user_id.

(** [POST /research/start]. *)
Definition start_research (request : Request) (current_user : pyval) (tasks : Tasks)
    : Tasks * outcome response :=
  match user_id_or_401 (PStr "") "Invalid user ID in authentication token"
          current_user with
  | Raise e => (tasks, reraise (Raise e))
  | Return user_id =>
      let '(tasks', task_id) := start_research_task request user_id tasks in
      (tasks', reraise (t ← task_id; Return (started t)))
  end.

(** [POST /outline/start]: no [except HTTPException: raise]. *)
Definition start_outline_generation (request : Request) (current_user : pyval)
    (tasks : Tasks) : Tasks * outcome response :=
  match user_id_or_401 PNone "User ID not found in authentication token"
          current_user with
  | Raise e => (tasks, wrap_500 (Raise e))
  | Return user_id =>
      let '(tasks', task_id) := start_outline_task request user_id tasks in
      (tasks', wrap_500 (t ← task_id; Return (started t)))
  end.

(** [POST /generate/medium/start]. *)
Definition start_medium_generation (request : Request) (current_user : pyval)
    (tasks : Tasks) : Tasks * outcome response :=
  match user_id_or_401 PNone "User ID not found in authentication token"
          current_user with
  | Raise e => (tasks, reraise (Raise e))
  | Return user_id =>
      match py_gt_int (py_or (globalTargetWords request) (PInt 1000)) 1000 with
      | Raise e => (tasks, reraise (Raise e))
      | Return true =>
          (tasks,
           Raise (HTTPException 400
                    "Global target words exceed 1000; use per-section generation"))
      | Return false =>
          let '(tasks', task_id) :=
            start_medium_generation_task request user_id tasks in
          (tasks', reraise (t ← task_id; Return (started t)))
      end
  end.
End Start.

End BlogRouterMore.

(** ** Applying SEO recommendations
    ([services/blog_writer/seo/blog_seo_recommendation_applier.py] and
    its route in [api/blog_writer/router.py]) *)

Module SeoApplier.

(** The separator ["\n\n"]. *)
Definition blank_line : string :=
  String (ascii_of_nat 10) (String (ascii_of_nat 10) EmptyString).

(** [v[i]] for a non-negative integer index.  The dictionaries here come
    from JSON and have string keys only. *)
Definition py_item (v : pyval) (i : nat) : outcome pyval :=
  match v with
  | PList l =>
      match l !! i with
      | Some x => Return x
      | None => Raise (PyError "IndexError" "list index out of range")
      end
  | PStr s =>
      match String.get i s with
      | Some c => Return (PStr (String c EmptyString))
      | None => Raise (PyError "IndexError" "string index out of range")
      end
  | PDict _ => Raise (PyError "KeyError" (pretty i))
  | _ => Raise (PyError "TypeError"
                  ("'" ++ type_name v ++ "' object is not subscriptable"))
  end.

Section Applier.
(** Python's [str()] and [str.strip()]. *)
Variable py_str : pyval -> string.
Variable py_strip : string -> string.
(** The subscription and provider state behind the text generator. *)
Variable World : Type.
(** [_build_prompt(title=..., sections=..., outline=..., research=...,
    recommendations=..., persona=..., tone=..., audience=...)]: the
    text of the prompt is not looked into here, only whether building
    it raises. *)
Variable _build_prompt :
  pyval -> pyval -> pyval -> pyval -> pyval -> pyval -> pyval -> pyval ->
  outcome string.
(** [llm_text_gen(prompt, None, schema, user_id)]. *)
Variable llm_text_gen : string -> string -> World -> World * outcome pyval.
(** The [detail] of an [HTTPException] that is not a string, as the
    response carries it. *)
Variable render_detail : pyval -> string.

(** A list of paragraphs is joined, anything else is kept. *)
Definition join_paragraphs (content_text : pyval) : pyval :=
  match content_text with
  | PList l =>
      PStr (String.concat blank_line
              (map (fun p => py_strip (py_str p)) (List.filter truthy l)))
  | other => other
  end.

(** [str(content_text).strip()] after the join. *)
Definition content_of (content_text : pyval) : pyval :=
  PStr (py_strip (py_str (join_paragraphs content_text))).

(** One round of the loop that fills [updated_map]. *)
Definition index_updated (updated_map : list (string * pyval)) (updated : pyval)
    : outcome (list (string * pyval)) :=
  u ← as_dict updated;
  let section_id :=
    py_strip (py_str (py_or (py_or (py_or (dict_get "id" PNone u)
                                          (dict_get "section_id" PNone u))
                                   (dict_get "heading" PNone u))
                            (PStr ""))) in
  if String.eqb section_id "" then Return updated_map
  else
    let heading :=
      py_or (py_or (dict_get "heading" PNone u) (dict_get "title" PNone u))
            (PStr section_id) in
    Return (dict_set section_id
              (PDict [("id", PStr section_id);
                      ("heading", heading);
                      ("content", content_of (dict_get "content" (PStr "") u));
                      ("notes", dict_get "notes" (PList []) u)])
              updated_map).

Fixpoint build_updated_map (raw : list pyval) (updated_map : list (string * pyval))
    : outcome (list (string * pyval)) :=
  match raw with
  | [] => Return updated_map
  | updated :: rest =>
      updated_map' ← index_updated updated_map updated;
      build_updated_map rest updated_map'
  end.

(** [f"Section {index + 1}"] and [f"section_{index + 1}"]. *)
Definition section_label (index : nat) : string := "Section " ++ pretty (index + 1).
Definition section_slug (index : nat) : string := "section_" ++ pretty (index + 1).

Definition fallback_id (index : nat) (o : list (string * pyval)) : string :=
  py_strip (py_str (py_or (py_or (dict_get "id" PNone o)
                                 (dict_get "section_id" PNone o))
                          (PStr (section_slug index)))).

(** One round of the loop over [enumerate(sections)]: the section
    appended to [normalized_sections]. *)
Definition normalize_section (raw_sections : pyval)
    (updated_map : list (string * pyval)) (index : nat) (original : pyval)
    : outcome pyval :=
  o ← as_dict original;
  let fallback := fallback_id index o in
  let mapped := dict_get fallback PNone updated_map in
  if truthy mapped then Return mapped
  else if truthy raw_sections then
    n ← BlogRouter.py_len raw_sections;
    candidate ← (if Nat.ltb index n then py_item raw_sections index else Return (PDict []));
    c ← as_dict candidate;
    let heading :=
      py_or (py_or (py_or (py_or (dict_get "heading" PNone c)
                                 (dict_get "title" PNone c))
                          (dict_get "heading" PNone o))
                   (dict_get "title" PNone o))
            (PStr (section_label index)) in
    let content_text :=
      py_or (dict_get "content" PNone c) (dict_get "content" (PStr "") o) in
    Return (PDict [("id", PStr fallback);
                   ("heading", heading);
                   ("content", content_of content_text);
                   ("notes", dict_get "notes" (PList []) c)])
  else
    Return (PDict [("id", PStr fallback);
                   ("heading",
                    py_or (py_or (dict_get "heading" PNone o)
                                 (dict_get "title" PNone o))
                          (PStr (section_label index)));
                   ("content",
                    PStr (py_strip (py_str (dict_get "content" (PStr "") o))));
                   ("notes", dict_get "notes" (PList []) o)]).

Fixpoint normalize_sections (raw_sections : pyval)
    (updated_map : list (string * pyval)) (index : nat) (sections : list pyval)
    : outcome (list pyval) :=
  match sections with
  | [] => Return []
  | original :: rest =>
      mapped ← normalize_section raw_sections updated_map index original;
      normalized ← normalize_sections raw_sections updated_map (S index) rest;
      Return (mapped :: normalized)
  end.

(** What [apply_recommendations] does with the generator's answer. *)
Definition normalize (title sections result : pyval)
    : outcome (list (string * pyval)) :=
  if negb (truthy result)
  then Return [("success", PBool false);
               ("error", PStr "No response from text generator")]
  else
    r ← as_dict result;
    if truthy (dict_get "error" PNone r)
    then Return [("success", PBool false);
                 ("error", dict_get "error" (PStr "Unknown error") r)]
    else
      let raw_sections := py_or (dict_get "sections" (PList []) r) (PList []) in
      raw ← py_iter raw_sections;
      updated_map ← build_updated_map raw [];
      originals ← py_iter sections;
      normalized_sections ← normalize_sections raw_sections updated_map 0 originals;
      Return [("success", PBool true);
              ("title", dict_get "title" title r);
              ("sections", PList normalized_sections);
              ("applied", dict_get "applied_recommendations" (PList []) r)].

(** [BlogSEORecommendationApplier.apply_recommendations(payload, user_id)]. *)
Definition apply_recommendations (payload : list (string * pyval))
    (user_id : option string) (w : World)
    : World * outcome (list (string * pyval)) :=
  match user_id with
  | Some uid =>
      if String.eqb uid "" then
        (w, Raise (PyError "ValueError"
                     "user_id is required for subscription checking. Please provide Clerk user ID."))
      else
        let title := dict_get "title" (PStr "Untitled Blog") payload in
        let sections := dict_get "sections" (PList []) payload in
        let outline := dict_get "outline" (PList []) payload in
        let research := dict_get "research" (PDict []) payload in
        let recommendations := dict_get "recommendations" (PList []) payload in
        let persona := dict_get "persona" (PDict []) payload in
        let tone := dict_get "tone" PNone payload in
        let audience := dict_get "audience" PNone payload in
        if negb (truthy sections) then
          (w, Return [("success", PBool false);
                      ("error",
                       PStr "No sections provided for recommendation application")])
        else if negb (truthy recommendations) then
          (w, Return [("success", PBool true);
                      ("title", title);
                      ("sections", sections);
                      ("applied", PList [])])
        else
          match _build_prompt title sections outline research recommendations
                  persona tone audience with
          | Raise e => (w, Raise e)
          | Return prompt =>
              let '(w1, result) := llm_text_gen prompt uid w in
              (w1, result ← result; normalize title sections result)
          end
  | None =>
      (w, Raise (PyError "ValueError"
                   "user_id is required for subscription checking. Please provide Clerk user ID."))
  end.

Definition detail_of (v : pyval) : string :=
  match v with
  | PStr s => s
  | other => render_detail other
  end.

(** [POST /seo/apply-recommendations]; [request] is [request.dict()]. *)
Definition apply_seo_recommendations (request : list (string * pyval))
    (current_user : pyval) (w : World)
    : World * outcome (list (string * pyval)) :=
  match BlogRouterMore.user_id_or_401 py_str (PStr "")
          "Invalid user ID in authentication token" current_user with
  | Raise e => (w, reraise (Raise e))
  | Return user_id =>
      let '(w1, result) := apply_recommendations request (Some user_id) w in
      (w1,
       reraise
         (result ← result;
          if negb (truthy (dict_get "success" PNone result))
          then Raise (HTTPException 500
                        (detail_of
                           (dict_get "error"
                              (PStr "Failed to apply recommendations") result)))
          else Return result))
  end.
End Applier.

(** Every entry of the lookup table is a section stored under its own
    identifier. *)
Definition well_keyed (updated_map : list (string * pyval)) : Prop :=
  forall k v, dict_lookup k updated_map = Some v ->
    exists e, v = PDict e /\ truthy v = true /\ dict_lookup "id" e = Some (PStr k).

End SeoApplier.

(** ** Podcast scripts ([api/podcast/handlers/script.py]) *)

Module PodcastScript.

(** The arguments handed to the [PodcastSceneLine] and [PodcastScene]
    constructors. *)
Record PodcastSceneLine : Type := mk_line {
  speaker : pyval;
  text : pyval;
  emphasis : pyval
}.

Record PodcastScene : Type := mk_scene {
  scene_id : pyval;
  title : pyval;
  duration : Z;
  lines : list PodcastSceneLine;
  approved : bool;
  emotion : pyval
}.

Definition valid_emotions : list string :=
  ["neutral"; "happy"; "excited"; "serious"; "curious"; "confident"].

(** [emotion not in valid_emotions]: membership in a set hashes the
    value, which lists and dictionaries refuse. *)
Definition not_a_valid_emotion (emotion : pyval) : outcome bool :=
  match emotion with
  | PStr s => Return (negb (bool_decide (s ∈ valid_emotions)))
  | PList _ => Raise (PyError "TypeError" "unhashable type: 'list'")
  | PDict _ => Raise (PyError "TypeError" "unhashable type: 'dict'")
  | _ => Return true
  end.

Section Script.
Variable py_str : pyval -> string.
Variable py_strip : string -> string.
(** Python's [int()]. *)
Variable py_int : pyval -> outcome Z.
(** [json.loads], [None] standing for a [JSONDecodeError]. *)
Variable json_loads : string -> option pyval.
(** The validated request: the fields read below and the prompt built
    from it, whose research part never raises. *)
Variable PodcastScriptRequest : Type.
Variable duration_minutes : PodcastScriptRequest -> Z.
Variable speakers : PodcastScriptRequest -> Z.
Variable build_prompt : PodcastScriptRequest -> string.
(** [llm_text_gen(prompt=prompt, user_id=user_id, json_struct=None)]. *)
Variable llm_text_gen : string -> string -> outcome pyval.
(** The validation run by the two model constructors. *)
Variable validate_line : PodcastSceneLine -> outcome unit.
Variable validate_scene : PodcastScene -> outcome unit.

(** ["Host" if len(lines) % request.speakers == 0 else "Guest"]. *)
Definition default_speaker (request : PodcastScriptRequest) (n : nat)
    : outcome pyval :=
  if (speakers request =? 0)%Z
  then Raise (PyError "ZeroDivisionError" "integer modulo by zero")
  else Return (PStr (if (Z.of_nat n mod speakers request =? 0)%Z
                     then "Host" else "Guest")).

(** The inner loop: [lines] is the list built so far. *)
Fixpoint normalize_lines (request : PodcastScriptRequest) (lines_raw : list pyval)
    (lines : list PodcastSceneLine) : outcome (list PodcastSceneLine) :=
  match lines_raw with
  | [] => Return lines
  | line :: rest =>
      l ← as_dict line;
      speaker ← (let given := dict_get "speaker" PNone l in
                 if truthy given then Return given
                 else default_speaker request (length lines));
      let text := py_or (dict_get "text" PNone l) (PStr "") in
      let emphasis := dict_get "emphasis" (PBool false) l in
      if truthy text then
        let made := mk_line speaker text emphasis in
        _ ← validate_line made;
        normalize_lines request rest (lines ++ [made])%list
      else normalize_lines request rest lines
  end.

(** [max(30, (request.duration_minutes * 60) // max(1, len(scenes_data)))]. *)
Definition default_duration (request : PodcastScriptRequest) (n : nat) : Z :=
  Z.max 30 ((duration_minutes request * 60) / Z.max 1 (Z.of_nat n)).

(** One round of the outer loop. *)
Definition normalize_scene (request : PodcastScriptRequest) (n : nat) (idx : nat)
    (scene : pyval) : outcome PodcastScene :=
  s ← as_dict scene;
  let title := py_or (dict_get "title" PNone s) (PStr ("Scene " ++ pretty (idx + 1))) in
  duration ← (let given := dict_get "duration" PNone s in
              if truthy given then py_int given
              else Return (default_duration request n));
  let emotion := py_or (dict_get "emotion" PNone s) (PStr "neutral") in
  invalid ← not_a_valid_emotion emotion;
  let emotion := if invalid : bool then PStr "neutral" else emotion in
  lines_raw ← py_iter (py_or (dict_get "lines" PNone s) (PList []));
  lines ← normalize_lines request lines_raw [];
  let made :=
    mk_scene (py_or (dict_get "id" PNone s) (PStr ("scene-" ++ pretty (idx + 1))))
      title duration lines false emotion in
  _ ← validate_scene made;
  Return made.

Fixpoint normalize_scenes (request : PodcastScriptRequest) (n : nat) (idx : nat)
    (scenes_data : list pyval) : outcome (list PodcastScene) :=
  match scenes_data with
  | [] => Return []
  | scene :: rest =>
      made ← normalize_scene request n idx scene;
      scenes ← normalize_scenes request n (S idx) rest;
      Return (made :: scenes)
  end.

(** What the generator returned, as a JSON value. *)
Definition parse_raw (raw : pyval) : outcome pyval :=
  match raw with
  | PStr s =>
      match json_loads s with
      | Some data => Return data
      | None => Raise (HTTPException 500 "LLM returned non-JSON output")
      end
  | PDict d => Return (PDict d)
  | _ => Raise (HTTPException 500 "Unexpected LLM response format")
  end.

(** [POST /script]; the result is the [scenes] of the response. *)
Definition generate_podcast_script (request : PodcastScriptRequest)
    (current_user : pyval) : outcome (list PodcastScene) :=
  user_id ← StoryVideo.require_authenticated_user py_str py_strip current_user;
  raw ← match llm_text_gen (build_prompt request) user_id with
        | Return raw => Return raw
        | Raise exc =>
            Raise (HTTPException 500 ("Script generation failed: " ++ str_exn exc))
        end;
  data ← parse_raw raw;
  d ← as_dict data;
  match py_or (dict_get "scenes" PNone d) (PList []) with
  | PList scenes_data =>
      normalize_scenes request (length scenes_data) 0 scenes_data
  | _ => Raise (HTTPException 500 "LLM response missing scenes array")
  end.
End Script.

(** What holds of every scene of a script that was returned. *)
Definition line_ok (l : PodcastSceneLine) : Prop :=
  truthy (text l) = true /\ truthy (speaker l) = true.

Definition scene_ok (s : PodcastScene) : Prop :=
  (exists e, emotion s = PStr e /\ e ∈ valid_emotions)
  /\ approved s = false
  /\ truthy (title s) = true
  /\ truthy (scene_id s) = true
  /\ Forall line_ok (lines s).

End PodcastScript.

(** ** Cache headers of the frontend ([alwrity_utils/frontend_serving.py]) *)

Module FrontendServing.

(** [s.endswith(suffix)]. *)
Definition endswith (suffix s : string) : bool :=
  let n := String.length s in
  let m := String.length suffix in
  (m <=? n)%nat && String.eqb (substring (n - m) m s) suffix.

(** The character class [[a-f0-9]]. *)
Definition is_hex (c : ascii) : bool :=
  let n := nat_of_ascii c in
  ((97 <=? n)%nat && (n <=? 102)%nat) || ((48 <=? n)%nat && (n <=? 57)%nat).

Fixpoint all_hex (s : string) : bool :=
  match s with
  | EmptyString => true
  | String c s' => is_hex c && all_hex s'
  end.

(** The pattern [[a-f0-9]{8,}\.] at the start of [s], [n] characters of
    the class having been read already: a dot is not in the class, so
    the run of class characters must reach up to a dot. *)
Fixpoint hash_tail (n : nat) (s : string) : bool :=
  match s with
  | EmptyString => false
  | String c s' =>
      if is_hex c then hash_tail (S n) s'
      else Ascii.eqb c "." && (8 <=? n)%nat
  end.

(** [bool(re.search(r'\.[a-f0-9]{8,}\.', path))]. *)
Fixpoint has_hash (path : string) : bool :=
  match path with
  | EmptyString => false
  | String c s' => (Ascii.eqb c "." && hash_tail 0 s') || has_hash s'
  end.

Definition cacheable_extensions : list string :=
  [".js"; ".css"; ".woff"; ".woff2"; ".ttf"; ".otf";
   ".png"; ".jpg"; ".jpeg"; ".webp"; ".svg"; ".ico"; ".gif"].

Definition is_cacheable_file (path : string) : bool :=
  existsb (fun ext => endswith ext path) cacheable_extensions.

Definition immutable : string := "public, max-age=31536000, immutable".

(** [CacheHeadersMiddleware.dispatch], as what it does to the headers of
    the response that [call_next] produced.  Starlette keeps header
    names in lower case; [expires] is the date one year from now. *)
Definition dispatch (expires : string) (path : string)
    (headers : gmap string string) : gmap string string :=
  if String.prefix "/static/" path then
    let path := lower path in
    if is_cacheable_file path then
      if has_hash path then
        <["expires" := expires]> (<["cache-control" := immutable]> headers)
      else <["cache-control" := "public, max-age=3600"]> headers
    else headers
  else if String.eqb path "/" || endswith ".html" path then
    <["expires" := "0"]>
      (<["pragma" := "no-cache"]>
         (<["cache-control" := "no-cache, no-store, must-revalidate"]> headers))
  else headers.

End FrontendServing.

(** ** The HTML sent to the Wix Ricos API
    ([services/integrations/wix/ricos_converter.py]) *)

Module WixRicos.

Section Convert.
(** A Python string is the list of its characters, of whatever alphabet;
    [lit] reads a literal of the source. *)
Variable char : Type.
Context `{EqDecision char}.
Variable of_ascii : ascii -> char.
(** [str.strip()], and [markdown_to_html], which relies on the
    [markdown] package. *)
Variable strip : list char -> list char.
Variable markdown_to_html : list char -> outcome (list char).

Definition lit (s : string) : list char := map of_ascii (list_ascii_of_string s).

(** [s[i:i + len(sub)] == sub]. *)
Definition matches_at (sub s : list char) (i : nat) : bool :=
  bool_decide (take (length sub) (drop i s) = sub).

(** The highest start below [n] at which [sub] occurs, or [-1]. *)
Fixpoint rfind_below (sub s : list char) (n : nat) : Z :=
  match n with
  | O => (-1)%Z
  | S i => if matches_at sub s i then Z.of_nat i else rfind_below sub s i
  end.

(** [s.rfind(sub, 0, end)]. *)
Definition rfind (sub s : list char) (end_ : nat) : Z :=
  let end_ := Nat.min end_ (length s) in
  if (length sub <=? end_)%nat then rfind_below sub s (S (end_ - length sub))
  else (-1)%Z.

Definition MAX_HTML_LENGTH : Z := 10000.

Definition truncation_notice : string :=
  "<p><em>... (Content truncated due to length constraints)</em></p>".

(** [x.strip() if x else ""]. *)
Definition strip_or_empty (x : list char) : list char :=
  match x with
  | [] => []
  | _ => strip x
  end.

(** The truncation applied to HTML above the limit. *)
Definition truncate (html_content : list char) : list char :=
  let truncate_at := (MAX_HTML_LENGTH - 100)%Z in
  let last_p_close := rfind (lit "</p>") html_content (Z.to_nat truncate_at) in
  ((if (0 <? last_p_close)%Z
    then take (Z.to_nat (last_p_close + 4)) html_content
    else take (Z.to_nat truncate_at) html_content)
   ++ lit truncation_notice)%list.

(** [convert_via_wix_api] up to the payload it posts: the value of the
    [html] field, or the [ValueError] raised before any request. *)
Definition html_payload (markdown_content : list char) : outcome (list char) :=
  let markdown_stripped := strip_or_empty markdown_content in
  match markdown_stripped with
  | [] => Raise (PyError "ValueError"
                   "Content cannot be empty for Wix Ricos API conversion")
  | _ =>
      html_content ← markdown_to_html markdown_stripped;
      let html_stripped := strip_or_empty html_content in
      let html_content :=
        match html_stripped with
        | [] => lit "<p>Content from ALwrity blog writer.</p>"
        | _ => html_stripped
        end in
      let html_content :=
        if (MAX_HTML_LENGTH <? Z.of_nat (length html_content))%Z
        then truncate html_content
        else html_content in
      let html_stripped := strip_or_empty html_content in
      match html_stripped with
      | [] => Raise (PyError "ValueError"
                       ("HTML content cannot be empty. Original markdown had "
                        ++ pretty (length markdown_content) ++ " characters."))
      | _ => Return html_stripped
      end
  end.
End Convert.

End WixRicos.

(** * Verification *)

(** ** Rationals as booleans *)

Lemma Qltb_lt (x y : Q) : Qltb x y = true <-> (x < y)%Q.
Proof.
  unfold Qltb. rewrite negb_true_iff. split.
  - intros H. apply Qnot_le_lt. intros Hle.
    apply Qle_bool_iff in Hle. congruence.
  - intros H. destruct (Qle_bool y x) eqn:E; [|reflexivity].
    apply Qle_bool_iff in E. exfalso. exact (Qlt_not_le _ _ H E).
Qed.

Lemma Qltb_ge (x y : Q) : Qltb x y = false <-> (y <= x)%Q.
Proof.
  unfold Qltb. rewrite negb_false_iff. apply Qle_bool_iff.
Qed.

(** ** The dashboard cache *)

Module CacheFacts.
Import Cache.

(** An unset variable reads as ['false'], which is not a bypass word. *)
Lemma nocache_unset (environ : gmap string string) :
  environ !! "SUBSCRIPTION_DASHBOARD_NOCACHE" = None -> nocache environ = false.
Proof.
  intros H. unfold nocache, getenv. rewrite H. reflexivity.
Qed.

(** A read never writes. *)
Lemma get_keeps_store environ now u s :
  snd (get_cached_dashboard environ now u s) = s.
Proof.
  unfold get_cached_dashboard.
  destruct (nocache environ); [reflexivity|].
  destruct (_dashboard_cache s !! u); [|reflexivity].
  destruct (Qltb _ _); reflexivity.
Qed.

Lemma step_untouched u c s :
  touches u c = false ->
  _dashboard_cache (step c s) !! u = _dashboard_cache s !! u
  /\ _dashboard_cache_ts (step c s) !! u = _dashboard_cache_ts s !! u.
Proof.
  destruct c as [environ now u' | now u' data | [u'|]]; simpl; intros H.
  - rewrite get_keeps_store. split; reflexivity.
  - apply String.eqb_neq in H.
    split; apply lookup_insert_ne; exact H.
  - apply orb_false_iff in H as [H1 H2].
    rewrite H1. simpl.
    apply String.eqb_neq in H2.
    split; apply lookup_delete_ne; exact H2.
  - discriminate.
Qed.

Lemma run_untouched u cs s :
  forallb (fun c => negb (touches u c)) cs = true ->
  _dashboard_cache (run cs s) !! u = _dashboard_cache s !! u
  /\ _dashboard_cache_ts (run cs s) !! u = _dashboard_cache_ts s !! u.
Proof.
  revert s. induction cs as [|c cs IH]; intros s H; simpl in *.
  - split; reflexivity.
  - apply andb_true_iff in H as [Hc Hcs].
    apply negb_true_iff in Hc.
    destruct (IH (step c s) Hcs) as [E1 E2].
    destruct (step_untouched u c s Hc) as [F1 F2].
    unfold run in *. rewrite E1, E2, F1, F2. split; reflexivity.
Qed.

(** What a read answers once the entry of [u] is known. *)
Lemma get_entry environ now u s data created :
  nocache environ = false ->
  _dashboard_cache s !! u = Some data ->
  _dashboard_cache_ts s !! u = Some created ->
  fst (get_cached_dashboard environ now u s)
  = if Qltb (now - created)%Q _DASHBOARD_CACHE_TTL_SEC then Some data else None.
Proof.
  intros Hn Hc Ht. unfold get_cached_dashboard.
  rewrite Hn, Hc, Ht. simpl. destruct (Qltb _ _); reflexivity.
Qed.

(** C2: after [set_cached_dashboard(u, v)] at time [t], and whatever the
    process does meanwhile short of setting or clearing the entry of [u],
    a read at [t'] with the bypass off returns [v] while [t' - t < 600]
    and [None] from [t' - t >= 600] on, with no eviction call. *)
Theorem dashboard_cache_ttl environ u v (t t' : Q) s cs :
  nocache environ = false ->
  forallb (fun c => negb (touches u c)) cs = true ->
  ((t' - t < 600)%Q ->
     fst (get_cached_dashboard environ t' u (run cs (set_cached_dashboard t u v s)))
     = Some v)
  /\ ((600 <= t' - t)%Q ->
     fst (get_cached_dashboard environ t' u (run cs (set_cached_dashboard t u v s)))
     = None).
Proof.
  intros Hn Hcs.
  destruct (run_untouched u cs (set_cached_dashboard t u v s) Hcs) as [E1 E2].
  simpl in E1, E2.
  rewrite lookup_insert_eq in E1. rewrite lookup_insert_eq in E2.
  rewrite (get_entry environ t' u _ v t Hn E1 E2).
  split; intros H.
  - apply Qltb_lt in H. unfold _DASHBOARD_CACHE_TTL_SEC. rewrite H. reflexivity.
  - apply Qltb_ge in H. unfold _DASHBOARD_CACHE_TTL_SEC. rewrite H. reflexivity.
Qed.

Lemma dashboard_cache_ttl_witness :
  let environ : gmap string string := ∅ in
  let v := PDict [("plan", PStr "free")] in
  let cs := [CSet 5 "bob" PNone; CClear (Some "bob"); CGet ∅ 700 "alice"] in
  fst (get_cached_dashboard environ (1599 # 1) "alice"
         (run cs (set_cached_dashboard 1000 "alice" v empty_store))) = Some v
  /\ fst (get_cached_dashboard environ (1600 # 1) "alice"
         (run cs (set_cached_dashboard 1000 "alice" v empty_store))) = None.
Proof.
  intros environ v cs.
  split.
  - apply (dashboard_cache_ttl environ "alice" v 1000 (1599 # 1) empty_store cs);
      vm_compute; reflexivity.
  - apply (dashboard_cache_ttl environ "alice" v 1000 (1600 # 1) empty_store cs);
      vm_compute; congruence.
Defined.

(** C3, as stated, fails: a read of an expired entry answers [None] but
    the entry and its timestamp stay in the two dictionaries. *)
Lemma expired_read_keeps_entry :
  let v := PDict [("plan", PStr "free")] in
  let s := set_cached_dashboard 0 "alice" v empty_store in
  let r := get_cached_dashboard ∅ 600 "alice" s in
  Qle_bool _DASHBOARD_CACHE_TTL_SEC (600 - 0) = true
  /\ fst r = None
  /\ _dashboard_cache (snd r) !! "alice" = Some v
  /\ _dashboard_cache_ts (snd r) !! "alice" = Some 0%Q.
Proof. vm_compute. repeat split; reflexivity. Qed.

(** C3, amended: a read of an expired entry is a miss and leaves the
    store as it was; the stale entry stays until a later set overwrites
    it or a clear removes it. *)
Theorem expired_read_is_miss_without_eviction environ (now created : Q) u data s :
  _dashboard_cache s !! u = Some data ->
  _dashboard_cache_ts s !! u = Some created ->
  (_DASHBOARD_CACHE_TTL_SEC <= now - created)%Q ->
  fst (get_cached_dashboard environ now u s) = None
  /\ snd (get_cached_dashboard environ now u s) = s
  /\ _dashboard_cache (snd (get_cached_dashboard environ now u s)) !! u = Some data.
Proof.
  intros Hc Ht Hexp. rewrite get_keeps_store. split; [|split; [reflexivity|exact Hc]].
  destruct (nocache environ) eqn:Hn.
  - unfold get_cached_dashboard. rewrite Hn. reflexivity.
  - rewrite (get_entry environ now u s data created Hn Hc Ht).
    apply Qltb_ge in Hexp. rewrite Hexp. reflexivity.
Qed.

Lemma expired_read_is_miss_without_eviction_witness :
  let v := PDict [("plan", PStr "free")] in
  let s := set_cached_dashboard 10 "alice" v empty_store in
  fst (get_cached_dashboard ∅ 700 "alice" s) = None
  /\ snd (get_cached_dashboard ∅ 700 "alice" s) = s
  /\ _dashboard_cache (snd (get_cached_dashboard ∅ 700 "alice" s)) !! "alice" = Some v.
Proof.
  intros v s.
  apply (expired_read_is_miss_without_eviction ∅ 700 10 "alice" v s).
  - reflexivity.
  - reflexivity.
  - vm_compute. congruence.
Defined.

(** Upper-case letters of a bypass word do not matter. *)
Example nocache_mixed_case :
  nocache {["SUBSCRIPTION_DASHBOARD_NOCACHE" := "TRUE"]} = true
  /\ nocache {["SUBSCRIPTION_DASHBOARD_NOCACHE" := "On"]} = true
  /\ nocache {["SUBSCRIPTION_DASHBOARD_NOCACHE" := "yEs"]} = true
  /\ nocache {["SUBSCRIPTION_DASHBOARD_NOCACHE" := "1"]} = true
  /\ nocache {["SUBSCRIPTION_DASHBOARD_NOCACHE" := "0"]} = false
  /\ nocache {["SUBSCRIPTION_DASHBOARD_NOCACHE" := "off"]} = false.
Proof. vm_compute. repeat split; reflexivity. Qed.

(** C7: when [SUBSCRIPTION_DASHBOARD_NOCACHE] lowers to ['1'], ['true'],
    ['yes'] or ['on'], every read is a miss, fresh entries included, while
    a set still stores the entry and its timestamp, which a read sees
    again within the TTL once the bypass is off. *)
Theorem nocache_bypasses_reads_only environ environ' value u v (t now : Q) s :
  environ !! "SUBSCRIPTION_DASHBOARD_NOCACHE" = Some value ->
  lower value ∈ ["1"; "true"; "yes"; "on"] ->
  nocache environ' = false ->
  (now - t < 600)%Q ->
  (forall u' now' s', fst (get_cached_dashboard environ now' u' s') = None)
  /\ fst (get_cached_dashboard environ now u (set_cached_dashboard t u v s)) = None
  /\ _dashboard_cache (set_cached_dashboard t u v s) !! u = Some v
  /\ _dashboard_cache_ts (set_cached_dashboard t u v s) !! u = Some t
  /\ fst (get_cached_dashboard environ' now u (set_cached_dashboard t u v s)) = Some v.
Proof.
  intros Henv Hin Hoff Hfresh.
  assert (Hn : nocache environ = true).
  { unfold nocache, getenv. rewrite Henv. simpl.
    apply bool_decide_eq_true. exact Hin. }
  assert (Hmiss : forall u' now' s', fst (get_cached_dashboard environ now' u' s') = None).
  { intros u' now' s'. unfold get_cached_dashboard. rewrite Hn. reflexivity. }
  split; [exact Hmiss|]. split; [apply Hmiss|].
  assert (E1 : _dashboard_cache (set_cached_dashboard t u v s) !! u = Some v)
    by (simpl; apply lookup_insert_eq).
  assert (E2 : _dashboard_cache_ts (set_cached_dashboard t u v s) !! u = Some t)
    by (simpl; apply lookup_insert_eq).
  split; [exact E1|]. split; [exact E2|].
  rewrite (get_entry environ' now u _ v t Hoff E1 E2).
  apply Qltb_lt in Hfresh. unfold _DASHBOARD_CACHE_TTL_SEC. rewrite Hfresh. reflexivity.
Qed.

Lemma nocache_bypasses_reads_only_witness :
  let environ : gmap string string := {["SUBSCRIPTION_DASHBOARD_NOCACHE" := "Yes"]} in
  let v := PDict [("plan", PStr "pro")] in
  fst (get_cached_dashboard environ 30 "alice"
         (set_cached_dashboard 20 "alice" v empty_store)) = None
  /\ fst (get_cached_dashboard ∅ 30 "alice"
         (set_cached_dashboard 20 "alice" v empty_store)) = Some v.
Proof.
  intros environ v.
  assert (H := nocache_bypasses_reads_only environ ∅ "Yes" "alice" v 20 30 empty_store).
  destruct H as (_ & H1 & _ & _ & H2).
  - reflexivity.
  - apply (bool_decide_unpack _). vm_compute. exact I.
  - reflexivity.
  - vm_compute. reflexivity.
  - split; [exact H1|exact H2].
Defined.

End CacheFacts.

(** ** Dictionaries *)

Lemma dict_lookup_set k k' v d :
  dict_lookup k (dict_set k' v d)
  = if String.eqb k k' then Some v else dict_lookup k d.
Proof.
  induction d as [|[k0 v0] d IH]; simpl.
  - reflexivity.
  - destruct (String.eqb k' k0) eqn:E0; simpl.
    + apply String.eqb_eq in E0. subst k0.
      destruct (String.eqb k k'); reflexivity.
    + destruct (String.eqb k k0) eqn:E1.
      * apply String.eqb_eq in E1. subst k0.
        rewrite String.eqb_sym in E0. rewrite E0. reflexivity.
      * exact IH.
Qed.

(** ** The status endpoints *)

Module BlogRouterFacts.
Import BlogRouter.

Section Facts.
Variable py_str : pyval -> string.
Variable DB : Type.
Variable track_blog : string -> list (string * pyval) -> pyval -> DB -> DB.

Local Abbreviation subscription_error := (subscription_error py_str).
Local Abbreviation get_research_status := (get_research_status py_str).
Local Abbreviation content_generation_status :=
  (content_generation_status py_str DB track_blog).
Local Abbreviation medium_generation_status :=
  (medium_generation_status py_str DB track_blog).

Ltac not_a_usage_key :=
  let H := fresh "H" in
  unfold usage_keys; intros H;
  repeat (apply elem_of_cons in H as [H | H]; [discriminate H|]);
  inversion H.

(** Copying the keys of [keys] that [error_data] has: afterwards such a
    key reads as in [error_data], every other key as before. *)
Lemma copy_keys_lookup (keys : list string)
    (error_data init : list (string * pyval)) k :
  dict_lookup k
    (fold_left
       (fun ui key =>
          match dict_lookup key error_data with
          | Some v => dict_set key v ui
          | None => ui
          end) keys init)
  = if bool_decide (k ∈ keys)
    then match dict_lookup k error_data with
         | Some v => Some v
         | None => dict_lookup k init
         end
    else dict_lookup k init.
Proof.
  revert init. induction keys as [|key keys IH]; intros init; simpl.
  - reflexivity.
  - rewrite IH. destruct (decide (k = key)) as [->|Hne].
    + rewrite (bool_decide_eq_true_2 (key ∈ key :: keys)) by left.
      destruct (dict_lookup key error_data) eqn:E.
      * rewrite dict_lookup_set, String.eqb_refl.
        case_bool_decide; reflexivity.
      * case_bool_decide; reflexivity.
    + assert (Hk : bool_decide (k ∈ key :: keys) = bool_decide (k ∈ keys)).
      { apply bool_decide_ext. rewrite elem_of_cons. tauto. }
      rewrite Hk.
      destruct (dict_lookup key error_data) eqn:E; [|reflexivity].
      rewrite dict_lookup_set.
      apply String.eqb_neq in Hne. rewrite Hne. reflexivity.
Qed.

Lemma subscription_failure_detected status code :
  dict_lookup "status" status = Some (PStr "failed") ->
  dict_lookup "error_status" status = Some (PInt code) ->
  code = 429%Z \/ code = 402%Z ->
  is_subscription_failure status = true.
Proof.
  intros Hs He Hc. unfold is_subscription_failure, dict_get.
  rewrite Hs, He. destruct Hc as [-> | ->]; reflexivity.
Qed.

(** The dictionary the handlers read as [error_data]. *)
Lemma error_data_dict status d :
  dict_lookup "error_data" status = Some (PDict d) ->
  py_or (dict_get "error_data" (PDict []) status) (PDict []) = PDict d.
Proof.
  intros H. unfold dict_get. rewrite H. destruct d; reflexivity.
Qed.

(** C1, amended: a failed task whose [error_status] is 429 or 402 is
    answered by the research, content and medium status endpoints with a
    JSON response whose status code is the stored [error_status] and
    whose body has the fields [error], [message], [provider] and
    [usage_info].  When [error_data] is a dictionary without a
    [usage_info] of its own, [usage_info] always carries [provider],
    [message] and [error_type] (with ['unknown'] for a provider or an
    error type that [error_data] lacks) and, of the counters
    [current_tokens], [requested_tokens], [limit] and [current_calls],
    exactly those that [error_data] has, with their values. *)
Theorem quota_failure_response tasks task_id status code current_user db :
  tasks !! task_id = Some status ->
  dict_lookup "status" status = Some (PStr "failed") ->
  dict_lookup "error_status" status = Some (PInt code) ->
  code = 429%Z \/ code = 402%Z ->
  get_research_status tasks task_id = Return (subscription_error status)
  /\ snd (content_generation_status tasks task_id current_user db)
     = Return (subscription_error status)
  /\ snd (medium_generation_status tasks task_id current_user db)
     = Return (subscription_error status)
  /\ (exists e m p ui,
        subscription_error status
        = JSONResponse (PInt code)
            (PDict [("error", e); ("message", m); ("provider", p); ("usage_info", ui)]))
  /\ (forall d,
        dict_lookup "error_data" status = Some (PDict d) ->
        truthy (dict_get "usage_info" PNone d) = false ->
        exists e m fields,
          subscription_error status
          = JSONResponse (PInt code)
              (PDict [("error", e); ("message", m);
                      ("provider", dict_get "provider" (PStr "unknown") d);
                      ("usage_info", PDict fields)])
          /\ dict_lookup "provider" fields
             = Some (dict_get "provider" (PStr "unknown") d)
          /\ dict_lookup "message" fields
             = Some (dict_get "error" (dict_get "error" PNone d) status)
          /\ dict_lookup "error_type" fields
             = Some (dict_get "error_type" (PStr "unknown") d)
          /\ (forall k, k ∈ usage_keys -> dict_lookup k fields = dict_lookup k d)
          /\ (forall k, is_Some (dict_lookup k fields) ->
                k ∈ (["provider"; "message"; "error_type"] ++ usage_keys)%list)).
Proof.
  intros Ht Hs He Hc.
  pose proof (subscription_failure_detected status code Hs He Hc) as Hq.
  assert (Hcode : dict_get "error_status" (PInt 429) status = PInt code)
    by (unfold dict_get; rewrite He; reflexivity).
  split; [|split; [|split; [|split]]].
  - unfold BlogRouter.get_research_status, get_task_status.
    rewrite Ht, Hq. reflexivity.
  - unfold BlogRouter.content_generation_status, tracked_status, get_task_status.
    rewrite Ht. simpl. rewrite Hq. reflexivity.
  - unfold BlogRouter.medium_generation_status, tracked_status, get_task_status.
    rewrite Ht. simpl. rewrite Hq. reflexivity.
  - unfold BlogRouter.subscription_error. rewrite Hcode.
    do 4 eexists. reflexivity.
  - intros d Hd Hu. unfold BlogRouter.subscription_error.
    rewrite Hcode, (error_data_dict status d Hd), Hu. simpl negb. cbv iota.
    do 3 eexists. split; [reflexivity|].
    assert (Hno : forall k, k ∉ usage_keys ->
              bool_decide (k ∈ usage_keys) = false)
      by (intros k Hk; apply bool_decide_eq_false_2; exact Hk).
    split; [|split; [|split; [|split]]].
    + rewrite copy_keys_lookup, Hno; [reflexivity|]. not_a_usage_key.
    + rewrite copy_keys_lookup, Hno; [reflexivity|]. not_a_usage_key.
    + rewrite copy_keys_lookup, Hno; [reflexivity|]. not_a_usage_key.
    + intros k Hk. rewrite copy_keys_lookup.
      rewrite (bool_decide_eq_true_2 _ Hk).
      destruct (dict_lookup k d) eqn:E; [reflexivity|].
      unfold usage_keys in Hk. simpl.
      repeat (apply elem_of_cons in Hk as [-> | Hk]; [reflexivity|]).
      inversion Hk.
    + intros k [v Hk]. rewrite copy_keys_lookup in Hk.
      case_bool_decide as Hin.
      * apply elem_of_app. right. exact Hin.
      * apply elem_of_app. left. simpl in Hk.
        repeat match type of Hk with
               | context [String.eqb k ?key] =>
                   let E := fresh "E" in
                   destruct (String.eqb k key) eqn:E;
                   [apply String.eqb_eq in E; subst k; repeat constructor|]
               end.
        discriminate.
Qed.


(** C5: when the task manager does not know [task_id], every status
    endpoint raises [HTTPException(404, 'Task not found')], whatever
    else the registry holds; the content and medium endpoints record
    nothing. *)
Theorem unknown_task_is_404 tasks service_tasks task_id current_user db :
  get_task_status tasks task_id = None ->
  get_task_status service_tasks task_id = None ->
  get_research_status tasks task_id = Raise (HTTPException 404 "Task not found")
  /\ get_outline_status tasks task_id = Raise (HTTPException 404 "Task not found")
  /\ content_generation_status tasks task_id current_user db
     = (db, Raise (HTTPException 404 "Task not found"))
  /\ medium_generation_status tasks task_id current_user db
     = (db, Raise (HTTPException 404 "Task not found"))
  /\ rewrite_status service_tasks task_id = Raise (HTTPException 404 "Task not found").
Proof.
  intros H Hs.
  unfold BlogRouter.get_research_status, get_outline_status,
    BlogRouter.content_generation_status, BlogRouter.medium_generation_status,
    tracked_status, rewrite_status.
  rewrite H, Hs. repeat split; reflexivity.
Qed.

End Facts.

(** The quota failure of the specification's example, as the task
    manager stores it. *)
Example quota_error_shape_example :
  let status :=
    [("status", PStr "failed");
     ("error", PStr "Token limit exceeded");
     ("error_status", PInt 429);
     ("error_data",
      PDict [("provider", PStr "gemini"); ("current_tokens", PInt 100);
             ("limit", PInt 50)])] in
  exists e m ui,
    get_research_status (fun _ => "") {["t1" := status]} "t1"
    = Return (JSONResponse (PInt 429)
                (PDict [("error", e); ("message", m);
                        ("provider", PStr "gemini"); ("usage_info", PDict ui)]))
    /\ dict_lookup "provider" ui = Some (PStr "gemini")
    /\ dict_lookup "current_tokens" ui = Some (PInt 100)
    /\ dict_lookup "limit" ui = Some (PInt 50)
    /\ dict_lookup "requested_tokens" ui = None
    /\ dict_lookup "current_calls" ui = None.
Proof. do 3 eexists. vm_compute. repeat split; reflexivity. Qed.

(** The outline and rewrite endpoints have no such branch: they return the
    stored status of a quota failure as it is. *)
Example outline_status_passes_quota_failure_through :
  let status :=
    [("status", PStr "failed");
     ("error", PStr "Token limit exceeded");
     ("error_status", PInt 429);
     ("error_data", PDict [("provider", PStr "gemini")])] in
  get_outline_status {["t1" := status]} "t1" = Return (Plain (PDict status))
  /\ rewrite_status {["t1" := status]} "t1" = Return (Plain (PDict status)).
Proof. split; reflexivity. Qed.

(** C1, as stated, fails on its own example: [usage_info] carries
    [message] and [error_type], which [error_data] does not have, the
    latter with the made-up value ['unknown']. *)
Lemma quota_usage_info_has_defaults :
  let error_data :=
    [("provider", PStr "gemini"); ("current_tokens", PInt 100); ("limit", PInt 50)] in
  let status :=
    [("status", PStr "failed");
     ("error", PStr "Token limit exceeded");
     ("error_status", PInt 429);
     ("error_data", PDict error_data)] in
  dict_lookup "error_type" error_data = None
  /\ dict_lookup "message" error_data = None
  /\ get_research_status (fun _ => "") {["t1" := status]} "t1"
     = Return (JSONResponse (PInt 429)
         (PDict [("error", PStr "Token limit exceeded");
                 ("message", PStr "Token limit exceeded");
                 ("provider", PStr "gemini");
                 ("usage_info",
                  PDict [("provider", PStr "gemini");
                         ("message", PStr "Token limit exceeded");
                         ("error_type", PStr "unknown");
                         ("current_tokens", PInt 100);
                         ("limit", PInt 50)])])).
Proof. vm_compute. repeat split; reflexivity. Qed.

Lemma quota_failure_response_witness :
  let status :=
    [("status", PStr "failed");
     ("error", PStr "Token limit exceeded");
     ("error_status", PInt 429);
     ("error_data",
      PDict [("provider", PStr "gemini"); ("current_tokens", PInt 100);
             ("limit", PInt 50)])] in
  get_research_status (fun _ => "") {["t1" := status]} "t1"
  = Return (subscription_error (fun _ => "") status).
Proof.
  intros status.
  apply (quota_failure_response (fun _ => "") unit (fun _ _ _ db => db)
           {["t1" := status]} "t1" status 429 PNone tt);
    [reflexivity | reflexivity | reflexivity | left; reflexivity].
Defined.

Lemma unknown_task_is_404_witness :
  let tasks : gmap string (list (string * pyval)) :=
    {["t1" := [("status", PStr "pending")]; "t2" := [("status", PStr "completed")]]} in
  get_research_status (fun _ => "") tasks "missing"
  = Raise (HTTPException 404 "Task not found").
Proof.
  intros tasks.
  apply (unknown_task_is_404 (fun _ => "") unit (fun _ _ _ db => db)
           tasks tasks "missing" PNone tt); reflexivity.
Defined.

End BlogRouterFacts.

(** ** Background video tasks *)

Module StoryVideoFacts.
Import StoryVideo.

(** *** The registry *)

Lemma update_live task_id st p m r e reg t :
  reg !! task_id = Some t ->
  is_terminal (status t) = false ->
  update_task_status task_id st p m r e reg !! task_id
  = Some (mk_task (task_type t) st (default (progress t) p)
            (from_option Some (message t) m)
            (progress_messages t ++ option_list m)
            (from_option Some (result t) r)
            (from_option Some (error t) e)).
Proof.
  intros Ht Hl. unfold update_task_status. rewrite Ht, Hl.
  apply lookup_insert_eq.
Qed.



(** *** Building blocks *)










Section Tasks.
Variable py_eq : pyval -> pyval -> bool.
Variable image_output_dir audio_output_dir : string.
Variable joinpath : string -> string -> string.
Variable path_exists : string -> outcome bool.
Variable generate_premise : list (string * pyval) -> outcome pyval.
Variable generate_outline : list (string * pyval) -> outcome pyval.
Variable generate_scene_images :
  list (string * pyval) -> list (Q * string) * outcome pyval.
Variable generate_scene_audio_list :
  list (string * pyval) -> list (Q * string) * outcome pyval.
Variable generate_story_video :
  list (string * pyval) -> list (Q * string) * outcome pyval.

Local Abbreviation video_task_body :=
  (video_task_body image_output_dir audio_output_dir joinpath path_exists
     generate_story_video).
Local Abbreviation _execute_video_generation_task :=
  (_execute_video_generation_task image_output_dir audio_output_dir joinpath
     path_exists generate_story_video).
Local Abbreviation complete_video_body :=
  (complete_video_body py_eq generate_premise generate_outline
     generate_scene_images generate_scene_audio_list generate_story_video).
Local Abbreviation execute_complete_video_generation :=
  (execute_complete_video_generation py_eq generate_premise generate_outline
     generate_scene_images generate_scene_audio_list generate_story_video).





End Tasks.


(** *** Progress *)

Lemma clamp_in_range (s : Q) :
  (0 <= s)%Q -> (s <= 100)%Q -> (py_max 0.0 (py_min 100.0 s) == s)%Q.
Proof.
  intros H0 H100. unfold py_max, py_min.
  destruct (Qltb s 100.0) eqn:E1.
  - destruct (Qltb 0.0 s) eqn:E2; [reflexivity|].
    apply Qltb_ge in E2. lra.
  - apply Qltb_ge in E1.
    destruct (Qltb 0.0 100.0) eqn:E2; [lra|discriminate].
Qed.

Lemma callback_progress task_id (overall : Q) msg reg t :
  reg !! task_id = Some t ->
  is_terminal (status t) = false ->
  exists t',
    update_task_status task_id "processing" (Some overall) (Some msg) None None reg
      !! task_id = Some t'
    /\ progress t' = overall
    /\ message t' = Some msg
    /\ status t' = "processing".
Proof.
  intros Ht Hl. eexists. split.
  - apply (update_live _ _ _ _ _ _ _ _ Ht Hl).
  - repeat split; reflexivity.
Qed.

(** The audio stage of the complete workflow owns [50, 70]. *)
Lemma audio_progress_is_rescaled (s : Q) :
  (audio_overall s == 50 + (s / 100) * (70 - 50))%Q.
Proof. unfold audio_overall. field. Qed.

(** C6: for a sub-progress [s] in [0, 100] reported through a progress
    callback, the progress forwarded to the task registry is
    [start + (s / 100) * (end - start)] for the range of the stage:
    [5, 95] for asynchronous video generation, where [s] is clamped into
    [0, 100] first, [30, 50] for image generation and [75, 95] for video
    composition in the complete workflow; it is forwarded together with
    the message, and it is what the registry then holds for a task that
    is not yet terminal. *)
Theorem progress_is_rescaled task_id (s : Q) msg :
  (0 <= s)%Q -> (s <= 100)%Q ->
  (exists overall,
      (forall reg,
          progress_callback task_id s msg reg
          = update_task_status task_id "processing" (Some overall) (Some msg)
              None None reg)
      /\ (overall == 5 + (s / 100) * (95 - 5))%Q)
  /\ (exists overall,
      (forall reg,
          image_progress_callback task_id s msg reg
          = update_task_status task_id "processing" (Some overall) (Some msg)
              None None reg)
      /\ (overall == 30 + (s / 100) * (50 - 30))%Q)
  /\ (exists overall,
      (forall reg,
          video_progress_callback task_id s msg reg
          = update_task_status task_id "processing" (Some overall) (Some msg)
              None None reg)
      /\ (overall == 75 + (s / 100) * (95 - 75))%Q)
  /\ (forall s' : Q,
      (async_overall s' == 5 + (py_max 0.0 (py_min 100.0 s') / 100) * (95 - 5))%Q)
  /\ (forall reg t,
      reg !! task_id = Some t ->
      is_terminal (status t) = false ->
      (exists t',
          progress_callback task_id s msg reg !! task_id = Some t'
          /\ (progress t' == 5 + (s / 100) * (95 - 5))%Q
          /\ message t' = Some msg)
      /\ (exists t',
          image_progress_callback task_id s msg reg !! task_id = Some t'
          /\ (progress t' == 30 + (s / 100) * (50 - 30))%Q
          /\ message t' = Some msg)
      /\ (exists t',
          video_progress_callback task_id s msg reg !! task_id = Some t'
          /\ (progress t' == 75 + (s / 100) * (95 - 75))%Q
          /\ message t' = Some msg)).
Proof.
  intros H0 H100.
  assert (Ha : (async_overall s == 5 + (s / 100) * (95 - 5))%Q).
  { unfold async_overall. rewrite (clamp_in_range s H0 H100). field. }
  assert (Hi : (image_overall s == 30 + (s / 100) * (50 - 30))%Q).
  { unfold image_overall. field. }
  assert (Hv : (video_overall s == 75 + (s / 100) * (95 - 75))%Q).
  { unfold video_overall. field. }
  split; [|split; [|split; [|split]]].
  - exists (async_overall s). split; [reflexivity|exact Ha].
  - exists (image_overall s). split; [reflexivity|exact Hi].
  - exists (video_overall s). split; [reflexivity|exact Hv].
  - intros s'. unfold async_overall. field.
  - intros reg t Ht Hl. split; [|split].
    + destruct (callback_progress task_id (async_overall s) msg reg t Ht Hl)
        as (t' & Ht' & Hp & Hm & _).
      exists t'. rewrite Hp. split; [exact Ht'|]. split; [exact Ha|exact Hm].
    + destruct (callback_progress task_id (image_overall s) msg reg t Ht Hl)
        as (t' & Ht' & Hp & Hm & _).
      exists t'. rewrite Hp. split; [exact Ht'|]. split; [exact Hi|exact Hm].
    + destruct (callback_progress task_id (video_overall s) msg reg t Ht Hl)
        as (t' & Ht' & Hp & Hm & _).
      exists t'. rewrite Hp. split; [exact Ht'|]. split; [exact Hv|exact Hm].
Qed.


(** *** Starting a task *)

Section Start.
Variable py_str : pyval -> string.
Variable py_strip : string -> string.
Variable new_task_id : gmap string task -> string.

Local Abbreviation require_authenticated_user :=
  (require_authenticated_user py_str py_strip).
Local Abbreviation generate_story_video_async :=
  (generate_story_video_async py_str py_strip new_task_id).

(** C8, amended: a request whose scene list is empty, or whose numbers
    of scenes, image URLs and audio URLs differ, never creates a task
    and never queues work; the handler raises an [HTTPException], which
    is the 400 of the validation as soon as the caller passes
    [require_authenticated_user]. *)
Theorem invalid_video_request_creates_no_task request current_user reg
    (background_tasks : list queued) :
  scenes request = []
  \/ List.length (scenes request) <> List.length (image_urls request)
  \/ List.length (scenes request) <> List.length (audio_urls request) ->
  (generate_story_video_async request current_user reg background_tasks).1.1 = reg
  /\ (generate_story_video_async request current_user reg background_tasks).1.2
     = background_tasks
  /\ (exists code detail,
        (generate_story_video_async request current_user reg background_tasks).2
        = Raise (HTTPException code detail))
  /\ (forall user_id,
        require_authenticated_user current_user = Return user_id ->
        exists detail,
          (generate_story_video_async request current_user reg background_tasks).2
          = Raise (HTTPException 400 detail)).
Proof.
  intros Hbad. unfold StoryVideo.generate_story_video_async.
  destruct (require_authenticated_user current_user) as [user_id|e] eqn:Hauth.
  - destruct (List.length (scenes request) =? 0)%nat eqn:E0.
    + simpl. repeat split; eauto.
    + destruct (negb (List.length (scenes request) =? List.length (image_urls request))%nat
                || negb (List.length (scenes request) =? List.length (audio_urls request))%nat)
        eqn:E1.
      * simpl. repeat split; eauto.
      * exfalso. apply Nat.eqb_neq in E0.
        apply orb_false_iff in E1 as [E1 E2].
        apply negb_false_iff, Nat.eqb_eq in E1.
        apply negb_false_iff, Nat.eqb_eq in E2.
        destruct Hbad as [Hb | [Hb | Hb]].
        -- rewrite Hb in E0. apply E0. reflexivity.
        -- apply Hb, E1.
        -- apply Hb, E2.
  - simpl. repeat split; [| discriminate].
    destruct e; simpl; eauto.
Qed.
End Start.

(** C8, as stated, fails: for a caller whose authentication payload is
    empty the empty request is answered with 401, not 400. *)
Lemma unauthenticated_empty_request_is_401 :
  (generate_story_video_async (fun _ => "") (fun s => s) (fun _ => "t1")
     (mk_request [] [] [] None None None) (PDict []) ∅ []).2
  = Raise (HTTPException 401 "Authentication required").
Proof. reflexivity. Qed.

Lemma invalid_video_request_creates_no_task_witness :
  let request :=
    mk_request [PDict [("scene_number", PInt 1)]] ["/img/a.png"; "/img/b.png"]
      ["/audio/a.mp3"] None None None in
  let current_user := PDict [("id", PStr "user_1")] in
  let py_str v := match v with PStr s => s | _ => "" end in
  let run :=
    generate_story_video_async py_str (fun s => s) (fun _ => "t1")
      request current_user ∅ [] in
  run.1.1 = ∅ /\ run.1.2 = []
  /\ exists detail, run.2 = Raise (HTTPException 400 detail).
Proof.
  intros request current_user py_str run.
  pose proof (invalid_video_request_creates_no_task py_str (fun s => s)
                (fun _ => "t1") request current_user ∅ []) as H.
  destruct H as (H1 & H2 & _ & H4).
  - right. left. simpl. discriminate.
  - split; [exact H1|]. split; [exact H2|].
    apply (H4 "user_1"). reflexivity.
Defined.

Lemma progress_is_rescaled_witness :
  let reg : gmap string task := {["t1" := pending_task "story_video_generation"]} in
  exists t',
    progress_callback "t1" 50 "Rendering" reg !! "t1" = Some t'
    /\ (progress t' == 50)%Q.
Proof.
  intros reg.
  destruct (progress_is_rescaled "t1" 50 "Rendering") as (_ & _ & _ & _ & H).
  - vm_compute. discriminate.
  - vm_compute. discriminate.
  - destruct (H reg (pending_task "story_video_generation") eq_refl eq_refl)
      as ((t' & Ht & Hp & _) & _).
    exists t'. split; [exact Ht|]. rewrite Hp. reflexivity.
Defined.



(** *** Sample runs *)

(** A run in which both files exist and the service reports one event. *)
Example async_run_completes :
  let reg : gmap string task := {["t1" := pending_task "story_video_generation"]} in
  let request :=
    mk_request [PDict [("scene_number", PInt 1)]] ["/api/story/images/a.png?v=2"]
      ["/api/story/audio/a.mp3"] None None None in
  let service (_ : list (string * pyval)) :=
    ([(50%Q, "Rendering")], Return (PDict [("video_url", PStr "/v/out.mp4")])) in
  let run :=
    _execute_video_generation_task "images" "audio" (fun d f => d ++ "/" ++ f)
      (fun _ => Return true) service "t1" request "user_1" reg in
  snd run = Return tt
  /\ (status <$> fst run !! "t1") = Some "completed"
  /\ (progress_messages <$> fst run !! "t1")
     = Some ["Initializing video generation..."; "Rendering";
             "Video generation complete!"]
  /\ (error <$> fst run !! "t1") = Some None.
Proof. vm_compute. repeat split; reflexivity. Qed.

(** A run in which no image file exists: the [RuntimeError] of the task
    itself ends up in the task. *)
Example async_run_without_assets_fails :
  let reg : gmap string task := {["t1" := pending_task "story_video_generation"]} in
  let request :=
    mk_request [PDict [("scene_number", PInt 1)]] ["/api/story/images/a.png"]
      ["/api/story/audio/a.mp3"] None None None in
  let run :=
    _execute_video_generation_task "images" "audio" (fun d f => d ++ "/" ++ f)
      (fun _ => Return false) (fun _ => ([], Return PNone)) "t1" request "user_1" reg in
  snd run = Return tt
  /\ (status <$> fst run !! "t1") = Some "failed"
  /\ (error <$> fst run !! "t1")
     = Some (Some "No valid or mismatched image/audio assets for video generation.").
Proof. vm_compute. repeat split; reflexivity. Qed.

(** The complete workflow on a request without [persona]: the [KeyError]
    is caught and recorded. *)
Example complete_run_without_persona_fails :
  let reg : gmap string task := {["t2" := pending_task "complete_video_generation"]} in
  let run :=
    execute_complete_video_generation (fun _ _ => false)
      (fun _ => Return (PStr "premise")) (fun _ => Return (PList []))
      (fun _ => ([], Return (PList []))) (fun _ => ([], Return (PList [])))
      (fun _ => ([], Return PNone)) "t2" [("story_setting", PStr "a forest")] "user_1" reg in
  snd run = Return tt
  /\ (status <$> fst run !! "t2") = Some "failed"
  /\ (error <$> fst run !! "t2") = Some (Some "'persona'")
  /\ (message <$> fst run !! "t2")
     = Some (Some "Complete video generation failed: 'persona'").
Proof. vm_compute. repeat split; reflexivity. Qed.


(** The complete workflow on one scene whose image and audio were
    produced; the stage callbacks move the progress to 40, 70 and 85. *)
Example complete_run_completes :
  let reg : gmap string task := {["t2" := pending_task "complete_video_generation"]} in
  let int_eq a b := match a, b with PInt x, PInt y => (x =? y)%Z | _, _ => false end in
  let request_data := map (fun k => (k, PStr "x")) premise_keys in
  let scene := PDict [("scene_number", PInt 1)] in
  let image := PDict [("scene_number", PInt 1); ("image_path", PStr "images/1.png")] in
  let audio := PDict [("scene_number", PInt 1); ("audio_path", PStr "audio/1.mp3")] in
  let run : gmap string task * outcome unit :=
    complete_video_body int_eq
      (fun _ => Return (PStr "premise")) (fun _ => Return (PList [scene]))
      (fun _ => ([(50%Q, "image 1")], Return (PList [image])))
      (fun _ => ([(100%Q, "audio 1")], Return (PList [audio])))
      (fun kw =>
         ([(50%Q, "composing")],
          Return (PDict [("paths", dict_get "image_paths" PNone kw)])))
      "t2" request_data "user_1" reg in
  snd run = Return tt
  /\ (status <$> fst run !! "t2") = Some "completed"
  /\ (progress_messages <$> fst run !! "t2")
     = Some ["Starting complete video generation...";
             "Generating story premise...";
             "Generating structured outline with scenes...";
             "Generating images for scenes..."; "image 1";
             "Generating audio narration for scenes..."; "audio 1";
             "Preparing video assets..."; "Composing video from scenes...";
             "composing"; "Complete video generation finished!"]
  /\ match fst run !! "t2" with
     | Some t =>
         match result t with
         | Some (PDict d) => dict_lookup "video" d
         | _ => None
         end
     | None => None
     end = Some (PDict [("paths", PList [PStr "images/1.png"])]).
Proof. vm_compute. repeat split; reflexivity. Qed.

End StoryVideoFacts.

(** ** Image generation and serving *)

Module ImagesFacts.
Import Images.

Section Generate.
Variable py_str : pyval -> string.
Variable b64encode : string -> string.
Variable World : Type.
Variable generate_image :
  ImageGenerateRequest -> string -> World -> World * outcome ImageGenerationResult.
Variable sanitize_filename : string -> outcome string.
Variable generate_unique_filename : string -> outcome string.
Variable save_file_safely :
  string -> string -> World -> World * outcome (option saved_file * option string).
Variable save_asset_to_library :
  ImageGenerateRequest -> ImageGenerationResult -> string -> saved_file -> string ->
  World -> World * outcome pyval.
Variable track_usage : string -> ImageGenerationResult -> World -> World.

Local Abbreviation save_and_track :=
  (save_and_track World sanitize_filename generate_unique_filename
     save_file_safely save_asset_to_library).
Local Abbreviation attempt :=
  (attempt b64encode World generate_image sanitize_filename
     generate_unique_filename save_file_safely save_asset_to_library track_usage).
Local Abbreviation generate :=
  (generate py_str b64encode World generate_image sanitize_filename
     generate_unique_filename save_file_safely save_asset_to_library track_usage).

(** One attempt succeeds as soon as the provider returns an image,
    whatever the helpers that save and record it do. *)
Lemma attempt_succeeds req user_id w w1 result p :
  generate_image req user_id w = (w1, Return result) ->
  res_provider result = Some p ->
  attempt req user_id w
  = (track_usage user_id result (save_and_track req result user_id w1).1,
     Return (mk_image_response true (b64encode (image_bytes result))
               (save_and_track req result user_id w1).2
               (res_width result) (res_height result) p
               (res_model result) (res_seed result))).
Proof.
  intros H Hp. unfold Images.attempt. rewrite H, Hp.
  destruct (save_and_track req result user_id w1). reflexivity.
Qed.

(** C9: once the provider has produced an image, on the first attempt
    or on the retry without a provider, the endpoint returns a
    successful [ImageGenerateResponse] with the base64 of the image,
    whether or not the helpers that save the file and record the asset
    raise; when writing the file raises the response only lacks
    [image_url], when recording the asset raises it keeps it. *)
Theorem image_response_survives_side_effects req current_user d user_id w :
  current_user = PDict d ->
  truthy current_user = true ->
  user_id = py_str (dict_get "id" (PStr "") d) ->
  user_id <> "" ->
  (forall w1 result p,
      generate_image req user_id w = (w1, Return result) ->
      res_provider result = Some p ->
      exists w' url,
        generate req current_user w
        = (w', Return (mk_image_response true (b64encode (image_bytes result)) url
                         (res_width result) (res_height result) p
                         (res_model result) (res_seed result)))
        /\ url = (save_and_track req result user_id w1).2)
  /\ (forall w1 e w2 result p,
      generate_image req user_id w = (w1, Raise e) ->
      provider_given req = true ->
      generate_image (clear_provider req) user_id w1 = (w2, Return result) ->
      res_provider result = Some p ->
      exists w' url,
        generate req current_user w
        = (w', Return (mk_image_response true (b64encode (image_bytes result)) url
                         (res_width result) (res_height result) p
                         (res_model result) (res_seed result))))
  /\ (forall result w1 clean name w2 e,
      sanitize_filename (substring 0 50 (prompt req)) = Return clean ->
      generate_unique_filename ("img_" ++ clean) = Return name ->
      save_file_safely (image_bytes result) name w1 = (w2, Raise e) ->
      save_and_track req result user_id w1 = (w2, None))
  /\ (forall result w1 clean name w2 file,
      sanitize_filename (substring 0 50 (prompt req)) = Return clean ->
      generate_unique_filename ("img_" ++ clean) = Return name ->
      save_file_safely (image_bytes result) name w1 = (w2, Return (Some file, None)) ->
      (save_and_track req result user_id w1).2
      = Some ("/api/images/image-studio/images/" ++ saved_name file)).
Proof.
  intros -> Htruthy -> Hid.
  apply String.eqb_neq in Hid.
  split; [|split; [|split]].
  - intros w1 result p Hgen Hp. do 2 eexists.
    unfold Images.generate. rewrite Htruthy. simpl. rewrite Hid.
    rewrite (attempt_succeeds _ _ _ _ _ _ Hgen Hp). split; reflexivity.
  - intros w1 e w2 result p Hgen Hprov Hretry Hp. do 2 eexists.
    unfold Images.generate. rewrite Htruthy. simpl. rewrite Hid.
    unfold Images.attempt at 1. rewrite Hgen, Hprov.
    rewrite (attempt_succeeds _ _ _ _ _ _ Hretry Hp). reflexivity.
  - intros result w1 clean name w2 e Hs Hn Hsave.
    unfold Images.save_and_track. rewrite Hs, Hn, Hsave. reflexivity.
  - intros result w1 clean name w2 file Hs Hn Hsave.
    unfold Images.save_and_track. rewrite Hs, Hn, Hsave. reflexivity.
Qed.
End Generate.

Lemma image_response_survives_side_effects_witness :
  let req := mk_image_request "a red fox" None (Some "gemini") None
               (Some 1024%Z) (Some 1024%Z) None None None in
  let result := mk_image_result "PNGDATA" 1024 1024 (Some "gemini") None None in
  let current_user := PDict [("id", PStr "user_1")] in
  let py_str v := match v with PStr s => s | _ => "" end in
  exists url,
    generate py_str (fun b => "b64:" ++ b) unit
      (fun _ _ w => (w, Return result))
      (fun s => Return s) (fun s => Return (s ++ ".png"))
      (fun _ _ w => (w, Raise (PyError "OSError" "No space left on device")))
      (fun _ _ _ _ _ w => (w, Raise (PyError "OperationalError" "database is locked")))
      (fun _ _ w => w)
      req current_user tt
    = (tt, Return (mk_image_response true "b64:PNGDATA" url 1024 1024 "gemini" None None)).
Proof.
  intros req result current_user py_str.
  destruct (image_response_survives_side_effects py_str (fun b => "b64:" ++ b) unit
              (fun _ _ w => (w, Return result))
              (fun s => Return s) (fun s => Return (s ++ ".png"))
              (fun _ _ w => (w, Raise (PyError "OSError" "No space left on device")))
              (fun _ _ _ _ _ w =>
                 (w, Raise (PyError "OperationalError" "database is locked")))
              (fun _ _ w => w)
              req current_user [("id", PStr "user_1")] "user_1" tt)
    as (H & _).
  - reflexivity.
  - reflexivity.
  - reflexivity.
  - discriminate.
  - destruct (H tt result "gemini" eq_refl eq_refl) as ([] & url & Hgen & _).
    exists url. exact Hgen.
Defined.


(** *** Serving *)

(** The directory checked is the images directory or one below it. *)
Lemma base_subdir_inside dir image_filename :
  dir `prefix_of` base_subdir dir image_filename.
Proof.
  unfold base_subdir. destruct (String.prefix "edited/" image_filename).
  - apply prefix_app_r. reflexivity.
  - reflexivity.
Qed.

Lemma substring_all s : substring 0 (String.length s) s = s.
Proof. induction s; simpl; congruence. Qed.

Lemma prefix_append p s : String.prefix p (p ++ s) = true.
Proof.
  induction p as [|a p IH]; simpl; [by destruct s|].
  by destruct (ascii_dec a a).
Qed.

Lemma strip_edited_append name : strip_edited ("edited/" ++ name) = name.
Proof. unfold strip_edited. simpl. by rewrite Nat.sub_0_r, substring_all. Qed.

(** A name behind [edited/] is that prefix and the rest. *)
Lemma edited_name image_filename :
  String.prefix "edited/" image_filename = true ->
  image_filename = "edited/" ++ strip_edited image_filename.
Proof.
  intros H. apply String.prefix_correct in H.
  destruct image_filename as [|c1 [|c2 [|c3 [|c4 [|c5 [|c6 [|c7 rest]]]]]]];
    try discriminate H.
  simpl in H. injection H as -> -> -> -> -> -> ->.
  symmetry. exact (f_equal (append "edited/") (strip_edited_append rest)).
Qed.

(** Resolving the path of a name fails exactly when the name has a NUL
    byte. *)
Lemma image_path_nul dir image_filename :
  has_nul image_filename = true ->
  image_path dir image_filename = Raise null_byte_error.
Proof.
  intros Hnul. unfold image_path.
  destruct (String.prefix "edited/" image_filename) eqn:E.
  - rewrite (edited_name _ E) in Hnul. unfold join_resolve.
    change (has_nul ("edited/" ++ strip_edited image_filename))
      with (has_nul (strip_edited image_filename)) in Hnul.
    by rewrite Hnul.
  - unfold join_resolve. by rewrite Hnul.
Qed.

Lemma image_path_resolves dir image_filename :
  has_nul image_filename = false ->
  exists path, image_path dir image_filename = Return path.
Proof.
  intros Hnul. unfold image_path.
  destruct (String.prefix "edited/" image_filename) eqn:E.
  - rewrite (edited_name _ E) in Hnul. unfold join_resolve.
    change (has_nul ("edited/" ++ strip_edited image_filename))
      with (has_nul (strip_edited image_filename)) in Hnul.
    rewrite Hnul. by eexists.
  - unfold join_resolve. rewrite Hnul. by eexists.
Qed.

(** A traversal out of the images directory, with and without a caller,
    and a name that cannot be resolved. *)
Example traversal_is_refused :
  let dir := ["srv"; "backend"; "image_studio_images"] in
  let user := PDict [("id", PStr "user_1")] in
  let all_exist (_ : list string) := Return true in
  image_path dir "../../etc/passwd" = Return ["srv"; "etc"; "passwd"]
  /\ serve_image_studio_image dir all_exist "../../etc/passwd" user
     = Raise (HTTPException 403 "Access denied: Invalid image path")
  /\ serve_image_studio_image dir all_exist "/etc/passwd" user
     = Raise (HTTPException 403 "Access denied: Invalid image path")
  /\ serve_image_studio_image dir all_exist "edited/../../secret.png" user
     = Raise (HTTPException 403 "Access denied: Invalid image path")
  /\ serve_image_studio_image dir all_exist "edited/../img_fox.png" user
     = Raise (HTTPException 403 "Access denied: Invalid image path")
  /\ serve_image_studio_image dir all_exist "a/../img_fox.png" user
     = Return (FileResponse "/srv/backend/image_studio_images/img_fox.png"
                 "image/png" "img_fox.png")
  /\ serve_image_studio_image dir all_exist "edited/img_fox.png" user
     = Return (FileResponse "/srv/backend/image_studio_images/edited/img_fox.png"
                 "image/png" "img_fox.png")
  /\ serve_image_studio_image dir all_exist
       ("../../etc/passwd" ++ String Ascii.zero "") user
     = Raise (HTTPException 500 "embedded null byte")
  /\ serve_image_studio_image dir all_exist
       ("edited/img" ++ String Ascii.zero ".png") user
     = Raise (HTTPException 500 "embedded null byte").
Proof. vm_compute. repeat split; reflexivity. Qed.

(** C10, as stated, fails: for a caller whose authentication payload is
    empty a path outside the images directory is answered with 401, not
    403. *)
Lemma traversal_without_user_is_401 :
  let dir := ["srv"; "backend"; "image_studio_images"] in
  image_path dir "../../etc/passwd" = Return ["srv"; "etc"; "passwd"]
  /\ is_relative_to ["srv"; "etc"; "passwd"] dir = false
  /\ serve_image_studio_image dir (fun _ => Return true) "../../etc/passwd" (PDict [])
     = Raise (HTTPException 401 "Authentication required").
Proof. vm_compute. repeat split; reflexivity. Qed.

(** C10, amended: without a caller the answer is 401.  For a caller that
    is present, a name with a NUL byte cannot be resolved and is answered
    with 500; every other name resolves to a path, and then: a path
    outside the images directory is answered with 403, and so is one
    outside the directory checked; a path inside the directory checked
    that does not exist is answered with 404; a [FileResponse] is
    returned only for a resolved path inside the images directory that
    exists, and is the file at that path.  The directory checked is the
    images directory, or its [edited] subdirectory for names starting
    with [edited/]. *)
Theorem image_serving_is_confined dir path_exists image_filename current_user :
  (truthy current_user = false ->
     serve_image_studio_image dir path_exists image_filename current_user
     = Raise (HTTPException 401 "Authentication required"))
  /\ (truthy current_user = true ->
      has_nul image_filename = true ->
      serve_image_studio_image dir path_exists image_filename current_user
      = Raise (HTTPException 500 "embedded null byte"))
  /\ (has_nul image_filename = false ->
      exists path, image_path dir image_filename = Return path)
  /\ (forall path,
      truthy current_user = true ->
      image_path dir image_filename = Return path ->
      (~ dir `prefix_of` path ->
       serve_image_studio_image dir path_exists image_filename current_user
       = Raise (HTTPException 403 "Access denied: Invalid image path"))
      /\ (~ base_subdir dir image_filename `prefix_of` path ->
          serve_image_studio_image dir path_exists image_filename current_user
          = Raise (HTTPException 403 "Access denied: Invalid image path"))
      /\ (base_subdir dir image_filename `prefix_of` path ->
          path_exists path = Return false ->
          serve_image_studio_image dir path_exists image_filename current_user
          = Raise (HTTPException 404 "Image not found")))
  /\ (forall p media name,
      serve_image_studio_image dir path_exists image_filename current_user
      = Return (FileResponse p media name) ->
      truthy current_user = true
      /\ exists path,
           image_path dir image_filename = Return path
           /\ dir `prefix_of` path
           /\ path_exists path = Return true
           /\ p = path_str path).
Proof.
  unfold serve_image_studio_image, is_relative_to.
  split; [|split; [|split; [|split]]].
  - intros ->. reflexivity.
  - intros -> Hnul. simpl. by rewrite (image_path_nul _ _ Hnul).
  - apply image_path_resolves.
  - intros path -> ->. simpl. split; [|split].
    + intros Hout. rewrite bool_decide_eq_false_2; [reflexivity|].
      intros Hin. apply Hout.
      etransitivity; [apply base_subdir_inside|exact Hin].
    + intros Hout. rewrite (bool_decide_eq_false_2 _ Hout). reflexivity.
    + intros Hin Hmissing. rewrite (bool_decide_eq_true_2 _ Hin). simpl.
      rewrite Hmissing. reflexivity.
  - intros p media name.
    destruct (truthy current_user); simpl; [|discriminate].
    destruct (image_path dir image_filename) as [path|]; simpl; [|by destruct e].
    case_bool_decide as Hin; simpl; [|discriminate].
    destruct (path_exists path) as [[|]|[]] eqn:He; simpl; try discriminate.
    intros [= <- _ _]. split; [reflexivity|]. exists path. repeat split.
    + etransitivity; [apply base_subdir_inside|exact Hin].
    + exact He.
Qed.

Lemma image_serving_is_confined_witness :
  let dir := ["srv"; "backend"; "image_studio_images"] in
  serve_image_studio_image dir (fun _ => Return true) "../../etc/passwd"
    (PDict [("id", PStr "user_1")])
  = Raise (HTTPException 403 "Access denied: Invalid image path")
  /\ serve_image_studio_image dir (fun _ => Return true)
       ("img" ++ String Ascii.zero ".png") (PDict [("id", PStr "user_1")])
     = Raise (HTTPException 500 "embedded null byte").
Proof.
  intros dir. split.
  - destruct (image_serving_is_confined dir (fun _ => Return true) "../../etc/passwd"
                (PDict [("id", PStr "user_1")])) as (_ & _ & _ & H & _).
    destruct (H ["srv"; "etc"; "passwd"] eq_refl eq_refl) as (H403 & _).
    apply H403.
    intros Hin. apply (bool_decide_eq_true_2 _) in Hin. vm_compute in Hin.
    discriminate Hin.
  - destruct (image_serving_is_confined dir (fun _ => Return true)
                ("img" ++ String Ascii.zero ".png")
                (PDict [("id", PStr "user_1")])) as (_ & H & _).
    apply H; reflexivity.
Defined.

End ImagesFacts.

(** * Further properties *)

(** ** The dashboard cache: clearing and the two dictionaries *)

Module CacheMore.
Import Cache.

(** Clearing one user removes that user's entry, so that any later read
    for the user misses, and leaves the entry, the timestamp and hence
    the reads of every other user as they were. *)
Theorem clear_removes_only_that_user environ (now : Q) u s :
  u <> "" ->
  fst (get_cached_dashboard environ now u (clear_dashboard_cache (Some u) s)) = None
  /\ (forall u', u' <> u ->
        _dashboard_cache (clear_dashboard_cache (Some u) s) !! u'
        = _dashboard_cache s !! u'
        /\ _dashboard_cache_ts (clear_dashboard_cache (Some u) s) !! u'
           = _dashboard_cache_ts s !! u'
        /\ fst (get_cached_dashboard environ now u' (clear_dashboard_cache (Some u) s))
           = fst (get_cached_dashboard environ now u' s)).
Proof.
  intros Hu. apply String.eqb_neq in Hu.
  unfold clear_dashboard_cache. rewrite Hu. simpl. split.
  - unfold get_cached_dashboard. destruct (nocache environ); [reflexivity|].
    simpl. rewrite lookup_delete_eq. reflexivity.
  - intros u' Hne.
    assert (E1 : delete u (_dashboard_cache s) !! u' = _dashboard_cache s !! u')
      by (apply lookup_delete_ne; congruence).
    assert (E2 : delete u (_dashboard_cache_ts s) !! u' = _dashboard_cache_ts s !! u')
      by (apply lookup_delete_ne; congruence).
    split; [exact E1|]. split; [exact E2|].
    unfold get_cached_dashboard. simpl. rewrite E1, E2.
    destruct (nocache environ); [reflexivity|].
    destruct (_dashboard_cache s !! u'); [|reflexivity].
    destruct (Qltb _ _); reflexivity.
Qed.

Lemma clear_removes_only_that_user_witness :
  let s := set_cached_dashboard 5 "bob" (PStr "b")
             (set_cached_dashboard 1 "alice" (PStr "a") empty_store) in
  fst (get_cached_dashboard ∅ 10 "alice" (clear_dashboard_cache (Some "alice") s)) = None
  /\ fst (get_cached_dashboard ∅ 10 "bob" (clear_dashboard_cache (Some "alice") s))
     = Some (PStr "b").
Proof.
  intros s.
  destruct (clear_removes_only_that_user ∅ 10 "alice" s) as [H1 H2].
  - discriminate.
  - split; [exact H1|].
    destruct (H2 "bob") as (_ & _ & H3); [discriminate|].
    rewrite H3. reflexivity.
Defined.

(** A clear without a user, or with the empty string as user, empties both
    dictionaries: whatever was cached, every read for every user misses
    until the next set. *)
Theorem clear_without_user_clears_everyone environ (now : Q) u s gets :
  clear_dashboard_cache None s = empty_store
  /\ clear_dashboard_cache (Some "") s = empty_store
  /\ (forallb (fun c => match c with CGet _ _ _ => true | _ => false end) gets = true ->
      fst (get_cached_dashboard environ now u
             (run gets (clear_dashboard_cache (Some "") s))) = None).
Proof.
  split; [reflexivity|]. split; [reflexivity|].
  intros Hgets.
  assert (Hrun : run gets empty_store = empty_store).
  { clear -Hgets. induction gets as [|c gets IH]; [reflexivity|].
    simpl in Hgets. apply andb_true_iff in Hgets as [Hc Hgets].
    destruct c as [e n u'| |]; try discriminate.
    unfold run in *. simpl. rewrite CacheFacts.get_keeps_store. apply IH, Hgets. }
  change (clear_dashboard_cache (Some "") s) with empty_store.
  rewrite Hrun. unfold get_cached_dashboard.
  destruct (nocache environ); reflexivity.
Qed.

Lemma step_same_keys c s :
  dom (_dashboard_cache s) = dom (_dashboard_cache_ts s) ->
  dom (_dashboard_cache (step c s)) = dom (_dashboard_cache_ts (step c s)).
Proof.
  intros H. destruct c as [environ now u | now u data | [u|]]; simpl.
  - rewrite CacheFacts.get_keeps_store. exact H.
  - rewrite !dom_insert_L, H. reflexivity.
  - destruct (negb (u =? "")); simpl.
    + rewrite !dom_delete_L, H. reflexivity.
    + rewrite !dom_empty_L. reflexivity.
  - rewrite !dom_empty_L. reflexivity.
Qed.

(** The two dictionaries always have the same keys: in every store the
    process can reach from the empty one, a user has a cached entry
    exactly when the user has a timestamp, so the default timestamp [0] of
    the freshness test is never the one compared. *)
Theorem entries_and_timestamps_share_keys cs u :
  dom (_dashboard_cache (run cs empty_store))
  = dom (_dashboard_cache_ts (run cs empty_store))
  /\ (is_Some (_dashboard_cache (run cs empty_store) !! u)
      <-> is_Some (_dashboard_cache_ts (run cs empty_store) !! u)).
Proof.
  assert (H : forall s,
             dom (_dashboard_cache s) = dom (_dashboard_cache_ts s) ->
             dom (_dashboard_cache (run cs s)) = dom (_dashboard_cache_ts (run cs s))).
  { induction cs as [|c cs IH]; intros s Hs; [exact Hs|].
    unfold run in *. simpl. apply IH, step_same_keys, Hs. }
  assert (H0 : dom (_dashboard_cache (run cs empty_store))
               = dom (_dashboard_cache_ts (run cs empty_store))).
  { apply H. simpl. rewrite !dom_empty_L. reflexivity. }
  split; [exact H0|].
  rewrite <- !elem_of_dom, H0. reflexivity.
Qed.

End CacheMore.

(** ** Scenes and assets of the video tasks *)

Module StoryVideoMoreFacts.
Import StoryVideo StoryVideoMore.

Lemma zip3_scenes_sublist {B C} (a : list pyval) (b : list B) (c : list C) :
  map (fun x => fst (fst x)) (zip3 a b c) `sublist_of` a.
Proof.
  revert b c. induction a as [|x a IH]; intros [|y b] [|z c]; simpl;
    try apply sublist_nil_l.
  apply sublist_skip, IH.
Qed.

Section Assets.
Variable image_output_dir audio_output_dir : string.
Variable joinpath : string -> string -> string.
Variable path_exists : string -> outcome bool.
Variable generate_story_video :
  list (string * pyval) -> list (Q * string) * outcome pyval.

Local Abbreviation resolve_assets :=
  (resolve_assets image_output_dir audio_output_dir joinpath path_exists).
Local Abbreviation video_task_body :=
  (video_task_body image_output_dir audio_output_dir joinpath path_exists
     generate_story_video).

(** What the asset loop adds to its three lists. *)
Lemma resolve_assets_appends items :
  forall ip ap vs ip' ap' vs',
    resolve_assets items ip ap vs = Return (ip', ap', vs') ->
    exists dip dap dvs,
      ip' = (ip ++ dip)%list /\ ap' = (ap ++ dap)%list /\ vs' = (vs ++ dvs)%list
      /\ List.length dip = List.length dvs
      /\ List.length dap = List.length dvs
      /\ dvs `sublist_of` map (fun x => fst (fst x)) items.
Proof.
  induction items as [|[[scene image_url] audio_url] rest IH];
    intros ip ap vs ip' ap' vs' H; simpl in H.
  - injection H as <- <- <-. exists [], [], [].
    rewrite !app_nil_r. repeat split; reflexivity.
  - destruct (path_exists (joinpath image_output_dir (url_filename image_url)))
      as [[|]|e]; simpl in H; try discriminate.
    + destruct (path_exists (joinpath audio_output_dir (url_filename audio_url)))
        as [[|]|e]; simpl in H; try discriminate.
      * destruct (IH _ _ _ _ _ _ H) as (dip & dap & dvs & -> & -> & -> & L1 & L2 & S).
        eexists (_ :: dip), (_ :: dap), (scene :: dvs).
        rewrite <- !app_assoc. simpl.
        repeat split; try reflexivity; try (f_equal; assumption).
        apply sublist_skip, S.
      * destruct (IH _ _ _ _ _ _ H) as (dip & dap & dvs & -> & -> & -> & L1 & L2 & S).
        exists dip, dap, dvs. repeat split; try assumption.
        apply sublist_cons, S.
    + destruct (IH _ _ _ _ _ _ H) as (dip & dap & dvs & -> & -> & -> & L1 & L2 & S).
      exists dip, dap, dvs. repeat split; try assumption.
      apply sublist_cons, S.
Qed.

(** The asset loop of the background video task keeps its three lists
    aligned: it returns as many image paths and audio paths as scenes, and
    the scenes are scenes of the request in their order.  The task
    therefore fails with its own [RuntimeError] exactly when no scene has
    both files, and otherwise hands the three lists to the video service,
    whose outcome is the outcome of the [try] block. *)
Theorem video_assets_stay_aligned task_id request user_id ip ap vs :
  resolve_assets (zip3 (scenes request) (image_urls request) (audio_urls request))
    [] [] [] = Return (ip, ap, vs) ->
  List.length ip = List.length vs
  /\ List.length ap = List.length vs
  /\ vs `sublist_of` scenes request
  /\ (vs = [] ->
      forall reg,
        snd (video_task_body task_id request user_id reg)
        = Raise (PyError "RuntimeError"
                   "No valid or mismatched image/audio assets for video generation."))
  /\ (vs <> [] ->
      forall reg,
        snd (video_task_body task_id request user_id reg)
        = match snd (generate_story_video
                       [("scenes", PList vs);
                        ("image_paths", PList (map PStr ip));
                        ("audio_paths", PList (map PStr ap));
                        ("user_id", PStr user_id);
                        ("story_title", PStr (title_or_default (story_title request)));
                        ("fps", PInt (fps_or_default (fps request)));
                        ("transition_duration",
                         PFloat (transition_or_default (transition_duration request)))])
          with
          | Return _ => Return tt
          | Raise e => Raise e
          end).
Proof.
  intros H.
  destruct (resolve_assets_appends _ _ _ _ _ _ _ H)
    as (dip & dap & dvs & -> & -> & -> & L1 & L2 & S).
  simpl in *.
  split; [exact L1|]. split; [exact L2|].
  split; [etransitivity; [exact S|apply zip3_scenes_sublist]|].
  split.
  - intros -> reg. destruct dip; [|discriminate].
    unfold StoryVideo.video_task_body, mbind, M_bind, update, lift. simpl.
    rewrite H. reflexivity.
  - intros Hne reg.
    unfold StoryVideo.video_task_body, mbind, M_bind, update, lift. simpl.
    rewrite H.
    destruct dvs as [|v dvs]; [congruence|].
    destruct dip as [|i dip]; [discriminate|].
    destruct dap as [|a dap]; [discriminate|].
    simpl in L1, L2.
    assert (E : (List.length dip =? List.length dap)%nat = true)
      by (apply Nat.eqb_eq; congruence).
    simpl. rewrite E. simpl.
    unfold with_progress. simpl.
    destruct (generate_story_video _) as [events [video|e]]; reflexivity.
Qed.
End Assets.

Lemma video_assets_stay_aligned_witness :
  let request :=
    mk_request [PDict [("scene_number", PInt 1)]; PDict [("scene_number", PInt 2)]]
      ["/img/a.png"; "/img/b.png"] ["/audio/a.mp3"; "/audio/b.mp3"] None None None in
  let exists_ p := Return (negb (String.eqb p "images/b.png")) in
  resolve_assets "images" "audio" (fun d f => d ++ "/" ++ f) exists_
    (zip3 (scenes request) (image_urls request) (audio_urls request)) [] [] []
  = Return (["images/a.png"], ["audio/a.mp3"], [PDict [("scene_number", PInt 1)]])
  /\ List.length ["images/a.png"] = List.length [PDict [("scene_number", PInt 1)]].
Proof.
  intros request exists_.
  split; [reflexivity|].
  apply (video_assets_stay_aligned "images" "audio" (fun d f => d ++ "/" ++ f) exists_
           (fun _ => ([], Return PNone)) "t1" request "user_1"
           ["images/a.png"] ["audio/a.mp3"] [PDict [("scene_number", PInt 1)]]).
  reflexivity.
Defined.

Section Collation.
Variable py_eq : pyval -> pyval -> bool.

Local Abbreviation collate_scene := (collate_scene py_eq).
Local Abbreviation collate := (collate py_eq).

Lemma collate_scene_appends image_results audio_results ip ap vs scene ip' ap' vs' :
  collate_scene image_results audio_results (ip, ap, vs) scene = Return (ip', ap', vs') ->
  (ip', ap', vs') = (ip, ap, vs)
  \/ exists i a,
       truthy i = true /\ truthy a = true
       /\ ip' = (ip ++ [i])%list /\ ap' = (ap ++ [a])%list /\ vs' = (vs ++ [scene])%list.
Proof.
  unfold StoryVideo.collate_scene, mbind, outcome_bind. intros H.
  repeat (case_match; simplify_eq); try (left; reflexivity).
  right. do 2 eexists.
  match goal with
  | E : truthy _ && truthy _ = true |- _ => apply andb_true_iff in E as [E1 E2]
  end.
  repeat split; eassumption.
Qed.

Lemma collate_appends image_results audio_results outline_scenes :
  forall ip ap vs ip' ap' vs',
    collate image_results audio_results (ip, ap, vs) outline_scenes
    = Return (ip', ap', vs') ->
    exists dip dap dvs,
      ip' = (ip ++ dip)%list /\ ap' = (ap ++ dap)%list /\ vs' = (vs ++ dvs)%list
      /\ List.length dip = List.length dvs
      /\ List.length dap = List.length dvs
      /\ dvs `sublist_of` outline_scenes
      /\ Forall (fun p => truthy p = true) dip
      /\ Forall (fun p => truthy p = true) dap.
Proof.
  induction outline_scenes as [|scene rest IH]; intros ip ap vs ip' ap' vs' H.
  - simpl in H. injection H as <- <- <-. exists [], [], [].
    rewrite !app_nil_r. repeat split; try reflexivity; constructor.
  - cbn [StoryVideo.collate mbind outcome_bind] in H.
    destruct (collate_scene image_results audio_results (ip, ap, vs) scene)
      as [[[ip1 ap1] vs1]|e] eqn:Hs; [|discriminate].
    destruct (IH _ _ _ _ _ _ H)
      as (dip & dap & dvs & -> & -> & -> & L1 & L2 & S & T1 & T2).
    destruct (collate_scene_appends _ _ _ _ _ _ _ _ _ Hs)
      as [E | (i & a & Ti & Ta & -> & -> & ->)].
    + simplify_eq.
      exists dip, dap, dvs. repeat split; try assumption.
      apply sublist_cons, S.
    + exists (i :: dip), (a :: dap), (scene :: dvs).
      rewrite <- !app_assoc. simpl.
      repeat split; try reflexivity; try (f_equal; assumption).
      * apply sublist_skip, S.
      * constructor; assumption.
      * constructor; assumption.
Qed.

(** The loop of the complete workflow that pairs each outline scene with
    its generated image and audio keeps its three lists aligned: as many
    image paths and audio paths as scenes, every path truthy, the scenes
    taken from the outline in their order.  The count comparison that
    follows the loop therefore never finds a mismatch. *)
Theorem collation_stays_aligned image_results audio_results outline_scenes ip ap vs :
  collate image_results audio_results ([], [], []) outline_scenes = Return (ip, ap, vs) ->
  List.length ip = List.length vs
  /\ List.length ap = List.length vs
  /\ vs `sublist_of` outline_scenes
  /\ Forall (fun p => truthy p = true) ip
  /\ Forall (fun p => truthy p = true) ap
  /\ negb (List.length ip =? List.length ap)%nat = false.
Proof.
  intros H.
  destruct (collate_appends _ _ _ _ _ _ _ _ _ H)
    as (dip & dap & dvs & -> & -> & -> & L1 & L2 & S & T1 & T2).
  simpl. repeat split; try assumption.
  apply negb_false_iff, Nat.eqb_eq. congruence.
Qed.
End Collation.

Lemma collation_stays_aligned_witness :
  let int_eq a b := match a, b with PInt x, PInt y => (x =? y)%Z | _, _ => false end in
  let scene n := PDict [("scene_number", PInt n)] in
  let image := PDict [("scene_number", PInt 2); ("image_path", PStr "images/2.png")] in
  let audios :=
    PList [PDict [("scene_number", PInt 1); ("audio_path", PStr "audio/1.mp3")];
           PDict [("scene_number", PInt 2); ("audio_path", PStr "audio/2.mp3")]] in
  collate int_eq (PList [image]) audios ([], [], []) [scene 1%Z; scene 2%Z]
  = Return ([PStr "images/2.png"], [PStr "audio/2.mp3"], [scene 2%Z])
  /\ [scene 2%Z] `sublist_of` [scene 1%Z; scene 2%Z].
Proof.
  intros int_eq scene image audios.
  split; [reflexivity|].
  apply (collation_stays_aligned int_eq (PList [image]) audios [scene 1%Z; scene 2%Z]
           [PStr "images/2.png"] [PStr "audio/2.mp3"] [scene 2%Z]).
  reflexivity.
Defined.


(** *** The synchronous endpoint *)

Section SyncLoop.
Variable ai_video_dir image_output_dir audio_output_dir : string.
Variable joinpath : string -> string -> string.
Variable path_exists : string -> outcome bool.

Local Abbreviation pick_visual :=
  (pick_visual ai_video_dir image_output_dir joinpath path_exists).
Local Abbreviation pick_audio := (pick_audio audio_output_dir joinpath path_exists).
Local Abbreviation collect :=
  (collect ai_video_dir image_output_dir audio_output_dir joinpath path_exists).

(** What the lists of a store look like from the outside. *)
Local Abbreviation aligned c :=
  (List.length (audio_paths c) = List.length (valid_scenes c)
   /\ List.length (valid_scenes c) <= List.length (image_paths c)
   /\ List.length (image_paths c) <= List.length (video_paths c)).

Lemma pick_visual_appends video_url image_url c c1 go :
  pick_visual video_url image_url c = Return (c1, go) ->
  audio_paths c1 = audio_paths c
  /\ valid_scenes c1 = valid_scenes c
  /\ List.length (image_paths c1)
     = (List.length (image_paths c) + (if go then 1 else 0))%nat
  /\ (List.length (video_paths c) + (if go then 1 else 0)
      <= List.length (video_paths c1))%nat.
Proof.
  unfold StoryVideoMore.pick_visual, mbind, outcome_bind. intros H.
  repeat (case_match; simplify_eq); simpl in *; simplify_eq; simpl;
    rewrite ?length_app; simpl; repeat split; lia.
Qed.

Lemma collect_aligned video_urls ai_audio_urls items :
  forall idx c c',
    collect video_urls ai_audio_urls idx items c = Return c' ->
    aligned c ->
    aligned c'
    /\ exists dvs, valid_scenes c' = (valid_scenes c ++ dvs)%list
         /\ dvs `sublist_of` map (fun x => fst (fst x)) items.
Proof.
  induction items as [|[[scene image_url] audio_url] rest IH]; intros idx c c' H Hc.
  - simpl in H. simplify_eq. split; [exact Hc|].
    exists []. rewrite app_nil_r. split; [reflexivity|constructor].
  - cbn [StoryVideoMore.collect mbind outcome_bind] in H.
    destruct (pick_visual (url_at video_urls idx) image_url c)
      as [[c1 go]|e] eqn:Hv; [|discriminate].
    simpl in H.
    destruct (pick_visual_appends _ _ _ _ _ Hv) as (Ea & Es & Li & Lv).
    destruct Hc as (H1 & H2 & H3).
    destruct go.
    + destruct (pick_audio (url_at ai_audio_urls idx) audio_url) as [[p|]|e];
        [| |discriminate].
      * apply IH in H.
        -- destruct H as (Ha & dvs & Ev & S). split; [exact Ha|].
           simpl in Ev. exists (scene :: dvs).
           rewrite Ev, Es, <- app_assoc. split; [reflexivity|].
           apply sublist_skip, S.
        -- simpl. rewrite !length_app, Ea, Es. simpl. lia.
      * apply IH in H.
        -- destruct H as (Ha & dvs & Ev & S). split; [exact Ha|].
           exists dvs. rewrite Ev, Es. split; [reflexivity|].
           apply sublist_cons, S.
        -- rewrite Ea, Es. lia.
    + apply IH in H.
      * destruct H as (Ha & dvs & Ev & S). split; [exact Ha|].
        exists dvs. rewrite Ev, Es. split; [reflexivity|].
        apply sublist_cons, S.
      * rewrite Ea, Es. lia.
Qed.

(** In the loop of the synchronous endpoint the audio paths and the valid
    scenes stay aligned, so the handler's second count check never fails;
    the image paths and the video paths are at least as many, and can be
    more: a scene whose audio is missing, or whose animated video is
    missing, leaves its entries behind.  The valid scenes are scenes of
    the request in their order. *)
Theorem sync_lists_lengths request video_urls ai_audio_urls c :
  collect video_urls ai_audio_urls 0
    (zip3 (scenes request) (image_urls request) (audio_urls request))
    (mk_collected [] [] [] []) = Return c ->
  List.length (audio_paths c) = List.length (valid_scenes c)
  /\ List.length (valid_scenes c) <= List.length (image_paths c)
  /\ List.length (image_paths c) <= List.length (video_paths c)
  /\ valid_scenes c `sublist_of` scenes request
  /\ negb (List.length (valid_scenes c) =? List.length (audio_paths c))%nat = false.
Proof.
  intros H. apply collect_aligned in H; [|simpl; lia].
  destruct H as ((H1 & H2 & H3) & dvs & Ev & S). simpl in Ev. subst dvs.
  repeat split; try assumption.
  - etransitivity; [exact S|apply zip3_scenes_sublist].
  - apply negb_false_iff, Nat.eqb_eq. congruence.
Qed.
End SyncLoop.

Lemma sync_lists_lengths_witness :
  let request :=
    mk_request [PDict [("scene_number", PInt 1)]; PDict [("scene_number", PInt 2)]]
      ["/img/a.png"; "/img/b.png"] ["/audio/a.mp3"; "/audio/b.mp3"] None None None in
  let exists_ p := Return (negb (String.eqb p "audio/a.mp3")) in
  let c := mk_collected [None; None] [Some "images/a.png"; Some "images/b.png"]
             ["audio/b.mp3"] [PDict [("scene_number", PInt 2)]] in
  collect "ai" "images" "audio" (fun d f => d ++ "/" ++ f) exists_ [] [] 0
    (zip3 (scenes request) (image_urls request) (audio_urls request))
    (mk_collected [] [] [] []) = Return c
  /\ List.length (audio_paths c) = List.length (valid_scenes c)
  /\ List.length (valid_scenes c) <= List.length (image_paths c).
Proof.
  intros request exists_ c.
  split; [reflexivity|].
  destruct (sync_lists_lengths "ai" "images" "audio" (fun d f => d ++ "/" ++ f) exists_
              request [] [] c eq_refl) as (H1 & H2 & _).
  split; assumption.
Defined.


(** *** A background task and the rest of the registry *)

Lemma update_other task_id st p m r e reg other :
  other <> task_id ->
  update_task_status task_id st p m r e reg !! other = reg !! other.
Proof.
  intros Hne. unfold update_task_status.
  destruct (reg !! task_id) as [t|]; [|reflexivity].
  destruct (is_terminal (status t)); [reflexivity|].
  apply lookup_insert_ne. congruence.
Qed.

Lemma touches_only_lift {A} task_id (o : outcome A) : touches_only task_id (lift o).
Proof. intros reg other _. reflexivity. Qed.

Lemma touches_only_ret {A} task_id (a : A) : touches_only task_id (mret a).
Proof. intros reg other _. reflexivity. Qed.

Lemma touches_only_update task_id st p m r e :
  touches_only task_id (update task_id st p m r e).
Proof. intros reg other Hne. apply update_other, Hne. Qed.

Lemma touches_only_with_progress task_id callback run :
  (forall sub msg reg other,
      other <> task_id -> callback sub msg reg !! other = reg !! other) ->
  touches_only task_id (with_progress callback run).
Proof.
  intros Hcb reg other Hne. unfold with_progress. simpl.
  generalize (fst run). intros events. revert reg.
  induction events as [|ev events IH]; intros reg; simpl; [reflexivity|].
  rewrite IH. apply Hcb, Hne.
Qed.

Lemma touches_only_bind {A B} task_id (m : M A) (f : A -> M B) :
  touches_only task_id m ->
  (forall a, touches_only task_id (f a)) ->
  touches_only task_id (m ≫= f).
Proof.
  intros Hm Hf reg other Hne. specialize (Hm reg other Hne).
  unfold mbind, M_bind. destruct (m reg) as [reg' [a|e]]; simpl in *.
  - rewrite (Hf a reg' other Hne). exact Hm.
  - exact Hm.
Qed.

Lemma touches_only_try task_id (body : M unit) handler :
  touches_only task_id body ->
  (forall exc, touches_only task_id (handler exc)) ->
  touches_only task_id (try_except body handler).
Proof.
  intros Hb Hh reg other Hne. specialize (Hb reg other Hne).
  unfold try_except. destruct (body reg) as [reg' [[]|exc]]; simpl in *.
  - exact Hb.
  - rewrite (Hh exc reg' other Hne). exact Hb.
Qed.

Ltac own_chain :=
  repeat first
    [ apply touches_only_update
    | apply touches_only_lift
    | apply touches_only_ret
    | apply touches_only_with_progress;
      intros ? ? ? ? ?; apply update_other; assumption
    | apply touches_only_try; [|intros ?]
    | apply touches_only_bind; [|intros ?]
    | match goal with
      | x : (_ * _)%type |- _ => destruct x
      | |- context [if ?b then _ else _] => destruct b
      end ].

Section Jobs.
Variable py_str : pyval -> string.
Variable py_strip : string -> string.
Variable new_task_id : gmap string task -> string.
Variable py_eq : pyval -> pyval -> bool.
Variable image_output_dir audio_output_dir : string.
Variable joinpath : string -> string -> string.
Variable path_exists : string -> outcome bool.
Variable generate_premise : list (string * pyval) -> outcome pyval.
Variable generate_outline : list (string * pyval) -> outcome pyval.
Variable generate_scene_images :
  list (string * pyval) -> list (Q * string) * outcome pyval.
Variable generate_scene_audio_list :
  list (string * pyval) -> list (Q * string) * outcome pyval.
Variable generate_story_video :
  list (string * pyval) -> list (Q * string) * outcome pyval.

Local Abbreviation run_video :=
  (_execute_video_generation_task image_output_dir audio_output_dir joinpath
     path_exists generate_story_video).
Local Abbreviation run_complete :=
  (execute_complete_video_generation py_eq generate_premise generate_outline
     generate_scene_images generate_scene_audio_list generate_story_video).

(** A background video task, asynchronous or complete, changes no task of
    the registry but its own, whatever the services do and wherever it
    fails. *)
Theorem background_task_touches_only_its_task task_id request request_data user_id
    reg other :
  other <> task_id ->
  fst (_execute_video_generation_task image_output_dir audio_output_dir joinpath
         path_exists generate_story_video task_id request user_id reg) !! other
  = reg !! other
  /\ fst (execute_complete_video_generation py_eq generate_premise generate_outline
            generate_scene_images generate_scene_audio_list generate_story_video
            task_id request_data user_id reg) !! other
     = reg !! other.
Proof.
  intros Hne. split.
  - revert reg other Hne. change (touches_only task_id (run_video task_id request user_id)).
    unfold StoryVideo._execute_video_generation_task, StoryVideo.video_task_body,
      progress_callback.
    own_chain.
  - revert reg other Hne.
    change (touches_only task_id (run_complete task_id request_data user_id)).
    unfold StoryVideo.execute_complete_video_generation, StoryVideo.complete_video_body,
      image_progress_callback, audio_progress_callback, video_progress_callback.
    own_chain.
Qed.




End Jobs.


Lemma background_task_touches_only_its_task_witness :
  let reg : gmap string task :=
    {["t1" := pending_task "story_video_generation";
      "t9" := pending_task "complete_video_generation"]} in
  let request :=
    mk_request [PDict [("scene_number", PInt 1)]] ["/img/a.png"] ["/audio/a.mp3"]
      None None None in
  let service (_ : list (string * pyval)) :=
    ([(50%Q, "Rendering")], @Raise pyval (PyError "RuntimeError" "ffmpeg crashed")) in
  fst (_execute_video_generation_task "images" "audio" (fun d f => d ++ "/" ++ f)
         (fun _ => Return true) service "t1" request "user_1" reg) !! "t9"
  = Some (pending_task "complete_video_generation").
Proof.
  intros reg request service.
  destruct (background_task_touches_only_its_task (fun _ _ => false) "images" "audio"
              (fun d f => d ++ "/" ++ f) (fun _ => Return true)
              (fun _ => Return PNone) (fun _ => Return PNone)
              (fun _ => ([], Return PNone)) (fun _ => ([], Return PNone))
              service "t1" request [] "user_1" reg "t9") as [H _].
  - discriminate.
  - rewrite H. reflexivity.
Defined.


End StoryVideoMoreFacts.

(** ** Image generation, editing and guidance, continued *)

Module ImagesMoreFacts.
Import Images ImagesMore.

Section Generate.
Variable py_str : pyval -> string.
Variable b64encode : string -> string.
Variable World : Type.
Variable generate_image :
  ImageGenerateRequest -> string -> World -> World * outcome ImageGenerationResult.
Variable sanitize_filename : string -> outcome string.
Variable generate_unique_filename : string -> outcome string.
Variable save_file_safely :
  string -> string -> World -> World * outcome (option saved_file * option string).
Variable save_asset_to_library :
  ImageGenerateRequest -> ImageGenerationResult -> string -> saved_file -> string ->
  World -> World * outcome pyval.
Variable track_usage : string -> ImageGenerationResult -> World -> World.

Local Abbreviation attempt :=
  (attempt b64encode World generate_image sanitize_filename
     generate_unique_filename save_file_safely save_asset_to_library track_usage).
Local Abbreviation generate :=
  (generate py_str b64encode World generate_image sanitize_filename
     generate_unique_filename save_file_safely save_asset_to_library track_usage).

(** [generate] has a single failure answer: whatever goes wrong, a
    missing caller and an [HTTPException] of the provider facade
    included, the client sees status 500 with the fixed "temporarily
    unavailable" detail. *)
Theorem generate_fails_only_with_500 req current_user w :
  match (generate req current_user w).2 with
  | Return response => success response = true
  | Raise e => e = HTTPException 500 unavailable
  end.
Proof.
  assert (Hok : forall r u w0 w1 response,
             attempt r u w0 = (w1, Return response) -> success response = true).
  { intros r u w0 w1 response. unfold Images.attempt.
    destruct (generate_image r u w0) as [w' [result|e]]; [|discriminate].
    destruct (Images.save_and_track _ _ _ _ _ _ _ _ _) as [w2 url].
    destruct (res_provider result); [|discriminate].
    intros [= _ <-]. reflexivity. }
  unfold Images.generate.
  destruct (negb (truthy current_user)); [reflexivity|].
  destruct (as_dict current_user) as [d|e]; [|reflexivity].
  destruct (String.eqb _ ""); [reflexivity|].
  destruct (attempt req _ w) as [w1 [response|e]] eqn:E1.
  - simpl. eapply Hok, E1.
  - destruct (provider_given req); [|reflexivity].
    destruct (attempt (clear_provider req) _ w1) as [w2 [response|e2]] eqn:E2.
    + simpl. eapply Hok, E2.
    + reflexivity.
Qed.

(** The provider facade is called at most twice, and a second time only
    when the request named a provider: without one, a failed first
    attempt is final and leaves the world as that attempt left it. *)
Theorem generate_without_provider_does_not_retry req current_user d w w1 e :
  current_user = PDict d ->
  truthy current_user = true ->
  py_str (dict_get "id" (PStr "") d) <> "" ->
  provider_given req = false ->
  generate_image req (py_str (dict_get "id" (PStr "") d)) w = (w1, Raise e) ->
  generate req current_user w = (w1, Raise (HTTPException 500 unavailable)).
Proof.
  intros -> Ht Hid Hp Hgen. apply String.eqb_neq in Hid.
  unfold Images.generate. rewrite Ht. simpl. rewrite Hid.
  unfold Images.attempt. rewrite Hgen, Hp. reflexivity.
Qed.
End Generate.

Lemma generate_without_provider_does_not_retry_witness :
  generate (fun v => match v with PStr s => s | _ => "" end)
    (fun b => b) nat
    (fun _ _ n => (S n, Raise (HTTPException 429 "Image limit reached")))
    (fun s => Return s) (fun s => Return s)
    (fun _ _ n => (n, Return (None, None)))
    (fun _ _ _ _ _ n => (n, Return PNone))
    (fun _ _ n => n)
    (mk_image_request "a red fox" None None None None None None None None)
    (PDict [("id", PStr "user_1")]) 0
  = (1, Raise (HTTPException 500 unavailable)).
Proof.
  apply (generate_without_provider_does_not_retry _ _ nat _ _ _ _ _ _ _ _
           [("id", PStr "user_1")] 0 1 (HTTPException 429 "Image limit reached")).
  - reflexivity.
  - reflexivity.
  - discriminate.
  - reflexivity.
  - reflexivity.
Defined.

Section Edit.
Variable py_str : pyval -> string.
Variable b64decode : string -> outcome string.
Variable b64encode : string -> string.
Variable World : Type.
Variable edit_image :
  string -> ImageEditRequest -> string -> World -> World * outcome ImageGenerationResult.
Variable sanitize_filename : string -> outcome string.
Variable generate_unique_filename : string -> outcome string.
Variable save_file_safely :
  string -> string -> World -> World * outcome (option saved_file * option string).
Variable save_asset_to_library :
  ImageEditRequest -> ImageGenerationResult -> string -> saved_file -> string ->
  World -> World * outcome pyval.
Variable track_usage : string -> ImageGenerationResult -> World -> World.

Local Abbreviation save_and_track_edit :=
  (save_and_track_edit World sanitize_filename generate_unique_filename
     save_file_safely save_asset_to_library).
Local Abbreviation edit :=
  (edit py_str b64decode b64encode World edit_image sanitize_filename
     generate_unique_filename save_file_safely save_asset_to_library track_usage).

(** When [base64.b64decode] raises on the image of the request, [edit]
    answers 400 with the decoder's message before the provider facade is
    called: nothing has been edited, saved or counted.  The decoder is
    the library's, called without [validate=True]: it raises on what it
    cannot decode, such as incorrect padding, and not on every string
    that is not base64. *)
Theorem edit_answers_400_when_decoding_raises req current_user d w e0 :
  current_user = PDict d ->
  truthy current_user = true ->
  py_str (dict_get "id" (PStr "") d) <> "" ->
  b64decode (edit_image_base64 req) = Raise e0 ->
  edit req current_user w
  = (w, Raise (HTTPException 400 ("Invalid image_base64: " ++ str_exn e0))).
Proof.
  intros -> Ht Hid Hdec. apply String.eqb_neq in Hid.
  unfold ImagesMore.edit. rewrite Ht. simpl. rewrite Hid, Hdec. reflexivity.
Qed.

(** An [HTTPException] raised by the provider facade, such as a
    subscription limit, reaches the client of [edit] with its own status
    and detail; any other exception becomes the fixed 500. *)
Theorem edit_passes_http_errors_through req current_user d bytes w w1 e :
  current_user = PDict d ->
  truthy current_user = true ->
  py_str (dict_get "id" (PStr "") d) <> "" ->
  b64decode (edit_image_base64 req) = Return bytes ->
  edit_image bytes req (py_str (dict_get "id" (PStr "") d)) w = (w1, Raise e) ->
  edit req current_user w
  = (w1, Raise (match e with
                | HTTPException c detail => HTTPException c detail
                | PyError _ _ => HTTPException 500 edit_unavailable
                end)).
Proof.
  intros -> Ht Hid Hdec Hedit. apply String.eqb_neq in Hid.
  unfold ImagesMore.edit. rewrite Ht. simpl. rewrite Hid, Hdec, Hedit.
  destruct e; reflexivity.
Qed.

(** Once the provider has produced the edited image, [edit] returns it,
    whatever the helpers that save the file and record the asset do:
    they can only decide whether the response carries an [image_url],
    and a URL it carries lies below [edited/]. *)
Theorem edit_response_survives_side_effects req current_user d bytes w w1 result p :
  current_user = PDict d ->
  truthy current_user = true ->
  py_str (dict_get "id" (PStr "") d) <> "" ->
  b64decode (edit_image_base64 req) = Return bytes ->
  edit_image bytes req (py_str (dict_get "id" (PStr "") d)) w = (w1, Return result) ->
  res_provider result = Some p ->
  exists w' url,
    edit req current_user w
    = (w', Return (mk_edit_response true (b64encode (image_bytes result)) url
                     (res_width result) (res_height result) p
                     (res_model result) (res_seed result)))
    /\ match url with
       | Some u => exists name, u = "/api/images/image-studio/images/edited/" ++ name
       | None => True
       end.
Proof.
  intros -> Ht Hid Hdec Hedit Hp. apply String.eqb_neq in Hid.
  unfold ImagesMore.edit. rewrite Ht. simpl. rewrite Hid, Hdec, Hedit, Hp.
  destruct (save_and_track_edit req result _ w1) as [w2 url] eqn:E.
  do 2 eexists. split; [reflexivity|].
  unfold ImagesMore.save_and_track_edit in E.
  destruct (sanitize_filename _); [|by simplify_eq].
  destruct (generate_unique_filename _); [|by simplify_eq].
  destruct (save_file_safely _ _ _) as [w3 [[[file|] err]|e]]; try by simplify_eq.
  destruct (has_error err); simplify_eq; [done|]. by eexists.
Qed.
End Edit.

Lemma edit_answers_400_when_decoding_raises_witness :
  let b64decode s :=
    if String.eqb s "abc" then Raise (PyError "Error" "Incorrect padding")
    else Return "" in
  edit (fun v => match v with PStr s => s | _ => "" end)
    b64decode (fun b => b) nat
    (fun _ _ _ n => (S n, Raise (PyError "RuntimeError" "no provider")))
    (fun s => Return s) (fun s => Return s)
    (fun _ _ n => (S n, Return (None, None)))
    (fun _ _ _ _ _ n => (S n, Return PNone))
    (fun _ _ n => S n)
    (mk_edit_request "abc" "make it blue" None None None None None)
    (PDict [("id", PStr "user_1")]) 0
  = (0, Raise (HTTPException 400 "Invalid image_base64: Incorrect padding")).
Proof.
  intros b64decode.
  apply (edit_answers_400_when_decoding_raises _ b64decode _ nat _ _ _ _ _ _ _ _
           [("id", PStr "user_1")] 0 (PyError "Error" "Incorrect padding")).
  - reflexivity.
  - reflexivity.
  - discriminate.
  - reflexivity.
Defined.

(** A string that is not base64 but that the decoder accepts, here one
    of characters it skips, is not refused: the provider facade is
    called, with the bytes decoded. *)
Example tolerated_image_reaches_the_provider :
  let b64decode s :=
    if String.eqb s "abc" then Raise (PyError "Error" "Incorrect padding")
    else Return "" in
  edit (fun v => match v with PStr s => s | _ => "" end)
    b64decode (fun b => b) nat
    (fun bytes _ _ n =>
       (S n, Raise (PyError "RuntimeError" ("no image in " ++ pretty (String.length bytes)
                                            ++ " bytes"))))
    (fun s => Return s) (fun s => Return s)
    (fun _ _ n => (S n, Return (None, None)))
    (fun _ _ _ _ _ n => (S n, Return PNone))
    (fun _ _ n => S n)
    (mk_edit_request "!!!!" "make it blue" None None None None None)
    (PDict [("id", PStr "user_1")]) 0
  = (1, Raise (HTTPException 500 edit_unavailable)).
Proof. reflexivity. Qed.

Lemma edit_passes_http_errors_through_witness :
  edit (fun v => match v with PStr s => s | _ => "" end)
    (fun s => Return s) (fun b => b) nat
    (fun _ _ _ n => (S n, Raise (HTTPException 429 "Image edit limit reached")))
    (fun s => Return s) (fun s => Return s)
    (fun _ _ n => (n, Return (None, None)))
    (fun _ _ _ _ _ n => (n, Return PNone))
    (fun _ _ n => n)
    (mk_edit_request "UE5H" "make it blue" None None None None None)
    (PDict [("id", PStr "user_1")]) 0
  = (1, Raise (HTTPException 429 "Image edit limit reached")).
Proof.
  apply (edit_passes_http_errors_through _ _ _ nat _ _ _ _ _ _ _ _
           [("id", PStr "user_1")] "UE5H" 0 1
           (HTTPException 429 "Image edit limit reached")).
  - reflexivity.
  - reflexivity.
  - discriminate.
  - reflexivity.
  - reflexivity.
Defined.

Lemma edit_response_survives_side_effects_witness :
  let result := mk_image_result "PNGDATA" 512 512 (Some "huggingface") None None in
  exists w' url,
    edit (fun v => match v with PStr s => s | _ => "" end)
      (fun s => Return s) (fun b => "b64:" ++ b) unit
      (fun _ _ _ w => (w, Return result))
      (fun s => Return s) (fun s => Return (s ++ ".png"))
      (fun _ _ w => (w, Raise (PyError "OSError" "No space left on device")))
      (fun _ _ _ _ _ w => (w, Raise (PyError "OperationalError" "database is locked")))
      (fun _ _ w => w)
      (mk_edit_request "UE5H" "make it blue" None None None None None)
      (PDict [("id", PStr "user_1")]) tt
    = (w', Return (mk_edit_response true "b64:PNGDATA" url 512 512 "huggingface"
                     None None)).
Proof.
  intros result.
  destruct (edit_response_survives_side_effects
              (fun v => match v with PStr s => s | _ => "" end)
              (fun s => Return s) (fun b => "b64:" ++ b) unit
              (fun _ _ _ w => (w, Return result))
              (fun s => Return s) (fun s => Return (s ++ ".png"))
              (fun _ _ w => (w, Raise (PyError "OSError" "No space left on device")))
              (fun _ _ _ _ _ w =>
                 (w, Raise (PyError "OperationalError" "database is locked")))
              (fun _ _ w => w)
              (mk_edit_request "UE5H" "make it blue" None None None None None)
              (PDict [("id", PStr "user_1")]) [("id", PStr "user_1")] "UE5H" tt tt
              result "huggingface")
    as (w' & url & H & _).
  - reflexivity.
  - reflexivity.
  - discriminate.
  - reflexivity.
  - reflexivity.
  - reflexivity.
  - exists w', url. exact H.
Defined.

(** *** Serving what was saved *)

Lemma split_on_absent sep s :
  ~ In sep (list_ascii_of_string s) -> split_on sep s = [s].
Proof.
  induction s as [|c s IH]; simpl; intros H; [reflexivity|].
  destruct (Ascii.eqb c sep) eqn:E.
  - apply Ascii.eqb_eq in E. tauto.
  - rewrite IH by tauto. reflexivity.
Qed.

Lemma prefix_chars p s c :
  String.prefix p s = true ->
  In c (list_ascii_of_string p) -> In c (list_ascii_of_string s).
Proof.
  revert s. induction p as [|a p IH]; intros [|b s]; simpl; try easy.
  destruct (ascii_dec a b) as [->|]; [|easy].
  intros H [->|Hin]; [by left|]. right. by apply IH.
Qed.

Lemma no_slash_prefix p name :
  ~ In "/"%char (list_ascii_of_string name) ->
  In "/"%char (list_ascii_of_string p) ->
  String.prefix p name = false.
Proof.
  intros Hno Hin. destruct (String.prefix p name) eqn:E; [|reflexivity].
  exfalso. eauto using prefix_chars.
Qed.

(** A name without [/] or NUL that is not empty, [.] or [..] resolves to
    the file of that name directly below the base directory. *)
Lemma join_resolve_plain base name :
  has_nul name = false ->
  ~ In "/"%char (list_ascii_of_string name) ->
  name <> "" -> name <> "." -> name <> ".." ->
  join_resolve base name = Return (base ++ [name])%list.
Proof.
  intros Hnul Hno H0 H1 H2. unfold join_resolve. rewrite Hnul.
  rewrite split_on_absent by done.
  rewrite (no_slash_prefix "/" name) by (done || (simpl; tauto)).
  simpl. unfold step_component.
  apply String.eqb_neq in H0, H1, H2. by rewrite H0, H1, H2.
Qed.

(** The URLs handed out by [generate] and [edit] can be fetched: for a
    caller that is present, the file name of a saved image is served
    from the images directory, and behind [edited/] from its [edited]
    subdirectory, under that name and as [image/png].  The one name of
    this kind that is not served is a name with a NUL byte, which no
    file has: resolving it fails, and the answer is 500. *)
Theorem saved_images_are_served dir path_exists name current_user :
  truthy current_user = true ->
  ~ In "/"%char (list_ascii_of_string name) ->
  name <> "" -> name <> "." -> name <> ".." ->
  (path_exists (dir ++ [name])%list = Return true ->
   serve_image_studio_image dir path_exists name current_user
   = if has_nul name then Raise (HTTPException 500 "embedded null byte")
     else Return (FileResponse (path_str (dir ++ [name])) "image/png" name))
  /\ (path_exists (dir ++ ["edited"; name])%list = Return true ->
      serve_image_studio_image dir path_exists ("edited/" ++ name) current_user
      = if has_nul name then Raise (HTTPException 500 "embedded null byte")
        else Return (FileResponse (path_str (dir ++ ["edited"; name]))
                       "image/png" name)).
Proof.
  intros Ht Hno H0 H1 H2. destruct (has_nul name) eqn:Hnul.
  - split; intros _.
    + unfold serve_image_studio_image.
      rewrite Ht, (ImagesFacts.image_path_nul _ _ Hnul). reflexivity.
    + unfold serve_image_studio_image.
      rewrite Ht, (ImagesFacts.image_path_nul dir ("edited/" ++ name)) by exact Hnul.
      reflexivity.
  - split; intros Hex.
    + unfold serve_image_studio_image, image_path, base_subdir, is_relative_to.
      rewrite Ht, (no_slash_prefix "edited/" name) by (done || (simpl; tauto)).
      rewrite join_resolve_plain by done. simpl.
      rewrite bool_decide_eq_true_2 by (by apply prefix_app_r). simpl.
      rewrite Hex. simpl. unfold path_name. by rewrite last_last.
    + unfold serve_image_studio_image, image_path, base_subdir, is_relative_to.
      rewrite Ht.
      rewrite ImagesFacts.prefix_append, ImagesFacts.strip_edited_append.
      rewrite join_resolve_plain by done. simpl.
      rewrite bool_decide_eq_true_2 by (by apply prefix_app_r).
      rewrite <- app_assoc. simpl. rewrite Hex. simpl.
      unfold path_name. replace (dir ++ ["edited"; name])%list
        with ((dir ++ ["edited"]) ++ [name])%list by (by rewrite <- app_assoc).
      by rewrite last_last.
Qed.

Lemma saved_images_are_served_witness :
  let dir := ["srv"; "backend"; "image_studio_images"] in
  let user := PDict [("id", PStr "user_1")] in
  serve_image_studio_image dir (fun _ => Return true) "img_fox_1a2b.png" user
  = Return (FileResponse "/srv/backend/image_studio_images/img_fox_1a2b.png"
              "image/png" "img_fox_1a2b.png")
  /\ serve_image_studio_image dir (fun _ => Return true) "edited/img_fox_1a2b.png" user
     = Return (FileResponse "/srv/backend/image_studio_images/edited/img_fox_1a2b.png"
                 "image/png" "img_fox_1a2b.png").
Proof.
  intros dir user.
  destruct (saved_images_are_served dir (fun _ => Return true) "img_fox_1a2b.png" user)
    as [H1 H2].
  - reflexivity.
  - simpl. intros H. repeat (destruct H as [H|H]; [discriminate H|]). exact H.
  - discriminate.
  - discriminate.
  - discriminate.
  - split; [exact (H1 eq_refl) | exact (H2 eq_refl)].
Defined.

(** *** Model guidance *)

Section Guidance.
Variable py_lower : string -> string.

Local Abbreviation get_model_specific_guidance :=
  (get_model_specific_guidance py_lower).

Local Ltac split_keys :=
  repeat match goal with
    | |- context [String.eqb ?a ?b] =>
        lazymatch a with
        | String _ _ => fail
        | EmptyString => fail
        | _ => destruct (String.eqb a b)
        end
    end.

(** For a model of the guidance table every image type gets guidance:
    a type the model has no entry for, an unknown one included, falls
    back to the model's [text_overlay] entry, so the result always has
    a [guidance] text and a non-empty list of [best_practices]. *)
Theorem known_model_always_has_guidance model image_type :
  model <> "" ->
  In (py_lower model) (map fst MODEL_SPECIFIC_GUIDANCE) ->
  exists g bp,
    dict_lookup "guidance" (get_model_specific_guidance (Some model) image_type)
    = Some (PStr g)
    /\ dict_lookup "best_practices"
         (get_model_specific_guidance (Some model) image_type)
       = Some (PList bp)
    /\ bp <> [].
Proof.
  intros Hm Hin. apply String.eqb_neq in Hm.
  unfold ImagesMore.get_model_specific_guidance. rewrite Hm.
  generalize (py_lower (str_or image_type "conceptual")). intros k.
  simpl in Hin.
  destruct Hin as [<-|[<-|[<-|[]]]];
    unfold dict_get, MODEL_SPECIFIC_GUIDANCE; cbn [dict_lookup String.eqb Ascii.eqb Bool.eqb];
    split_keys; do 2 eexists; (split; [reflexivity|split; [reflexivity|discriminate]]).
Qed.

(** Without a model, or for a model outside the guidance table, there
    is no guidance at all, whatever the image type. *)
Theorem unknown_model_has_no_guidance model image_type :
  match model with
  | Some m => m = "" \/ ~ In (py_lower m) (map fst MODEL_SPECIFIC_GUIDANCE)
  | None => True
  end ->
  get_model_specific_guidance model image_type = [].
Proof.
  unfold ImagesMore.get_model_specific_guidance.
  destruct model as [m|]; [|reflexivity].
  destruct (String.eqb m "") eqn:E; [reflexivity|].
  intros [->|Hout]; [discriminate|].
  generalize dependent (py_lower m). intros k Hout.
  assert (Hk : dict_lookup k MODEL_SPECIFIC_GUIDANCE = None).
  { unfold MODEL_SPECIFIC_GUIDANCE. cbn [dict_lookup].
    simpl in Hout.
    repeat match goal with
      | |- context [String.eqb k ?b] =>
          destruct (String.eqb_spec k b) as [->|_]; [exfalso; tauto|]
      end.
    reflexivity. }
  unfold dict_get. rewrite Hk. reflexivity.
Qed.
End Guidance.

Lemma known_model_always_has_guidance_witness :
  exists g bp,
    dict_lookup "guidance"
      (get_model_specific_guidance lower (Some "Qwen-Image") (Some "Diagram"))
    = Some (PStr g)
    /\ dict_lookup "best_practices"
         (get_model_specific_guidance lower (Some "Qwen-Image") (Some "Diagram"))
       = Some (PList bp)
    /\ bp <> [].
Proof.
  apply (known_model_always_has_guidance lower "Qwen-Image" (Some "Diagram")).
  - discriminate.
  - vm_compute. tauto.
Defined.

Lemma unknown_model_has_no_guidance_witness :
  get_model_specific_guidance lower (Some "dall-e-3") (Some "chart") = [].
Proof.
  apply (unknown_model_has_no_guidance lower (Some "dall-e-3") (Some "chart")).
  right. vm_compute. intros H.
  repeat (destruct H as [H|H]; [discriminate H|]). exact H.
Defined.

End ImagesMoreFacts.

(** ** Starting blog tasks *)

Module BlogRouterMoreFacts.
Import BlogRouterMore.

Section Start.
Variable py_str : pyval -> string.
Variable Request : Type.
Variable globalTargetWords : Request -> pyval.
Variable Tasks : Type.
Variable start_research_task : Request -> string -> Tasks -> Tasks * outcome string.
Variable start_outline_task : Request -> string -> Tasks -> Tasks * outcome string.
Variable start_medium_generation_task :
  Request -> string -> Tasks -> Tasks * outcome string.

Local Abbreviation start_research :=
  (start_research py_str Request Tasks start_research_task).
Local Abbreviation start_outline_generation :=
  (start_outline_generation py_str Request Tasks start_outline_task).
Local Abbreviation start_medium_generation :=
  (start_medium_generation py_str Request globalTargetWords Tasks
     start_medium_generation_task).

(** A missing caller is refused by both start handlers before a task is
    created, but not with the same status: [start_research] answers 401,
    while [start_outline_generation], which has no clause re-raising an
    [HTTPException], answers 500 with the 401 rendered into its detail. *)
Theorem outline_start_turns_401_into_500 request current_user tasks :
  truthy current_user = false ->
  start_research request current_user tasks
  = (tasks, Raise (HTTPException 401 "Authentication required"))
  /\ start_outline_generation request current_user tasks
     = (tasks, Raise (HTTPException 500 "401: Authentication required")).
Proof.
  intros H. unfold BlogRouterMore.start_research,
    BlogRouterMore.start_outline_generation, user_id_or_401.
  rewrite H. split; reflexivity.
Qed.

(** [start_outline_generation] never answers anything but 500 when it
    fails, whatever the caller and the task manager do. *)
Theorem outline_start_fails_only_with_500 request current_user tasks :
  match (start_outline_generation request current_user tasks).2 with
  | Return r => exists task_id, r = started task_id
  | Raise e => exists detail, e = HTTPException 500 detail
  end.
Proof.
  unfold BlogRouterMore.start_outline_generation.
  destruct (user_id_or_401 _ _ _ _) as [user_id|e]; simpl; [|by eexists].
  destruct (start_outline_task _ _ _) as [tasks' [task_id|e]]; simpl; by eexists.
Qed.

(** The medium handler's word guard, for a caller that is present: a
    target above 1000 is refused with 400 and no task is started; a
    target of at most 1000 is handed to the task manager, and so is a
    target of 0, which counts as 1000. *)
Theorem medium_start_word_guard request current_user d n tasks :
  current_user = PDict d ->
  truthy current_user = true ->
  py_str (dict_get "id" PNone d) <> "" ->
  globalTargetWords request = PInt n ->
  ((1000 < n)%Z ->
   start_medium_generation request current_user tasks
   = (tasks,
      Raise (HTTPException 400
               "Global target words exceed 1000; use per-section generation")))
  /\ ((n <= 1000)%Z ->
      start_medium_generation request current_user tasks
      = ((start_medium_generation_task request
            (py_str (dict_get "id" PNone d)) tasks).1,
         reraise
           (t ← (start_medium_generation_task request
                   (py_str (dict_get "id" PNone d)) tasks).2;
            Return (started t)))).
Proof.
  intros -> Ht Hid Hn. apply String.eqb_neq in Hid.
  unfold BlogRouterMore.start_medium_generation, user_id_or_401.
  rewrite Ht, Hn. simpl. rewrite Hid. unfold py_or. simpl.
  split; intros Hcmp.
  - destruct (n =? 0)%Z eqn:E0; [lia|]. simpl.
    by rewrite (proj2 (Z.ltb_lt 1000 n)).
  - destruct (n =? 0)%Z eqn:E0; simpl.
    + by destruct (start_medium_generation_task _ _ _).
    + rewrite (proj2 (Z.ltb_ge 1000 n)) by done.
      by destruct (start_medium_generation_task _ _ _).
Qed.
End Start.

Lemma outline_start_turns_401_into_500_witness :
  start_research (fun _ => "") unit nat (fun _ _ n => (S n, Return "task-1"))
    tt PNone 0
  = (0, Raise (HTTPException 401 "Authentication required"))
  /\ start_outline_generation (fun _ => "") unit nat
       (fun _ _ n => (S n, Return "task-1")) tt PNone 0
     = (0, Raise (HTTPException 500 "401: Authentication required")).
Proof.
  apply (outline_start_turns_401_into_500 (fun _ => "") unit nat
           (fun _ _ n => (S n, Return "task-1"))
           (fun _ _ n => (S n, Return "task-1")) tt PNone 0).
  reflexivity.
Defined.

Lemma medium_start_word_guard_witness :
  let py_str v := match v with PStr s => s | _ => "None" end in
  let start (_ : Z) (_ : string) (n : nat) := (S n, Return "task-1") in
  start_medium_generation py_str Z PInt nat start 1001%Z
    (PDict [("id", PStr "user_1")]) 0
  = (0, Raise (HTTPException 400
                 "Global target words exceed 1000; use per-section generation"))
  /\ start_medium_generation py_str Z PInt nat start 0%Z
       (PDict [("id", PStr "user_1")]) 0
     = (1, Return (started "task-1")).
Proof.
  intros py_str start. split.
  - apply (medium_start_word_guard py_str Z PInt nat start 1001%Z
             (PDict [("id", PStr "user_1")]) [("id", PStr "user_1")] 1001%Z 0);
      [reflexivity | reflexivity | discriminate | reflexivity | lia].
  - apply (medium_start_word_guard py_str Z PInt nat start 0%Z
             (PDict [("id", PStr "user_1")]) [("id", PStr "user_1")] 0%Z 0);
      [reflexivity | reflexivity | discriminate | reflexivity | lia].
Defined.

End BlogRouterMoreFacts.

(** ** Applying SEO recommendations *)

Module SeoApplierFacts.
Import SeoApplier.

Section Applier.
Variable py_str : pyval -> string.
Variable py_strip : string -> string.
Variable World : Type.
Variable _build_prompt :
  pyval -> pyval -> pyval -> pyval -> pyval -> pyval -> pyval -> pyval ->
  outcome string.
Variable llm_text_gen : string -> string -> World -> World * outcome pyval.
Variable render_detail : pyval -> string.

Local Abbreviation index_updated := (index_updated py_str py_strip).
Local Abbreviation build_updated_map := (build_updated_map py_str py_strip).
Local Abbreviation fallback_id := (fallback_id py_str py_strip).
Local Abbreviation normalize_section := (normalize_section py_str py_strip).
Local Abbreviation normalize_sections := (normalize_sections py_str py_strip).
Local Abbreviation normalize := (normalize py_str py_strip).
Local Abbreviation apply_recommendations :=
  (apply_recommendations py_str py_strip World _build_prompt llm_text_gen).
Local Abbreviation apply_seo_recommendations :=
  (apply_seo_recommendations py_str py_strip World _build_prompt llm_text_gen
     render_detail).

Lemma well_keyed_empty : well_keyed [].
Proof. intros k v. discriminate. Qed.

Lemma index_updated_keyed m updated m' :
  well_keyed m -> index_updated m updated = Return m' -> well_keyed m'.
Proof.
  intros Hm. unfold SeoApplier.index_updated.
  destruct (as_dict updated) as [u|e]; simpl; [|discriminate].
  destruct (String.eqb _ "") eqn:E; intros [= <-]; [exact Hm|].
  intros k v. rewrite dict_lookup_set.
  destruct (String.eqb k _) eqn:Ek.
  - apply String.eqb_eq in Ek. subst k. intros [= <-].
    eexists. split; [reflexivity|]. split; reflexivity.
  - apply Hm.
Qed.

Lemma build_updated_map_keyed raw m m' :
  well_keyed m -> build_updated_map raw m = Return m' -> well_keyed m'.
Proof.
  revert m. induction raw as [|updated raw IH]; simpl; intros m Hm.
  - by intros [= <-].
  - destruct (index_updated m updated) as [m1|e] eqn:E; simpl; [|discriminate].
    apply IH. eapply index_updated_keyed; eassumption.
Qed.

Lemma normalize_section_id raw_sections m index original out :
  well_keyed m ->
  normalize_section raw_sections m index original = Return out ->
  exists o e, original = PDict o /\ out = PDict e
    /\ dict_lookup "id" e = Some (PStr (fallback_id index o)).
Proof.
  intros Hm. unfold SeoApplier.normalize_section.
  destruct original as [| | | | | |o]; simpl; try discriminate.
  unfold dict_get at 1.
  destruct (dict_lookup (fallback_id index o) m) as [v|] eqn:Ev.
  - destruct (Hm _ _ Ev) as (e & -> & Ht & Hid). rewrite Ht.
    intros [= <-]. exists o, e. unfold dict_get. by rewrite Ev.
  - simpl. destruct (truthy raw_sections).
    + destruct (BlogRouter.py_len raw_sections) as [n|]; simpl; [|discriminate].
      destruct (if Nat.ltb index n then _ else _) as [candidate|]; simpl;
        [|discriminate].
      destruct (as_dict candidate) as [c|]; simpl; [|discriminate].
      intros [= <-]. by do 2 eexists.
    + intros [= <-]. by do 2 eexists.
Qed.

Lemma normalize_sections_ids raw_sections m index originals out :
  well_keyed m ->
  normalize_sections raw_sections m index originals = Return out ->
  length out = length originals
  /\ forall i original, originals !! i = Some original ->
       exists o e, original = PDict o /\ out !! i = Some (PDict e)
         /\ dict_lookup "id" e = Some (PStr (fallback_id (index + i) o)).
Proof.
  intros Hm. revert index out.
  induction originals as [|original rest IH]; simpl; intros index out.
  - intros [= <-]. split; [reflexivity|]. intros i original. discriminate.
  - destruct (normalize_section _ _ _ _) as [mapped|] eqn:E1; simpl; [|discriminate].
    destruct (normalize_sections _ _ _ _) as [normalized|] eqn:E2; simpl;
      [|discriminate].
    intros [= <-]. destruct (IH _ _ E2) as [Hlen Hids].
    split; [simpl; by rewrite Hlen|].
    intros [|i] orig; simpl.
    + intros [= <-]. rewrite Nat.add_0_r.
      destruct (normalize_section_id _ _ _ _ _ Hm E1) as (o & e & -> & -> & Hid).
      by exists o, e.
    + intros Hi. destruct (Hids _ _ Hi) as (o & e & -> & Ho & Hid).
      exists o, e. by rewrite <- Nat.add_succ_comm.
Qed.

(** Whatever the text generator answers, a successful application keeps
    the shape of the article: the result has exactly one section per
    section of the request, in the same order, each a dictionary whose
    [id] is the identifier of the original section (its [id], else its
    [section_id], else [section_<position>]). *)
Theorem applied_sections_keep_their_ids payload user_id w w' result :
  truthy (dict_get "recommendations" (PList []) payload) = true ->
  apply_recommendations payload user_id w = (w', Return result) ->
  truthy (dict_get "success" PNone result) = true ->
  exists originals normalized,
    py_iter (dict_get "sections" (PList []) payload) = Return originals
    /\ dict_lookup "sections" result = Some (PList normalized)
    /\ length normalized = length originals
    /\ forall i original, originals !! i = Some original ->
         exists o e, original = PDict o /\ normalized !! i = Some (PDict e)
           /\ dict_lookup "id" e = Some (PStr (fallback_id i o)).
Proof.
  intros Hrec. unfold SeoApplier.apply_recommendations.
  destruct user_id as [uid|]; [|discriminate].
  destruct (String.eqb uid ""); [discriminate|].
  destruct (truthy (dict_get "sections" _ payload)); simpl;
    [|intros [= _ <-]; discriminate].
  rewrite Hrec. simpl.
  destruct (_build_prompt _ _ _ _ _ _ _ _) as [prompt|]; [|discriminate].
  destruct (llm_text_gen prompt uid w) as [w1 [answer|]]; simpl; [|discriminate].
  unfold SeoApplier.normalize.
  destruct (truthy answer); simpl; [|intros [= _ <-]; discriminate].
  destruct (as_dict answer) as [r|]; simpl; [|discriminate].
  destruct (truthy (dict_get "error" PNone r)); [intros [= _ <-]; discriminate|].
  destruct (py_iter (py_or _ _)) as [raw|]; simpl; [|discriminate].
  destruct (build_updated_map raw []) as [m|] eqn:Em; simpl; [|discriminate].
  destruct (py_iter (dict_get "sections" _ payload)) as [originals|]; simpl;
    [|discriminate].
  destruct (normalize_sections _ m 0 originals) as [normalized|] eqn:En; simpl;
    [|discriminate].
  intros [= _ <-] _.
  pose proof (build_updated_map_keyed _ _ _ well_keyed_empty Em) as Hm.
  destruct (normalize_sections_ids _ _ _ _ _ Hm En) as [Hlen Hids].
  exists originals, normalized. repeat split; try done.
Qed.

(** The text generator is only called for a request that has both
    sections and recommendations.  Without sections the route answers
    500 with the applier's message; with sections but no
    recommendations it returns the sections as they came, with nothing
    applied.  In both cases the world is left as it was. *)
Theorem nothing_to_apply_skips_the_generator request current_user d w :
  current_user = PDict d ->
  truthy current_user = true ->
  py_str (dict_get "id" (PStr "") d) <> "" ->
  (truthy (dict_get "sections" (PList []) request) = false ->
   apply_seo_recommendations request current_user w
   = (w, Raise (HTTPException 500
                  "No sections provided for recommendation application")))
  /\ (truthy (dict_get "sections" (PList []) request) = true ->
      truthy (dict_get "recommendations" (PList []) request) = false ->
      apply_seo_recommendations request current_user w
      = (w, Return [("success", PBool true);
                    ("title", dict_get "title" (PStr "Untitled Blog") request);
                    ("sections", dict_get "sections" (PList []) request);
                    ("applied", PList [])])).
Proof.
  intros -> Ht Hid. apply String.eqb_neq in Hid.
  unfold SeoApplier.apply_seo_recommendations, BlogRouterMore.user_id_or_401,
    SeoApplier.apply_recommendations.
  rewrite Ht. simpl. rewrite Hid. simpl. rewrite Hid. split.
  - intros ->. reflexivity.
  - intros -> ->. reflexivity.
Qed.

(** An error reported by the text generator becomes a 500 carrying the
    generator's message, and no section is touched. *)
Theorem generator_error_is_500 request current_user d prompt w w1 r msg :
  current_user = PDict d ->
  truthy current_user = true ->
  py_str (dict_get "id" (PStr "") d) <> "" ->
  truthy (dict_get "sections" (PList []) request) = true ->
  truthy (dict_get "recommendations" (PList []) request) = true ->
  _build_prompt (dict_get "title" (PStr "Untitled Blog") request)
    (dict_get "sections" (PList []) request)
    (dict_get "outline" (PList []) request)
    (dict_get "research" (PDict []) request)
    (dict_get "recommendations" (PList []) request)
    (dict_get "persona" (PDict []) request)
    (dict_get "tone" PNone request)
    (dict_get "audience" PNone request) = Return prompt ->
  llm_text_gen prompt (py_str (dict_get "id" (PStr "") d)) w = (w1, Return (PDict r)) ->
  dict_lookup "error" r = Some (PStr msg) ->
  msg <> "" ->
  apply_seo_recommendations request current_user w
  = (w1, Raise (HTTPException 500 msg)).
Proof.
  intros -> Ht Hid Hs Hr Hp Hl He Hmsg. apply String.eqb_neq in Hid, Hmsg.
  unfold SeoApplier.apply_seo_recommendations, BlogRouterMore.user_id_or_401,
    SeoApplier.apply_recommendations.
  rewrite Ht. simpl. rewrite Hid. simpl. rewrite Hid, Hs, Hr. simpl.
  rewrite Hp, Hl. simpl.
  unfold SeoApplier.normalize.
  assert (Hr' : truthy (PDict r) = true) by (destruct r; [discriminate He|done]).
  rewrite Hr'. simpl.
  assert (Hget : forall dflt, dict_get "error" dflt r = PStr msg)
    by (intros dflt; unfold dict_get; by rewrite He).
  rewrite !Hget. simpl. rewrite Hmsg. reflexivity.
Qed.
End Applier.

Lemma applied_sections_keep_their_ids_witness :
  let py_str v := match v with PStr s => s | _ => "" end in
  let payload :=
    [("title", PStr "Foxes");
     ("sections",
      PList [PDict [("id", PStr "s1"); ("heading", PStr "Habitat");
                    ("content", PStr "Foxes live in dens.")];
             PDict [("heading", PStr "Diet"); ("content", PStr "Foxes eat voles.")]]);
     ("recommendations",
      PList [PDict [("category", PStr "Structure");
                    ("recommendation", PStr "Add keywords")]])] in
  exists originals normalized,
    py_iter (dict_get "sections" (PList []) payload) = Return originals
    /\ dict_lookup "sections"
         [("success", PBool true); ("title", PStr "Red foxes");
          ("sections",
           PList [PDict [("id", PStr "s1"); ("heading", PStr "Where foxes live");
                         ("content", PStr "Red foxes live in dens.");
                         ("notes", PList [])];
                  PDict [("id", PStr "section_2"); ("heading", PStr "Diet");
                         ("content", PStr "Foxes eat voles.");
                         ("notes", PList [])]]);
          ("applied", PList [])]
       = Some (PList normalized)
    /\ length normalized = length originals
    /\ forall i original, originals !! i = Some original ->
         exists o e, original = PDict o /\ normalized !! i = Some (PDict e)
           /\ dict_lookup "id" e
              = Some (PStr (fallback_id py_str (fun s => s) i o)).
Proof.
  intros py_str payload.
  apply (applied_sections_keep_their_ids py_str (fun s => s) nat
           (fun _ _ _ _ _ _ _ _ => Return "prompt")
           (fun _ _ n =>
              (S n,
               Return (PDict [("title", PStr "Red foxes");
                              ("sections",
                               PList [PDict [("id", PStr "s1");
                                             ("heading", PStr "Where foxes live");
                                             ("content",
                                              PStr "Red foxes live in dens.")]])])))
           payload (Some "user_1") 0 1).
  - reflexivity.
  - vm_compute. reflexivity.
  - reflexivity.
Defined.

Lemma nothing_to_apply_skips_the_generator_witness :
  let py_str v := match v with PStr s => s | _ => "" end in
  let llm (_ _ : string) (n : nat) := (S n, Return PNone) in
  let prompt (_ _ _ _ _ _ _ _ : pyval) := Return "prompt" in
  let sections := PList [PDict [("id", PStr "s1"); ("content", PStr "text")]] in
  apply_seo_recommendations py_str (fun s => s) nat prompt llm py_str
    [("title", PStr "Foxes"); ("sections", PList [])]
    (PDict [("id", PStr "user_1")]) 0
  = (0, Raise (HTTPException 500
                 "No sections provided for recommendation application"))
  /\ apply_seo_recommendations py_str (fun s => s) nat prompt llm py_str
       [("title", PStr "Foxes"); ("sections", sections)]
       (PDict [("id", PStr "user_1")]) 0
     = (0, Return [("success", PBool true);
                   ("title", PStr "Foxes");
                   ("sections", sections);
                   ("applied", PList [])]).
Proof.
  intros py_str llm prompt sections. split.
  - apply (nothing_to_apply_skips_the_generator py_str (fun s => s) nat prompt llm
             py_str [("title", PStr "Foxes"); ("sections", PList [])]
             (PDict [("id", PStr "user_1")]) [("id", PStr "user_1")] 0);
      [reflexivity | reflexivity | discriminate | reflexivity].
  - apply (nothing_to_apply_skips_the_generator py_str (fun s => s) nat prompt llm
             py_str [("title", PStr "Foxes"); ("sections", sections)]
             (PDict [("id", PStr "user_1")]) [("id", PStr "user_1")] 0);
      [reflexivity | reflexivity | discriminate | reflexivity | reflexivity].
Defined.

Lemma generator_error_is_500_witness :
  let py_str v := match v with PStr s => s | _ => "" end in
  apply_seo_recommendations py_str (fun s => s) nat
    (fun _ _ _ _ _ _ _ _ => Return "prompt")
    (fun _ _ n => (S n, Return (PDict [("error", PStr "Rate limit exceeded")])))
    py_str
    [("sections", PList [PDict [("id", PStr "s1"); ("content", PStr "text")]]);
     ("recommendations", PList [PDict [("recommendation", PStr "Add keywords")]])]
    (PDict [("id", PStr "user_1")]) 0
  = (1, Raise (HTTPException 500 "Rate limit exceeded")).
Proof.
  intros py_str.
  apply (generator_error_is_500 py_str (fun s => s) nat
           (fun _ _ _ _ _ _ _ _ => Return "prompt")
           (fun _ _ n => (S n, Return (PDict [("error", PStr "Rate limit exceeded")])))
           py_str _ _ [("id", PStr "user_1")] "prompt" 0 1
           [("error", PStr "Rate limit exceeded")] "Rate limit exceeded");
    (reflexivity || discriminate).
Defined.

End SeoApplierFacts.

(** ** Podcast scripts *)

Module PodcastScriptFacts.
Import PodcastScript.

Section Script.
Variable py_str : pyval -> string.
Variable py_strip : string -> string.
Variable py_int : pyval -> outcome Z.
Variable json_loads : string -> option pyval.
Variable PodcastScriptRequest : Type.
Variable duration_minutes : PodcastScriptRequest -> Z.
Variable speakers : PodcastScriptRequest -> Z.
Variable build_prompt : PodcastScriptRequest -> string.
Variable llm_text_gen : string -> string -> outcome pyval.
Variable validate_line : PodcastSceneLine -> outcome unit.
Variable validate_scene : PodcastScene -> outcome unit.

Local Abbreviation default_speaker := (default_speaker PodcastScriptRequest speakers).
Local Abbreviation normalize_lines :=
  (normalize_lines PodcastScriptRequest speakers validate_line).
Local Abbreviation default_duration :=
  (default_duration PodcastScriptRequest duration_minutes).
Local Abbreviation normalize_scene :=
  (normalize_scene py_int PodcastScriptRequest duration_minutes speakers
     validate_line validate_scene).
Local Abbreviation normalize_scenes :=
  (normalize_scenes py_int PodcastScriptRequest duration_minutes speakers
     validate_line validate_scene).
Local Abbreviation generate_podcast_script :=
  (generate_podcast_script py_str py_strip py_int json_loads PodcastScriptRequest
     duration_minutes speakers build_prompt llm_text_gen validate_line
     validate_scene).

Lemma default_speaker_truthy request n v :
  default_speaker request n = Return v -> truthy v = true.
Proof.
  unfold PodcastScript.default_speaker.
  destruct (speakers request =? 0)%Z; [discriminate|].
  intros [= <-]. by destruct (_ =? 0)%Z.
Qed.

Lemma normalize_lines_ok request lines_raw acc lines :
  Forall line_ok acc ->
  normalize_lines request lines_raw acc = Return lines ->
  Forall line_ok lines.
Proof.
  revert acc. induction lines_raw as [|line rest IH]; simpl; intros acc Hacc.
  - by intros [= <-].
  - destruct (as_dict line) as [l|]; simpl; [|discriminate].
    destruct (truthy (dict_get "speaker" PNone l)) eqn:Hsp; simpl.
    + destruct (truthy (py_or (dict_get "text" PNone l) (PStr ""))) eqn:Htx;
        [|by apply IH].
      destruct (validate_line _) as [[]|]; simpl; [|discriminate].
      apply IH. apply Forall_app. split; [done|]. by repeat constructor.
    + destruct (default_speaker request (length acc)) as [v|] eqn:Hd; simpl;
        [|discriminate].
      destruct (truthy (py_or (dict_get "text" PNone l) (PStr ""))) eqn:Htx;
        [|by apply IH].
      destruct (validate_line _) as [[]|]; simpl; [|discriminate].
      apply IH. apply Forall_app. split; [done|].
      repeat constructor; simpl; [done|]. eapply default_speaker_truthy, Hd.
Qed.

Lemma label_truthy given label :
  truthy (py_or given (PStr (String label.1 label.2))) = true.
Proof. unfold py_or. by destruct (truthy given) eqn:E. Qed.

Lemma normalize_scene_ok request n idx scene made :
  normalize_scene request n idx scene = Return made -> scene_ok made.
Proof.
  unfold PodcastScript.normalize_scene.
  destruct (as_dict scene) as [s|]; simpl; [|discriminate].
  destruct (if truthy (dict_get "duration" PNone s) then _ else _) as [duration|];
    simpl; [|discriminate].
  destruct (not_a_valid_emotion _) as [invalid|] eqn:Hem; simpl; [|discriminate].
  destruct (py_iter _) as [lines_raw|]; simpl; [|discriminate].
  destruct (normalize_lines request lines_raw []) as [lines|] eqn:Hl; simpl;
    [|discriminate].
  destruct (validate_scene _) as [[]|]; simpl; [|discriminate].
  intros [= <-]. unfold scene_ok. simpl. split; [|split; [done|split; [|split]]].
  - destruct invalid.
    + exists "neutral". split; [done|]. by apply (bool_decide_unpack _).
    + unfold not_a_valid_emotion in Hem.
      destruct (py_or (dict_get "emotion" PNone s) (PStr "neutral"));
        try discriminate.
      injection Hem as Hem. eexists. split; [done|].
      apply negb_false_iff in Hem. by apply bool_decide_eq_true_1 in Hem.
  - apply (label_truthy _ ("S"%char, _)).
  - apply (label_truthy _ ("s"%char, _)).
  - eapply normalize_lines_ok; [|exact Hl]. constructor.
Qed.

(** The default duration is never below half a minute, whatever the
    requested length and the number of scenes. *)
Lemma default_duration_floor request n : (30 <= default_duration request n)%Z.
Proof. unfold PodcastScript.default_duration. lia. Qed.

Lemma normalize_scenes_ok request n idx scenes_data scenes :
  normalize_scenes request n idx scenes_data = Return scenes ->
  Forall scene_ok scenes
  /\ Forall2 (fun scene made =>
       exists s, scene = PDict s
         /\ (truthy (dict_get "duration" PNone s) = false ->
             (30 <= duration made)%Z))
       scenes_data scenes.
Proof.
  revert idx scenes. induction scenes_data as [|scene rest IH]; simpl;
    intros idx scenes.
  - intros [= <-]. split; constructor.
  - destruct (normalize_scene request n idx scene) as [made|] eqn:E1; simpl;
      [|discriminate].
    destruct (normalize_scenes request n (S idx) rest) as [tl|] eqn:E2; simpl;
      [|discriminate].
    intros [= <-]. destruct (IH _ _ E2) as [H1 H2].
    split; constructor; try done.
    + eapply normalize_scene_ok, E1.
    + clear -E1. unfold PodcastScript.normalize_scene in E1.
      destruct scene as [| | | | | |s]; simpl in E1; try discriminate.
      exists s. split; [done|]. intros Hd. rewrite Hd in E1. simpl in E1.
      destruct (not_a_valid_emotion _); simpl in E1; [|discriminate].
      destruct (py_iter _); simpl in E1; [|discriminate].
      destruct (PodcastScript.normalize_lines _ _ _ _ _ _); simpl in E1;
        [|discriminate].
      destruct (validate_scene _) as [[]|]; simpl in E1; [|discriminate].
      simplify_eq. simpl. apply default_duration_floor.
Qed.

(** Every scene of a script that [generate_podcast_script] returns is
    normalised, whatever the text generator produced: its emotion is one
    of the six valid ones, it is not approved, its title and identifier
    are not empty, and each of its lines has a text and a speaker. *)
Theorem returned_script_is_normalized request current_user scenes :
  generate_podcast_script request current_user = Return scenes ->
  Forall scene_ok scenes.
Proof.
  unfold PodcastScript.generate_podcast_script.
  destruct (StoryVideo.require_authenticated_user _ _ _) as [user_id|]; simpl;
    [|discriminate].
  destruct (llm_text_gen _ _) as [raw|]; simpl; [|discriminate].
  destruct (parse_raw json_loads raw) as [data|]; simpl; [|discriminate].
  destruct (as_dict data) as [d|]; simpl; [|discriminate].
  destruct (py_or _ _); try discriminate.
  intros H. by apply normalize_scenes_ok in H as [H _].
Qed.

(** The scene loop keeps one scene per scene of the generator's answer,
    in order, and a scene that came without a duration gets one of at
    least 30 seconds. *)
Theorem scenes_without_duration_get_at_least_30s request n idx scenes_data scenes :
  normalize_scenes request n idx scenes_data = Return scenes ->
  Forall2 (fun scene made =>
    exists s, scene = PDict s
      /\ (truthy (dict_get "duration" PNone s) = false ->
          (30 <= duration made)%Z))
    scenes_data scenes.
Proof. intros H. by apply normalize_scenes_ok in H as [_ H]. Qed.

(** A failure of the text generator always reaches the client as a 500,
    even when the generator raised an [HTTPException] of its own, such
    as a 429: the original status only survives inside the detail. *)
Theorem script_generation_failure_is_500 request current_user user_id exc :
  StoryVideo.require_authenticated_user py_str py_strip current_user
  = Return user_id ->
  llm_text_gen (build_prompt request) user_id = Raise exc ->
  generate_podcast_script request current_user
  = Raise (HTTPException 500 ("Script generation failed: " ++ str_exn exc)).
Proof.
  intros Hu Hl. unfold PodcastScript.generate_podcast_script.
  rewrite Hu. simpl. rewrite Hl. reflexivity.
Qed.
End Script.

Lemma returned_script_is_normalized_witness :
  Forall scene_ok
    [mk_scene (PStr "scene-1") (PStr "Intro") 300
       [mk_line (PStr "Host") (PStr "Hello") (PBool false)] false (PStr "neutral")].
Proof.
  apply (returned_script_is_normalized
           (fun v => match v with PStr s => s | _ => "" end) (fun s => s)
           (fun v => match v with
                     | PInt z => Return z
                     | _ => Raise (PyError "ValueError" "invalid literal for int()")
                     end)
           (fun _ => None) unit (fun _ => 5%Z) (fun _ => 2%Z) (fun _ => "prompt")
           (fun _ _ =>
              Return (PDict [("scenes",
                              PList [PDict [("title", PStr "Intro");
                                            ("emotion", PStr "angry");
                                            ("lines",
                                             PList [PDict [("text", PStr "Hello")];
                                                    PDict [("speaker", PStr "Guest")]])]])]))
           (fun _ => Return tt) (fun _ => Return tt)
           tt (PDict [("id", PStr "user_1")])).
  vm_compute. reflexivity.
Defined.

Lemma scenes_without_duration_get_at_least_30s_witness :
  Forall2 (fun scene made =>
    exists s, scene = PDict s
      /\ (truthy (dict_get "duration" PNone s) = false ->
          (30 <= duration made)%Z))
    [PDict [("title", PStr "Intro")]; PDict [("duration", PInt 12)]]
    [mk_scene (PStr "scene-1") (PStr "Intro") 30 [] false (PStr "neutral");
     mk_scene (PStr "scene-2") (PStr "Scene 2") 12 [] false (PStr "neutral")].
Proof.
  apply (scenes_without_duration_get_at_least_30s
           (fun v => match v with
                     | PInt z => Return z
                     | _ => Raise (PyError "ValueError" "invalid literal for int()")
                     end)
           unit (fun _ => 0%Z) (fun _ => 2%Z)
           (fun _ => Return tt) (fun _ => Return tt) tt 2 0).
  vm_compute. reflexivity.
Defined.

Lemma script_generation_failure_is_500_witness :
  generate_podcast_script (fun v => match v with PStr s => s | _ => "" end)
    (fun s => s) (fun _ => Return 0%Z) (fun _ => None) unit
    (fun _ => 5%Z) (fun _ => 2%Z) (fun _ => "prompt")
    (fun _ _ => Raise (HTTPException 429 "Too many requests"))
    (fun _ => Return tt) (fun _ => Return tt) tt (PDict [("id", PStr "user_1")])
  = Raise (HTTPException 500 "Script generation failed: 429: Too many requests").
Proof.
  apply (script_generation_failure_is_500
           (fun v => match v with PStr s => s | _ => "" end)
           (fun s => s) (fun _ => Return 0%Z) (fun _ => None) unit
           (fun _ => 5%Z) (fun _ => 2%Z) (fun _ => "prompt")
           (fun _ _ => Raise (HTTPException 429 "Too many requests"))
           (fun _ => Return tt) (fun _ => Return tt) tt
           (PDict [("id", PStr "user_1")]) "user_1"
           (HTTPException 429 "Too many requests")); reflexivity.
Defined.

End PodcastScriptFacts.

(** ** Cache headers of the frontend *)

Module FrontendServingFacts.
Import FrontendServing.

Lemma hash_tail_sound n s :
  hash_tail n s = true ->
  exists hash rest,
    s = hash ++ String "." rest /\ all_hex hash = true
    /\ 8 <= n + String.length hash.
Proof.
  revert n. induction s as [|c s IH]; cbn [hash_tail]; intros n; [discriminate|].
  destruct (is_hex c) eqn:Hc.
  - intros H. destruct (IH _ H) as (hash & rest & -> & Hh & Hlen).
    exists (String c hash), rest. simpl. rewrite Hc, Hh.
    repeat split; try done. lia.
  - intros [Hdot Hn]%andb_true_iff. apply Ascii.eqb_eq in Hdot. subst c.
    apply Nat.leb_le in Hn. exists EmptyString, s. simpl.
    repeat split; try done. lia.
Qed.

Lemma hash_tail_complete n hash rest :
  all_hex hash = true -> 8 <= n + String.length hash ->
  hash_tail n (hash ++ String "." rest) = true.
Proof.
  revert n. induction hash as [|c hash IH]; intros n.
  - intros _ Hn. change (hash_tail n ("" ++ String "." rest)) with (8 <=? n)%nat.
    apply Nat.leb_le. simpl in Hn. lia.
  - intros [Hc Hh]%andb_true_iff Hn.
    change (hash_tail n (String c hash ++ String "." rest))
      with (if is_hex c then hash_tail (S n) (hash ++ String "." rest)
            else Ascii.eqb c "." && (8 <=? n)%nat).
    rewrite Hc. apply IH; [done|]. simpl in Hn. lia.
Qed.

(** [has_hash] is the regular expression: it holds exactly of the
    strings that contain a dot, at least eight characters of
    [[a-f0-9]], and a dot. *)
Lemma has_hash_spec path :
  has_hash path = true <->
  exists before hash rest,
    path = before ++ String "." (hash ++ String "." rest)
    /\ all_hex hash = true /\ 8 <= String.length hash.
Proof.
  split.
  - induction path as [|c s IH]; simpl; [discriminate|].
    intros [[Hdot Ht]%andb_true_iff|H]%orb_true_iff.
    + apply Ascii.eqb_eq in Hdot. subst c.
      destruct (hash_tail_sound _ _ Ht) as (hash & rest & -> & Hh & Hlen).
      by exists EmptyString, hash, rest.
    + destruct (IH H) as (before & hash & rest & -> & Hh & Hlen).
      by exists (String c before), hash, rest.
  - intros (before & hash & rest & -> & Hh & Hlen).
    induction before as [|c before IH]; simpl.
    + by rewrite hash_tail_complete.
    + rewrite IH. apply orb_true_r.
Qed.

(** The middleware marks a response as immutable for a year only when
    the request path lies below [/static/] and its lower-cased form has
    a cacheable extension and a part of at least eight hexadecimal
    characters between two dots. *)
Theorem immutable_needs_a_hashed_static_name expires path headers :
  dispatch expires path headers !! "cache-control" = Some immutable ->
  headers !! "cache-control" <> Some immutable ->
  String.prefix "/static/" path = true
  /\ is_cacheable_file (lower path) = true
  /\ exists before hash rest,
       lower path = before ++ String "." (hash ++ String "." rest)
       /\ all_hex hash = true /\ 8 <= String.length hash.
Proof.
  unfold dispatch. intros H Hold.
  destruct (String.prefix "/static/" path).
  - destruct (is_cacheable_file (lower path)); [|done].
    destruct (has_hash (lower path)) eqn:Hh.
    + split; [done|]. split; [done|]. by apply has_hash_spec.
    + by rewrite lookup_insert_eq in H.
  - destruct (_ || _); [|done].
    rewrite lookup_insert_ne, lookup_insert_ne, lookup_insert_eq in H by done.
    discriminate.
Qed.

(** The middleware only ever writes the three caching headers; every
    other header of the response is passed on as it was. *)
Theorem dispatch_keeps_other_headers expires path headers name :
  name <> "cache-control" -> name <> "expires" -> name <> "pragma" ->
  dispatch expires path headers !! name = headers !! name.
Proof.
  intros H1 H2 H3. unfold dispatch.
  repeat case_match; by rewrite ?lookup_insert_ne.
Qed.

(** A string ends with the last character of any suffix it has. *)
Lemma endswith_last suffix s :
  endswith suffix s = true -> suffix <> "" ->
  String.get (String.length s - 1) s
  = String.get (String.length suffix - 1) suffix.
Proof.
  unfold endswith. intros [Hlen Hs]%andb_true_iff Hne.
  apply Nat.leb_le in Hlen. apply String.eqb_eq in Hs.
  assert (0 < String.length suffix) by (destruct suffix; [done|simpl; lia]).
  rewrite <- Hs at 2.
  rewrite substring_correct1 by lia. f_equal. lia.
Qed.

(** An HTML page below [/static/] is not covered by the no-cache rule:
    the middleware leaves its headers alone, while the same page
    elsewhere is marked as never to be cached. *)
Theorem static_html_is_left_alone expires path headers :
  endswith ".html" (lower path) = true ->
  (String.prefix "/static/" path = true ->
   dispatch expires path headers = headers)
  /\ (String.prefix "/static/" path = false ->
      endswith ".html" path = true ->
      dispatch expires path headers !! "cache-control"
      = Some "no-cache, no-store, must-revalidate").
Proof.
  intros Hhtml. unfold dispatch. split.
  - intros ->.
    assert (Hno : is_cacheable_file (lower path) = false); [|by rewrite Hno].
    apply endswith_last in Hhtml; [|done]. simpl in Hhtml.
    unfold is_cacheable_file, cacheable_extensions, existsb.
    repeat match goal with
      | |- context [endswith ?ext (lower path)] =>
          let E := fresh "E" in
          destruct (endswith ext (lower path)) eqn:E;
          [apply endswith_last in E; [|done];
           rewrite Hhtml in E; discriminate E|]
      end.
    reflexivity.
  - intros -> ->. rewrite orb_true_r.
    by rewrite lookup_insert_ne, lookup_insert_ne, lookup_insert_eq.
Qed.

Lemma immutable_needs_a_hashed_static_name_witness :
  String.prefix "/static/" "/static/js/Main.1a2b3c4d5e.chunk.js" = true
  /\ is_cacheable_file (lower "/static/js/Main.1a2b3c4d5e.chunk.js") = true
  /\ exists before hash rest,
       lower "/static/js/Main.1a2b3c4d5e.chunk.js"
       = before ++ String "." (hash ++ String "." rest)
       /\ all_hex hash = true /\ 8 <= String.length hash.
Proof.
  apply (immutable_needs_a_hashed_static_name "Thu, 04 Nov 2027 00:00:00 GMT"
           "/static/js/Main.1a2b3c4d5e.chunk.js" ∅).
  - vm_compute. reflexivity.
  - rewrite lookup_empty. discriminate.
Defined.

Lemma dispatch_keeps_other_headers_witness :
  dispatch "Thu, 04 Nov 2027 00:00:00 GMT" "/static/js/main.1a2b3c4d5e.js"
    {[ "content-type" := "text/javascript" ]} !! "content-type"
  = ({[ "content-type" := "text/javascript" ]} : gmap string string)
      !! "content-type".
Proof.
  apply (dispatch_keeps_other_headers "Thu, 04 Nov 2027 00:00:00 GMT"
           "/static/js/main.1a2b3c4d5e.js" {[ "content-type" := "text/javascript" ]}
           "content-type"); discriminate.
Defined.

Lemma static_html_is_left_alone_witness :
  dispatch "Thu, 04 Nov 2027 00:00:00 GMT" "/static/index.html" ∅ = ∅
  /\ dispatch "Thu, 04 Nov 2027 00:00:00 GMT" "/docs/index.html" ∅ !! "cache-control"
     = Some "no-cache, no-store, must-revalidate".
Proof.
  split.
  - apply (static_html_is_left_alone "Thu, 04 Nov 2027 00:00:00 GMT"
             "/static/index.html" ∅); reflexivity.
  - apply (static_html_is_left_alone "Thu, 04 Nov 2027 00:00:00 GMT"
             "/docs/index.html" ∅); reflexivity.
Defined.

End FrontendServingFacts.

(** ** The HTML sent to the Wix Ricos API *)

Module WixRicosFacts.
Import WixRicos.

Section Convert.
Variable char : Type.
Context `{EqDecision char}.
Variable of_ascii : ascii -> char.
Variable strip : list char -> list char.
Variable markdown_to_html : list char -> outcome (list char).
(** Stripping removes characters, it never adds any. *)
Hypothesis strip_shortens : forall s, length (strip s) <= length s.

Local Abbreviation lit := (lit char of_ascii).
Local Abbreviation matches_at := (@matches_at char _).
Local Abbreviation rfind_below := (@rfind_below char _).
Local Abbreviation rfind := (@rfind char _).
Local Abbreviation strip_or_empty := (strip_or_empty char strip).
Local Abbreviation truncate := (@truncate char _ of_ascii).
Local Abbreviation html_payload :=
  (@html_payload char _ of_ascii strip markdown_to_html).

Lemma lit_length s : length (lit s) = String.length s.
Proof.
  unfold WixRicos.lit. rewrite length_map.
  induction s; simpl; congruence.
Qed.

Lemma rfind_below_bound (sub s : list char) n :
  (rfind_below sub s n < Z.of_nat n)%Z.
Proof.
  induction n as [|i IH]; cbn [rfind_below]; [lia|].
  destruct (matches_at sub s i); lia.
Qed.

(** A match found by [rfind] ends at or before the end of the range. *)
Lemma rfind_bound (sub s : list char) end_ :
  (0 <= rfind sub s end_)%Z ->
  (rfind sub s end_ + Z.of_nat (length sub) <= Z.of_nat end_)%Z.
Proof.
  unfold WixRicos.rfind.
  destruct (Nat.leb_spec (length sub) (Nat.min end_ (length s))); [|lia].
  pose proof (rfind_below_bound sub s (S (Nat.min end_ (length s) - length sub))).
  lia.
Qed.

Lemma strip_or_empty_shortens s : length (strip_or_empty s) <= length s.
Proof. destruct s; [done|]. apply strip_shortens. Qed.

Lemma truncate_bound html_content :
  (Z.of_nat (length (truncate html_content)) <= MAX_HTML_LENGTH)%Z.
Proof.
  unfold WixRicos.truncate, MAX_HTML_LENGTH.
  rewrite length_app, lit_length.
  pose proof (rfind_bound (lit "</p>") html_content (Z.to_nat (10000 - 100))) as Hb.
  rewrite lit_length in Hb.
  change (String.length "</p>") with 4 in Hb.
  change (String.length truncation_notice) with 65.
  destruct (Z.ltb_spec 0 (rfind (lit "</p>") html_content (Z.to_nat (10000 - 100))));
    rewrite length_take; lia.
Qed.

(** Whatever the markdown and its conversion, the [html] field posted to
    the Wix API is not empty and has at most 10,000 characters, the
    limit of that API. *)
Theorem wix_html_fits_the_limit markdown_content html :
  html_payload markdown_content = Return html ->
  (0 < Z.of_nat (length html) <= MAX_HTML_LENGTH)%Z.
Proof.
  unfold WixRicos.html_payload.
  destruct (strip_or_empty markdown_content) as [|c0 md]; [discriminate|].
  destruct (markdown_to_html (c0 :: md)) as [html_content|]; simpl; [|discriminate].
  set (h1 := match strip_or_empty html_content with
             | [] => lit "<p>Content from ALwrity blog writer.</p>"
             | _ :: _ => strip_or_empty html_content
             end).
  set (h2 := if (MAX_HTML_LENGTH <? Z.of_nat (length h1))%Z
             then truncate h1 else h1).
  assert (Hh2 : (Z.of_nat (length h2) <= MAX_HTML_LENGTH)%Z).
  { unfold h2. destruct (Z.ltb_spec MAX_HTML_LENGTH (Z.of_nat (length h1))); [|done].
    apply truncate_bound. }
  pose proof (strip_or_empty_shortens h2) as Hs.
  destruct (strip_or_empty h2) as [|c h]; [discriminate|].
  intros [= <-]. simpl in *. lia.
Qed.
End Convert.

Lemma wix_html_fits_the_limit_witness :
  exists html,
    html_payload ascii (fun c => c) (fun s => s)
      (fun md => Return (repeat "a"%char (Z.to_nat 12000)))
      (list_ascii_of_string "# Foxes")
    = Return html
    /\ (0 < Z.of_nat (length html) <= MAX_HTML_LENGTH)%Z.
Proof.
  eexists. split.
  - vm_compute. reflexivity.
  - apply (wix_html_fits_the_limit ascii (fun c => c) (fun s => s)
             (fun md => Return (repeat "a"%char (Z.to_nat 12000)))
             (fun s => le_n _) (list_ascii_of_string "# Foxes")).
    vm_compute. reflexivity.
Defined.

End WixRicosFacts.
